(** * nanoleaf-go: discovery engine, device session and orchestration service

    A shallow embedding of the Go sources of the controller:
    - [FileConfigManager] (the session store backed by one JSON file),
    - [NanoleafService] (the orchestration layer returning [ServiceResult]s),
    - [Device] (the device session of the first design),
    - [NetworkScanner] (the worker-pool subnet scan),
    followed by the properties checked against the specification. *)

From stdpp Require Import base strings list pretty.
From Stdlib Require Import ZArith Lia Ascii.

Open Scope string_scope.
Open Scope Z_scope.
Open Scope nat_scope.

(** ** Go values *)

(** A Go [error] is observed only through [Error()]: [None] is [nil]. *)
Definition error : Type := option string.

(** A pair [(value, error)] as returned by fallible Go functions. *)
Inductive result (A : Type) : Type :=
| Ok (a : A)
| Err (msg : string).
Arguments Ok {A} a.
Arguments Err {A} msg.

(** Code that touches collaborators threads a world [W] through its calls. *)
Definition M (W A : Type) : Type := W → A * W.

Global Instance M_ret {W} : MRet (M W) := λ A a w, (a, w).

Global Instance M_bind {W} : MBind (M W) := λ A B k c w,
  let '(a, w') := c w in k a w'.

Definition ret {W A} (a : A) : M W A := mret a.

(** ** The session store: config.go *)

Record Config : Type := { IP : string; Token : string }.

(** What [os.Stat]/[os.ReadFile] can find at the configuration path. *)
Inductive node : Type :=
| NotExist
| File (data : string)
| Unreadable (cause : string).

(** The file system as far as the store sees it; [write_error] is the error the
    next [os.WriteFile] reports, if any (the file is then left as it was). *)
Record Disk : Type := { node_at : node; write_error : error }.

Definition os_WriteFile (data : string) : M Disk error := λ d,
  match write_error d with
  | Some e => (Some e, d)
  | None => (None, {| node_at := File data; write_error := None |})
  end.

Definition os_ReadFile : M Disk (result string) := λ d,
  match node_at d with
  | NotExist => (Err "no such file or directory", d)
  | File data => (Ok data, d)
  | Unreadable cause => (Err cause, d)
  end.

(** [os.Stat] followed by [!os.IsNotExist(err)]. *)
Definition os_Stat_exists : M Disk bool := λ d,
  match node_at d with
  | NotExist => (false, d)
  | _ => (true, d)
  end.

(** [encoding/json] on the two-field record, a collaborator of the store. *)
Class JsonCodec : Type := {
  json_MarshalIndent : Config → result string;
  json_Unmarshal : string → result Config
}.

(** Decoding what was encoded gives the record back. *)
Class JsonCodecLaws `{JsonCodec} : Prop := {
  unmarshal_marshal c data :
    json_MarshalIndent c = Ok data → json_Unmarshal data = Ok c
}.

Module FileConfigManager.
Section WithCodec.
Context `{JsonCodec}.

Definition Save (ip token : string) : M Disk error :=
  if decide (ip = "" ∨ token = "") then
    ret (Some "ip and token cannot be empty")
  else
    let config := {| IP := ip; Token := token |} in
    match json_MarshalIndent config with
    | Err e => ret (Some ("failed to marshal config: " +:+ e))
    | Ok data =>
        err ← os_WriteFile data;
        match err with
        | Some e => ret (Some ("failed to write config file: " +:+ e))
        | None => ret None
        end
    end.

Definition Exists : M Disk bool := os_Stat_exists.

Definition Load : M Disk (result Config) :=
  found ← Exists;
  if negb found then
    ret (Err "config file does not exist")
  else
    r ← os_ReadFile;
    match r with
    | Err e => ret (Err ("failed to read config file: " +:+ e))
    | Ok data =>
        match json_Unmarshal data with
        | Err e => ret (Err ("failed to unmarshal config: " +:+ e))
        | Ok config =>
            if decide (IP config = "" ∨ Token config = "") then
              ret (Err "invalid configuration: missing IP or token")
            else
              ret (Ok config)
        end
    end.
End WithCodec.
End FileConfigManager.

(** The package-level store of the first design (no validation). *)
Module LegacyConfig.
Section WithCodec.
Context `{JsonCodec}.

Definition saveConfig (ip token : string) : M Disk error :=
  let config := {| IP := ip; Token := token |} in
  match json_MarshalIndent config with
  | Err e => ret (Some e)
  | Ok data => os_WriteFile data
  end.

Definition loadConfig : M Disk (result Config) :=
  r ← os_ReadFile;
  match r with
  | Err e => ret (Err e)
  | Ok data => ret (json_Unmarshal data)
  end.

Definition configExists : M Disk bool := os_Stat_exists.
End WithCodec.
End LegacyConfig.

(** ** The orchestration service: service.go *)

(** The abstract device API consumed by the service. *)
Record NanoleafClient (W Info : Type) : Type := {
  client_Pair : string → M W (result string);
  client_SetPower : string → string → bool → M W error;
  client_GetInfo : string → string → M W (result Info);
  client_SetBrightness : string → string → Z → M W error
}.
Arguments client_Pair {W Info} _ _ _.
Arguments client_SetPower {W Info} _ _ _ _ _.
Arguments client_GetInfo {W Info} _ _ _ _.
Arguments client_SetBrightness {W Info} _ _ _ _ _.

Record DeviceScanner (W : Type) : Type := {
  scanner_Scan : M W (result (list string))
}.
Arguments scanner_Scan {W} _ _.

Record ConfigManager (W : Type) : Type := {
  cm_Save : string → string → M W error;
  cm_Load : M W (result Config);
  cm_Exists : M W bool
}.
Arguments cm_Save {W} _ _ _ _.
Arguments cm_Load {W} _ _.
Arguments cm_Exists {W} _ _.

(** The [interface{}] payload of a [ServiceResult]. *)
Inductive Payload (Info : Type) : Type :=
| DNil
| DStrings (devices : list string)
| DString (token : string)
| DConfig (config : Config)
| DInfo (info : Info).
Arguments DNil {Info}.
Arguments DStrings {Info} devices.
Arguments DString {Info} token.
Arguments DConfig {Info} config.
Arguments DInfo {Info} info.

Record ServiceResult (Info : Type) : Type := {
  Success : bool;
  Message : string;
  Data : Payload Info
}.
Arguments Success {Info} _.
Arguments Message {Info} _.
Arguments Data {Info} _.

Definition not_paired_message : string :=
  "Device not paired. Please scan and pair first.".

Module NanoleafService.
Section WithCollaborators.
Context {W Info : Type}.

Record t : Type := {
  client : NanoleafClient W Info;
  scanner : DeviceScanner W;
  configManager : ConfigManager W
}.

Definition NewNanoleafService (c : NanoleafClient W Info) (sc : DeviceScanner W)
    (cm : ConfigManager W) : t :=
  {| client := c; scanner := sc; configManager := cm |}.

Definition ScanForDevices (s : t) : M W (ServiceResult Info) :=
  r ← scanner_Scan (scanner s);
  match r with
  | Err e =>
      ret {| Success := false; Message := "Scan failed: " +:+ e; Data := DNil |}
  | Ok devices =>
      if decide (length devices = 0) then
        ret {| Success := false; Message := "No devices detected";
               Data := DStrings [] |}
      else
        ret {| Success := true;
               Message := "Found " +:+ pretty (length devices) +:+ " device(s)";
               Data := DStrings devices |}
  end.

Definition PairWithDevice (s : t) (ip : string) : M W (ServiceResult Info) :=
  if decide (ip = "") then
    ret {| Success := false; Message := "No device IP provided. Please scan first.";
           Data := DNil |}
  else
    r ← client_Pair (client s) ip;
    match r with
    | Err e =>
        ret {| Success := false; Message := "Pairing failed: " +:+ e; Data := DNil |}
    | Ok token =>
        _ ← cm_Save (configManager s) ip token;
        ret {| Success := true; Message := "Device paired successfully";
               Data := DString token |}
    end.

Definition SetDevicePower (s : t) (ip token : string) (on : bool)
    : M W (ServiceResult Info) :=
  if decide (ip = "" ∨ token = "") then
    ret {| Success := false; Message := not_paired_message; Data := DNil |}
  else
    let action := if on then "on" else "off" in
    err ← client_SetPower (client s) ip token on;
    match err with
    | Some e =>
        ret {| Success := false;
               Message := "Failed to turn " +:+ action +:+ " device: " +:+ e;
               Data := DNil |}
    | None =>
        ret {| Success := true;
               Message := "Device turned " +:+ action +:+ " successfully";
               Data := DNil |}
    end.

Definition LoadConfiguration (s : t) : M W (ServiceResult Info) :=
  found ← cm_Exists (configManager s);
  if negb found then
    ret {| Success := false; Message := "No saved configuration found";
           Data := DNil |}
  else
    r ← cm_Load (configManager s);
    match r with
    | Err e =>
        ret {| Success := false; Message := "Failed to load configuration: " +:+ e;
               Data := DNil |}
    | Ok config =>
        ret {| Success := true; Message := "Configuration loaded successfully";
               Data := DConfig config |}
    end.

Definition GetDeviceInfo (s : t) (ip token : string) : M W (ServiceResult Info) :=
  if decide (ip = "" ∨ token = "") then
    ret {| Success := false; Message := not_paired_message; Data := DNil |}
  else
    r ← client_GetInfo (client s) ip token;
    match r with
    | Err e =>
        ret {| Success := false; Message := "Failed to get device info: " +:+ e;
               Data := DNil |}
    | Ok info =>
        ret {| Success := true; Message := "Device info retrieved successfully";
               Data := DInfo info |}
    end.

Definition SetBrightness (s : t) (ip token : string) (b : Z)
    : M W (ServiceResult Info) :=
  if decide (ip = "" ∨ token = "") then
    ret {| Success := false; Message := not_paired_message; Data := DNil |}
  else
    err ← client_SetBrightness (client s) ip token b;
    match err with
    | Some e =>
        ret {| Success := false;
               Message := "Failed to set device brightness: " +:+ e;
               Data := DNil |}
    | None =>
        ret {| Success := true;
               Message := "Brightness set to " +:+ pretty b +:+ " successfully";
               Data := DNil |}
    end.
End WithCollaborators.
Arguments t : clear implicits.
End NanoleafService.

(** ** A substitute device API that counts its calls *)

Inductive api_call : Type :=
| CallPair (ip : string)
| CallSetPower (ip token : string) (on : bool)
| CallGetInfo (ip token : string)
| CallSetBrightness (ip token : string) (b : Z).

(** What the device answers, given the calls it has seen so far. *)
Record Replies (Info : Type) : Type := {
  pair_reply : list api_call → string → result string;
  power_reply : list api_call → string → string → bool → error;
  info_reply : list api_call → string → string → result Info;
  brightness_reply : list api_call → string → string → Z → error
}.
Arguments pair_reply {Info} _ _ _.
Arguments power_reply {Info} _ _ _ _ _.
Arguments info_reply {Info} _ _ _ _.
Arguments brightness_reply {Info} _ _ _ _ _.

(** The world of the orchestration layer: the device's call log and the disk. *)
Record World : Type := { api_log : list api_call; disk : Disk }.

Definition log_call (c : api_call) (w : World) : World :=
  {| api_log := api_log w ++ [c]; disk := disk w |}.

Definition on_disk {A} (c : M Disk A) : M World A := λ w,
  let '(a, d) := c (disk w) in (a, {| api_log := api_log w; disk := d |}).

Definition recordingClient {Info} (r : Replies Info) : NanoleafClient World Info := {|
  client_Pair ip := λ w, (pair_reply r (api_log w) ip, log_call (CallPair ip) w);
  client_SetPower ip token on := λ w,
    (power_reply r (api_log w) ip token on, log_call (CallSetPower ip token on) w);
  client_GetInfo ip token := λ w,
    (info_reply r (api_log w) ip token, log_call (CallGetInfo ip token) w);
  client_SetBrightness ip token b := λ w,
    (brightness_reply r (api_log w) ip token b,
     log_call (CallSetBrightness ip token b) w)
|}.

Definition fileConfigManager `{JsonCodec} : ConfigManager World := {|
  cm_Save ip token := on_disk (FileConfigManager.Save ip token);
  cm_Load := on_disk FileConfigManager.Load;
  cm_Exists := on_disk FileConfigManager.Exists
|}.

(** ** The session held by the presentation layer: cmd/main.go *)

Inductive menuItem : Type := scan | pair | turnOn | turnOff | brightness | quit.

(** The three styles of the UI, applied to every message shown. *)
Record UI : Type := {
  renderNormal : string → string;
  renderSuccess : string → string;
  renderError : string → string
}.

Module Main.
Section WithService.
Context {W Info : Type} (app : NanoleafService.t W Info) (ui : UI).

(** The fields of [model] that make up the session and its feedback. *)
Record model : Type := {
  ip : string;
  token : string;
  deviceReady : bool;
  message : string;
  inputMode : bool;
  inputPrompt : string
}.

Definition with_ip (m : model) (v : string) : model :=
  {| ip := v; token := token m; deviceReady := deviceReady m; message := message m;
     inputMode := inputMode m; inputPrompt := inputPrompt m |}.

Definition with_token (m : model) (v : string) : model :=
  {| ip := ip m; token := v; deviceReady := deviceReady m; message := message m;
     inputMode := inputMode m; inputPrompt := inputPrompt m |}.

Definition with_message (m : model) (v : string) : model :=
  {| ip := ip m; token := token m; deviceReady := deviceReady m; message := v;
     inputMode := inputMode m; inputPrompt := inputPrompt m |}.

Definition with_prompt (m : model) (v : string) : model :=
  {| ip := ip m; token := token m; deviceReady := deviceReady m; message := message m;
     inputMode := true; inputPrompt := v |}.

Definition show_result (m : model) (result : ServiceResult Info) : model :=
  if Success result then with_message m (renderSuccess ui (Message result))
  else with_message m (renderError ui (Message result)).

Definition handleAction (item : menuItem) (m : model) : M W model :=
  match item with
  | scan =>
      if deviceReady m then ret m
      else
        result ← NanoleafService.ScanForDevices app;
        if Success result then
          match Data result with
          | DStrings (first :: _) =>
              ret (with_message (with_ip m first) (renderSuccess ui (Message result)))
          | _ => ret (with_message m (renderError ui "No devices detected"))
          end
        else ret (with_message m (renderError ui (Message result)))
  | pair =>
      if deviceReady m then ret m
      else if decide (ip m = "") then
        ret (with_message m (renderNormal ui "No device found. Please scan first."))
      else
        result ← NanoleafService.PairWithDevice app (ip m);
        if Success result then
          let m' := match Data result with
                    | DString tok => with_token m tok
                    | _ => m
                    end in
          ret (with_message m' (renderSuccess ui (Message result)))
        else ret (with_message m (renderError ui (Message result)))
  | turnOn =>
      result ← NanoleafService.SetDevicePower app (ip m) (token m) true;
      ret (show_result m result)
  | turnOff =>
      result ← NanoleafService.SetDevicePower app (ip m) (token m) false;
      ret (show_result m result)
  | brightness => ret (with_prompt m "Enter brightness (0-100)")
  | quit => ret m
  end.
End WithService.
End Main.

(** ** The device session of the first design: device.go *)

(** The concrete HTTP client the session talks to, seen through its methods. *)
Record DeviceClient (W Info : Type) : Type := {
  dc_pair : string → M W (result string);
  dc_getInfo : string → string → M W (result Info);
  dc_listEffects : string → string → M W (result (list string));
  dc_setPower : string → string → bool → M W error;
  dc_setBrightness : string → string → Z → M W error;
  dc_setEffect : string → string → string → M W error
}.
Arguments dc_pair {W Info} _ _ _.
Arguments dc_getInfo {W Info} _ _ _ _.
Arguments dc_listEffects {W Info} _ _ _ _.
Arguments dc_setPower {W Info} _ _ _ _ _.
Arguments dc_setBrightness {W Info} _ _ _ _ _.
Arguments dc_setEffect {W Info} _ _ _ _ _.

Module Device.
Section WithClient.
Context {W Info : Type} (client : DeviceClient W Info).
(** [saveConfig], [loadConfig] and [configExists] of the package. *)
Context (saveConfig : string → string → M W error)
        (loadConfig : M W (result Config)) (configExists : M W bool).

Record t : Type := { config : Config; effects : list string }.

Definition NewDevice : t :=
  {| config := {| IP := ""; Token := "" |}; effects := [] |}.

Definition LoadConfig (d : t) : M W (error * t) :=
  found ← configExists;
  if negb found then ret (Some "no config found", d)
  else
    r ← loadConfig;
    match r with
    | Err e => ret (Some e, d)
    | Ok c => ret (None, {| config := c; effects := effects d |})
    end.

Definition loadEffects (d : t) : M W t :=
  r ← dc_listEffects client (IP (config d)) (Token (config d));
  match r with
  | Ok l => ret {| config := config d; effects := l |}
  | Err _ => ret d
  end.

Definition IsDeviceReady (d : t) : M W (bool * t) :=
  if decide (IP (config d) = "" ∨ Token (config d) = "") then ret (false, d)
  else
    r ← dc_getInfo client (IP (config d)) (Token (config d));
    match r with
    | Ok _ => d' ← loadEffects d; ret (true, d')
    | Err _ => ret (false, d)
    end.

Definition SetDevice (ip : string) (d : t) : t :=
  {| config := {| IP := ip; Token := Token (config d) |}; effects := effects d |}.

Definition PairDevice (d : t) : M W (error * t) :=
  if decide (IP (config d) = "") then ret (Some "no device IP set", d)
  else
    r ← dc_pair client (IP (config d));
    match r with
    | Err e => ret (Some e, d)
    | Ok tok =>
        let d' := {| config := {| IP := IP (config d); Token := tok |};
                     effects := effects d |} in
        err ← saveConfig (IP (config d')) (Token (config d'));
        ret (err, d')
    end.

Definition TurnOn (d : t) : M W error :=
  dc_setPower client (IP (config d)) (Token (config d)) true.

Definition TurnOff (d : t) : M W error :=
  dc_setPower client (IP (config d)) (Token (config d)) false.

Definition SetBrightness (b : Z) (d : t) : M W error :=
  if decide (b < 0 ∨ b > 100)%Z then
    ret (Some "brightness must be between 0 and 100")
  else dc_setBrightness client (IP (config d)) (Token (config d)) b.

Definition SetEffect (effect : string) (d : t) : M W error :=
  if decide (effect ∈ effects d) then
    dc_setEffect client (IP (config d)) (Token (config d)) effect
  else ret (Some ("device does not have effect " +:+ effect)).

Definition GetDeviceIP (d : t) : string := IP (config d).
End WithClient.
Arguments t : clear implicits.
End Device.

(** ** The subnet scan: scanner.go *)

Module NetworkScanner.

Definition nanoleafPort : string := "16021".
Definition maxWorkers : nat := 50.
(** Capacity of the [jobs] and [results] channels, and the last host suffix. *)
Definition hostCount : nat := 254.

Fixpoint has_colon (s : string) : bool :=
  match s with
  | EmptyString => false
  | String c rest => if decide (c = ":"%char) then true else has_colon rest
  end.

Definition net_JoinHostPort (host port : string) : string :=
  if has_colon host then "[" +:+ host +:+ "]:" +:+ port
  else host +:+ ":" +:+ port.

(** [fmt.Sprintf("%s%d", subnet, i)]. *)
Definition candidate (subnet : string) (i : nat) : string := subnet +:+ pretty i.

Definition candidates (subnet : string) : list string :=
  candidate subnet <$> seq 1 hostCount.

(** A goroutine running [worker]: waiting in its [select], holding a job it is
    probing, or returned (its [wg.Done] has run). *)
Inductive worker : Type := Idle | Busy (ip : string) | Exited.

(** The goroutine that sends the jobs: its loop variable, or returned (the
    deferred [close(jobs)] has run). *)
Inductive sender : Type := Sending (i : nat) | SenderDone.

(** The caller's goroutine in the collecting loop, or returned from [Scan]. *)
Inductive collector : Type :=
| Collecting (devices : list string)
| Returned (r : result (list string)).

Record state : Type := {
  ctx_err : error;            (* [ctx.Err()]: [None] until the context is done *)
  sending : sender;
  jobs : list string;         (* buffered channel, oldest first *)
  workers : list worker;
  results : list string;      (* buffered channel, oldest first *)
  results_closed : bool;
  collecting : collector;
  probed : list string        (* hosts handed to [isNanoleafDevice], in order *)
}.

Definition jobs_closed (s : state) : bool :=
  match sending s with SenderDone => true | Sending _ => false end.

Definition all_exited (ws : list worker) : bool :=
  forallb (λ w, match w with Exited => true | _ => false end) ws.

Definition with_ctx_err (s : state) (v : error) : state :=
  {| ctx_err := v; sending := sending s; jobs := jobs s; workers := workers s;
     results := results s; results_closed := results_closed s;
     collecting := collecting s; probed := probed s |}.

Definition with_sending (s : state) (v : sender) (js : list string) : state :=
  {| ctx_err := ctx_err s; sending := v; jobs := js; workers := workers s;
     results := results s; results_closed := results_closed s;
     collecting := collecting s; probed := probed s |}.

Definition with_worker (s : state) (k : nat) (w : worker) : state :=
  {| ctx_err := ctx_err s; sending := sending s; jobs := jobs s;
     workers := <[k := w]> (workers s);
     results := results s; results_closed := results_closed s;
     collecting := collecting s; probed := probed s |}.

Definition with_jobs (s : state) (js : list string) : state :=
  with_sending s (sending s) js.

Definition with_report (s : state) (ip r : string) : state :=
  {| ctx_err := ctx_err s; sending := sending s; jobs := jobs s;
     workers := workers s;
     results := results s ++ [r]; results_closed := results_closed s;
     collecting := collecting s; probed := probed s ++ [ip] |}.

Definition with_results_closed (s : state) : state :=
  {| ctx_err := ctx_err s; sending := sending s; jobs := jobs s;
     workers := workers s;
     results := results s; results_closed := true;
     collecting := collecting s; probed := probed s |}.

Definition with_collecting (s : state) (c : collector) (rs : list string) : state :=
  {| ctx_err := ctx_err s; sending := sending s; jobs := jobs s;
     workers := workers s;
     results := rs; results_closed := results_closed s;
     collecting := c; probed := probed s |}.

(** One scheduling decision: which goroutine moves, and through which branch
    of its [select]. The goroutines of [Scan] only meet at the two channels,
    the wait group and the context, so a run is a sequence of such decisions.
    A [select] is decided when its goroutine moves: every branch that can
    proceed at that moment may be the one taken, as in Go, and nothing bounds
    how late a goroutine makes its move. *)
Inductive event : Type :=
| ECtxDone (err : string)  (* the deadline passes or the caller cancels *)
| ESend                    (* sender: [case jobs <- ip] *)
| ESenderCancel            (* sender: [case <-ctx.Done()] *)
| ESenderEnd               (* sender: loop over, [close(jobs)] *)
| ERecv (k : nat)          (* worker k: [case ip, ok := <-jobs], ok *)
| EJobsClosed (k : nat)    (* worker k: [case ip, ok := <-jobs], not ok *)
| EWorkerCancel (k : nat)  (* worker k: [case <-ctx.Done()] *)
| EReport (k : nat)        (* worker k: probe, then [results <- ...] *)
| EClose                   (* [wg.Wait()] returns, [close(results)] *)
| ECollect                 (* collector: [case ip, ok := <-results], ok *)
| ECollectClosed           (* collector: [case ip, ok := <-results], not ok *)
| ECollectCancel.          (* collector: [case <-ctx.Done()] *)

Section WithDialer.
(** [dialer.DialContext(ctx, "tcp", address)] connected: the first argument
    tells whether [ctx] was already done when the dial was made. *)
Context (DialContext : bool → string → bool).
Context (subnet : string).

Definition isNanoleafDevice (ctx_done : bool) (ip : string) : bool :=
  DialContext ctx_done (net_JoinHostPort ip nanoleafPort).

Definition ctx_done (s : state) : bool :=
  match ctx_err s with Some _ => true | None => false end.

(** The state right after [Scan] has started its goroutines. *)
Definition init (ctx : error) : state :=
  {| ctx_err := ctx; sending := Sending 1; jobs := [];
     workers := replicate maxWorkers Idle;
     results := []; results_closed := false;
     collecting := Collecting []; probed := [] |}.

Definition step (e : event) (s : state) : option state :=
  match e with
  | ECtxDone err =>
      match ctx_err s with
      | None => Some (with_ctx_err s (Some err))
      | Some _ => None
      end
  | ESend =>
      match sending s with
      | Sending i =>
          if decide (i ≤ hostCount ∧ length (jobs s) < hostCount) then
            Some (with_sending s (Sending (S i)) (jobs s ++ [candidate subnet i]))
          else None
      | SenderDone => None
      end
  | ESenderCancel =>
      match sending s with
      | Sending i =>
          if decide (i ≤ hostCount) then
            if ctx_done s then Some (with_sending s SenderDone (jobs s)) else None
          else None
      | SenderDone => None
      end
  | ESenderEnd =>
      match sending s with
      | Sending i =>
          if decide (i ≤ hostCount) then None
          else Some (with_sending s SenderDone (jobs s))
      | SenderDone => None
      end
  | ERecv k =>
      match workers s !! k, jobs s with
      | Some Idle, ip :: rest => Some (with_worker (with_jobs s rest) k (Busy ip))
      | _, _ => None
      end
  | EJobsClosed k =>
      match workers s !! k, jobs s with
      | Some Idle, [] =>
          if jobs_closed s then Some (with_worker s k Exited) else None
      | _, _ => None
      end
  | EWorkerCancel k =>
      match workers s !! k with
      | Some Idle => if ctx_done s then Some (with_worker s k Exited) else None
      | _ => None
      end
  | EReport k =>
      match workers s !! k with
      | Some (Busy ip) =>
          if decide (length (results s) < hostCount) then
            if results_closed s then None
            else
              let r := if isNanoleafDevice (ctx_done s) ip then ip else "" in
              Some (with_worker (with_report s ip r) k Idle)
          else None
      | _ => None
      end
  | EClose =>
      if all_exited (workers s) then
        if results_closed s then None else Some (with_results_closed s)
      else None
  | ECollect =>
      match collecting s, results s with
      | Collecting devices, ip :: rest =>
          if decide (ip = "") then Some (with_collecting s (Collecting devices) rest)
          else Some (with_collecting s (Collecting (devices ++ [ip])) rest)
      | _, _ => None
      end
  | ECollectClosed =>
      match collecting s, results s with
      | Collecting devices, [] =>
          if results_closed s then
            Some (with_collecting s (Returned (Ok devices)) [])
          else None
      | _, _ => None
      end
  | ECollectCancel =>
      match collecting s, ctx_err s with
      | Collecting _, Some err => Some (with_collecting s (Returned (Err err)) (results s))
      | _, _ => None
      end
  end.

(** A schedule is a list of decisions; it runs only if each one is enabled. *)
Fixpoint run (tr : list event) (s : state) : option state :=
  match tr with
  | [] => Some s
  | e :: tr' =>
      match step e s with
      | Some s' => run tr' s'
      | None => None
      end
  end.

End WithDialer.

(** [Scan] up to the point where its goroutines start: a failing subnet lookup
    ends it at once. *)
Definition Scan_begin (localSubnet : result string) (ctx : error)
    : result (string * state) :=
  match localSubnet with
  | Err e => Err ("failed to detect local subnet: " +:+ e)
  | Ok subnet => Ok (subnet, init ctx)
  end.

(** Reports taken off [results] by the collector along a schedule. *)
Definition collected (tr : list event) : nat :=
  length (List.filter (λ e, match e with ECollect => true | _ => false end) tr).

(** *** What a run has in flight *)

Definition job_of (w : worker) : list string :=
  match w with Busy ip => [ip] | _ => [] end.

(** The jobs workers hold at the moment. *)
Definition held (ws : list worker) : list string := ws ≫= job_of.

(** The candidates the sender has still to queue. *)
Definition unsent (subnet : string) (s : state) : list string :=
  match sending s with
  | Sending i => candidate subnet <$> seq i (S hostCount - i)
  | SenderDone => []
  end.

Definition devices_of (c : collector) : list string :=
  match c with
  | Collecting devices => devices
  | Returned (Ok devices) => devices
  | Returned (Err _) => []
  end.

(** All workers idle, both channels empty: the state between two rounds of
    the schedule that serves one host at a time. *)
Definition quiet (i : nat) (devices ps : list string) : state :=
  {| ctx_err := None; sending := Sending i; jobs := [];
     workers := replicate maxWorkers Idle;
     results := []; results_closed := false;
     collecting := Collecting devices; probed := ps |}.

(** One host: queued, taken by worker 0, probed and reported, collected. *)
Definition round : list event := [ESend; ERecv 0; EReport 0; ECollect].

Fixpoint rounds (n : nat) : list event :=
  match n with
  | 0 => []
  | S n' => round ++ rounds n'
  end.

(** After the last host: the queue is closed, every worker sees it and
    returns, the results are closed and the collector returns. *)
Definition wind_down : list event :=
  [ESenderEnd] ++ (EJobsClosed <$> seq 0 maxWorkers) ++ [EClose; ECollectClosed].

(** A schedule of an undisturbed scan. *)
Definition serial_schedule : list event := rounds hostCount ++ wind_down.

(** A schedule in which the deadline passes after the first report has been
    collected, every goroutine but the collector notices, and the collector's
    [select] then finds [results] closed. *)
Definition late_collector_schedule : list event :=
  round ++ [ECtxDone "context deadline exceeded"; ESenderCancel]
  ++ (EWorkerCancel <$> seq 0 maxWorkers) ++ [EClose; ECollectClosed].

(** The same race when the context is done before [Scan] is entered. *)
Definition dead_on_arrival_schedule : list event :=
  (EWorkerCancel <$> seq 0 maxWorkers) ++ [EClose; ECollectClosed].

Section Undisturbed.
Context (DialContext : bool → string → bool) (subnet : string).

(** The probe of a host while the context is live. *)
Definition is_device (ip : string) : Prop :=
  isNanoleafDevice DialContext false ip = true.

#[global] Instance is_device_dec ip : Decision (is_device ip) :=
  decide (isNanoleafDevice DialContext false ip = true).

(** What holds of every state of a scan whose context is not done: every
    candidate is in exactly one place, every positive probe is in [results]
    or collected, and the goroutines have returned in the order the channels
    force on them. *)
Record undisturbed (s : state) : Prop := {
  und_ctx : ctx_err s = None;
  und_workers : length (workers s) = maxWorkers;
  und_jobs :
    candidates subnet ≡ₚ unsent subnet s ++ jobs s ++ held (workers s) ++ probed s;
  und_reports :
    filter is_device (probed s)
    ≡ₚ filter (λ r, r ≠ "") (results s) ++ devices_of (collecting s);
  und_exited : Exited ∈ workers s → sending s = SenderDone ∧ jobs s = [];
  und_closed : results_closed s = true → all_exited (workers s) = true;
  und_returned : ∀ r, collecting s = Returned r →
    results s = [] ∧ results_closed s = true ∧ ∃ devices, r = Ok devices;
  und_room : length (results s) ≤ length (probed s)
}.
End Undisturbed.

(** *** How far a run is from its end *)

Definition worker_weight (w : worker) : nat :=
  match w with Idle => 1 | Busy _ => 3 | Exited => 0 end.

(** Every decision of the scheduler lowers this number: a host costs 4 while
    unsent, 3 in [jobs], 2 more than an idle worker while held, 1 in
    [results]; each goroutine still running costs 1, and so does a live
    context. *)
Definition weight (s : state) : nat :=
  (match ctx_err s with None => 1 | Some _ => 0 end)
  + (match sending s with Sending i => S (4 * (S hostCount - i)) | SenderDone => 0 end)
  + 3 * length (jobs s)
  + sum_list_with worker_weight (workers s)
  + length (results s)
  + (if results_closed s then 0 else 1)
  + (match collecting s with Collecting _ => 1 | Returned _ => 0 end).

End NetworkScanner.

(** ** The HTTP device API: nanoleaf_client.go *)

Module Request.
Record t : Type := {
  Method : string;
  URL : string;
  Body : option string;               (* [nil] or the bytes to send *)
  Headers : list (string * string);
  Timeout : Z
}.
End Request.

Module Response.
Record t : Type := { StatusCode : Z; Body : string; Status : string }.
End Response.

Record HTTPClient (W : Type) : Type := {
  http_Do : Request.t → M W (result Response.t)
}.
Arguments http_Do {W} _ _ _.

(** [encoding/json] as the client uses it: the two bodies it sends and the two
    answers it reads. *)
Class ApiJson (Info : Type) : Type := {
  json_Marshal_on : bool → result string;
  json_Marshal_brightness : Z → result string;
  json_Unmarshal_auth_token : string → result string;
  json_Unmarshal_info : string → result Info
}.

Module APIClient.
Section WithHTTP.
Context {W Info : Type} `{ApiJson Info} (httpClient : HTTPClient W).

Definition request (method url : string) (body : option string) : Request.t :=
  {| Request.Method := method; Request.URL := url; Request.Body := body;
     Request.Headers := []; Request.Timeout := 0 |}.

Definition Pair (ip : string) : M W (result string) :=
  let url := "http://" +:+ ip +:+ ":16021/api/v1/new" in
  r ← http_Do httpClient (request "POST" url None);
  match r with
  | Err e => ret (Err ("pairing request failed: " +:+ e))
  | Ok resp =>
      if decide (Response.StatusCode resp ≠ 200%Z) then
        ret (Err ("pairing failed with status " +:+ pretty (Response.StatusCode resp)
                  +:+ ": " +:+ Response.Body resp))
      else
        match json_Unmarshal_auth_token (Response.Body resp) with
        | Err e => ret (Err ("failed to unmarshal pairing response: " +:+ e))
        | Ok token => ret (Ok token)
        end
  end.

Definition SetPower (ip token : string) (on : bool) : M W error :=
  let url := "http://" +:+ ip +:+ ":16021/api/v1/" +:+ token +:+ "/state" in
  match json_Marshal_on on with
  | Err e => ret (Some ("failed to marshal power state: " +:+ e))
  | Ok body =>
      r ← http_Do httpClient (request "PUT" url (Some body));
      match r with
      | Err e => ret (Some ("power request failed: " +:+ e))
      | Ok resp =>
          if decide (Response.StatusCode resp ≠ 204%Z) then
            ret (Some ("power request failed with status "
                       +:+ pretty (Response.StatusCode resp)
                       +:+ ": " +:+ Response.Body resp))
          else ret None
      end
  end.

Definition GetInfo (ip token : string) : M W (result Info) :=
  let url := "http://" +:+ ip +:+ ":16021/api/v1/" +:+ token in
  r ← http_Do httpClient (request "GET" url None);
  match r with
  | Err e => ret (Err ("getinfo request failed: " +:+ e))
  | Ok resp =>
      if decide (Response.StatusCode resp ≠ 200%Z) then
        ret (Err ("getinfo failed with status " +:+ pretty (Response.StatusCode resp)
                  +:+ ": " +:+ Response.Body resp))
      else
        match json_Unmarshal_info (Response.Body resp) with
        | Err e => ret (Err ("failed to unmarshal getinfo response: " +:+ e))
        | Ok info => ret (Ok info)
        end
  end.

Definition SetBrightness (ip token : string) (b : Z) : M W error :=
  let url := "http://" +:+ ip +:+ ":16021/api/v1/" +:+ token +:+ "/state" in
  match json_Marshal_brightness b with
  | Err e => ret (Some ("failed to alter brightness: " +:+ e))
  | Ok body =>
      r ← http_Do httpClient (request "PUT" url (Some body));
      match r with
      | Err e => ret (Some ("brightness request failed: " +:+ e))
      | Ok resp =>
          if decide (Response.StatusCode resp ≠ 204%Z) then
            ret (Some ("brightness request failed with status "
                       +:+ pretty (Response.StatusCode resp)
                       +:+ ": " +:+ Response.Body resp))
          else ret None
      end
  end.

(** [*APIClient] as an implementation of the [NanoleafClient] interface. *)
Definition NewAPIClient : NanoleafClient W Info :=
  {| client_Pair := Pair; client_SetPower := SetPower;
     client_GetInfo := GetInfo; client_SetBrightness := SetBrightness |}.
End WithHTTP.
End APIClient.

(** A substitute HTTP client: it keeps the requests it was given, oldest
    first, and answers from what it has seen so far. *)
Definition recordingHTTP
    (answer : list Request.t → Request.t → result Response.t)
    : HTTPClient (list Request.t) :=
  {| http_Do req := λ sent, (answer sent req, (sent ++ [req])%list) |}.

(** ** The HTTP client of the first design: client.go *)

Module LegacyClient.

(** [None] stands for the panic of [ip[0:4]] on an address shorter than four
    bytes. *)
Definition buildURL (ip path : string) : option string :=
  if decide (String.length ip < 4) then None
  else if decide (String.substring 0 4 ip = "http") then Some (ip +:+ "/" +:+ path)
  else Some ("http://" +:+ ip +:+ ":16021/" +:+ path).

End LegacyClient.

(** ** The subnet lookup: scanner.go, [getLocalSubnet] *)

Module LocalSubnet.

(** A [net.IP] as the lookup observes it: four bytes when [To4] is not nil
    (an IPv4 or IPv4-mapped address), otherwise only whether it is the IPv6
    loopback. *)
Inductive IP : Type :=
| IPv4 (a b c d : N)
| IPv6 (loopback : bool).

(** A [net.Addr]: an [*net.IPNet] or some other implementation. *)
Inductive Addr : Type :=
| IPNet (ip : IP)
| OtherAddr.

Definition To4 (ip : IP) : option (N * N * N * N) :=
  match ip with
  | IPv4 a b c d => Some (a, b, c, d)
  | IPv6 _ => None
  end.

Definition IsLoopback (ip : IP) : bool :=
  match ip with
  | IPv4 a _ _ _ => bool_decide (a = 127%N)
  | IPv6 loopback => loopback
  end.

(** [IP.String()] of an address whose [To4] is [q]: dotted decimal. *)
Definition dotted (q : N * N * N * N) : string :=
  let '(a, b, c, d) := q in
  pretty a +:+ "." +:+ pretty b +:+ "." +:+ pretty c +:+ "." +:+ pretty d.

(** [strings.Split(s, ".")]. *)
Fixpoint split_dot (s : string) : list string :=
  match s with
  | EmptyString => [EmptyString]
  | String ch rest =>
      if decide (ch = "."%char) then EmptyString :: split_dot rest
      else match split_dot rest with
           | part :: parts => String ch part :: parts
           | [] => [String ch EmptyString]
           end
  end.

Fixpoint first_subnet (addrs : list Addr) : result string :=
  match addrs with
  | [] => Err "no suitable network interface found"
  | addr :: rest =>
      match addr with
      | IPNet ip =>
          if negb (IsLoopback ip) then
            match To4 ip with
            | Some q =>
                match split_dot (dotted q) with
                | p0 :: p1 :: p2 :: _ =>
                    Ok (p0 +:+ "." +:+ p1 +:+ "." +:+ p2 +:+ ".")
                | _ => first_subnet rest
                end
            | None => first_subnet rest
            end
          else first_subnet rest
      | OtherAddr => first_subnet rest
      end
  end.

(** [interfaceAddrs] is what [net.InterfaceAddrs()] returned. *)
Definition getLocalSubnet (interfaceAddrs : result (list Addr)) : result string :=
  match interfaceAddrs with
  | Err e => Err ("failed to get network interfaces: " +:+ e)
  | Ok addrs => first_subnet addrs
  end.

(** An address the lookup can use. *)
Definition usable (addr : Addr) : Prop :=
  ∃ a b c d, addr = IPNet (IPv4 a b c d) ∧ a ≠ 127%N.

(** Decimal digits only: what [%d] prints for a number that is not negative. *)
Fixpoint all_digits (s : string) : bool :=
  match s with
  | EmptyString => true
  | String ch rest =>
      bool_decide (48 ≤ nat_of_ascii ch ≤ 57) && all_digits rest
  end.

End LocalSubnet.

(** ** What holds of every run of the scan, cancelled or not *)

Module ScanRuns.
Import NetworkScanner.

Section Conserved.
Context (DialContext : bool → string → bool) (subnet : string).

(** Some dial of the host connected. *)
Definition answered (ip : string) : Prop :=
  ∃ done, isNanoleafDevice DialContext done ip = true.

(** Candidates are never duplicated, only moved forward or dropped; a report
    is never invented; the channels are closed and the function returns in
    the order the code fixes. *)
Record conserved (s : state) : Prop := {
  cons_jobs : ∃ dropped,
    candidates subnet
    ≡ₚ unsent subnet s ++ jobs s ++ held (workers s) ++ probed s ++ dropped;
  cons_reports : ∃ gone,
    probed s
    ≡ₚ filter (λ r, r ≠ "") (results s) ++ devices_of (collecting s) ++ gone;
  cons_positive :
    Forall (λ r, r = "" ∨ answered r) (results s)
    ∧ Forall answered (devices_of (collecting s));
  cons_closed : results_closed s = true → all_exited (workers s) = true;
  cons_room : length (results s) ≤ length (probed s);
  cons_returned : ∀ r, collecting s = Returned r →
    match r with
    | Ok _ => results_closed s = true ∧ results s = []
    | Err e => ctx_err s = Some e
    end
}.

(** No goroutine of the scan can move (the context may still become done). *)
Definition stalled (s : state) : Prop :=
  ∀ e, (∀ err, e ≠ ECtxDone err) → step DialContext subnet e s = None.
End Conserved.

(** Every goroutine [Scan] started has returned, and so has [Scan]. *)
Definition wound_up (s : state) : Prop :=
  sending s = SenderDone ∧ all_exited (workers s) = true
  ∧ results_closed s = true ∧ ∃ r, collecting s = Returned r.

End ScanRuns.

(** ** The terminal program: cmd/main.go, [Update] and [initModel] *)

Module MainUI.

Definition fullChoices : list string :=
  ["[s] Scan Devices"; "[p] Pair Device"; "[o] Turn On"; "[x] Turn Off";
   "[b] Brightness"; "[q] Quit"].

Definition readyChoices : list string :=
  ["[o] Turn On"; "[x] Turn Off"; "[b] Brightness"; "[q] Quit"].

Inductive msg : Type :=
| StatusMsg
| KeyMsg (key : string)
| OtherMsg.

(** The [tea.Cmd] handed back to the runtime. *)
Inductive cmd : Type := CmdNone | CmdQuit | CmdBlink | CmdTick | CmdInput.

(** The label under the cursor, as the [switch] of the enter key reads it; a
    label that is none of the six leaves the zero value, [scan]. *)
Definition item_of_label (label : string) : menuItem :=
  if decide (label = "[s] Scan Devices") then scan
  else if decide (label = "[p] Pair Device") then pair
  else if decide (label = "[o] Turn On") then turnOn
  else if decide (label = "[x] Turn Off") then turnOff
  else if decide (label = "[b] Brightness") then brightness
  else if decide (label = "[q] Quit") then quit
  else scan.

(** What [handleAction] returns besides changing the model. *)
Definition action_cmd (item : menuItem) : cmd :=
  match item with
  | brightness => CmdBlink
  | quit => CmdQuit
  | _ => CmdNone
  end.

Section WithService.
Context {W Info : Type} (app : NanoleafService.t W Info) (ui : UI).
(** [strconv.Atoi], and [textinput.Model.Update] as a change of the value
    being typed. *)
Context (strconv_Atoi : string → result Z) (textinput_Update : msg → string → string).

(** [model]: the session fields of [Main.model] with the menu around them. *)
Record model : Type := {
  session : Main.model;
  cursor : Z;
  choices : list string;
  error : bool;
  textInput : string
}.

Definition with_session (m : model) (v : Main.model) : model :=
  {| session := v; cursor := cursor m; choices := choices m; error := error m;
     textInput := textInput m |}.

Definition with_cursor (m : model) (v : Z) : model :=
  {| session := session m; cursor := v; choices := choices m; error := error m;
     textInput := textInput m |}.

Definition with_menu (m : model) (cs : list string) : model :=
  {| session := session m; cursor := 0; choices := cs; error := error m;
     textInput := textInput m |}.

Definition with_error (m : model) (v : bool) : model :=
  {| session := session m; cursor := cursor m; choices := choices m; error := v;
     textInput := textInput m |}.

Definition with_textInput (m : model) (v : string) : model :=
  {| session := session m; cursor := cursor m; choices := choices m;
     error := error m; textInput := v |}.

Definition with_deviceReady (s : Main.model) (v : bool) : Main.model :=
  {| Main.ip := Main.ip s; Main.token := Main.token s; Main.deviceReady := v;
     Main.message := Main.message s; Main.inputMode := Main.inputMode s;
     Main.inputPrompt := Main.inputPrompt s |}.

Definition with_inputMode (s : Main.model) (v : bool) : Main.model :=
  {| Main.ip := Main.ip s; Main.token := Main.token s;
     Main.deviceReady := Main.deviceReady s;
     Main.message := Main.message s; Main.inputMode := v;
     Main.inputPrompt := Main.inputPrompt s |}.

Definition initModel : M W model :=
  result ← NanoleafService.LoadConfiguration app;
  match Success result, Data result with
  | true, DConfig config =>
      dInfo ← NanoleafService.GetDeviceInfo app (IP config) (Token config);
      ret {| session :=
               {| Main.ip := IP config; Main.token := Token config;
                  Main.deviceReady := Success dInfo;
                  Main.message := if Success dInfo
                                  then renderNormal ui "Device paired (config loaded)"
                                  else "";
                  Main.inputMode := false; Main.inputPrompt := "" |};
             cursor := 0;
             choices := if Success dInfo then readyChoices else fullChoices;
             error := false; textInput := "" |}
  | _, _ =>
      ret {| session :=
               {| Main.ip := ""; Main.token := ""; Main.deviceReady := false;
                  Main.message := ""; Main.inputMode := false;
                  Main.inputPrompt := "" |};
             cursor := 0; choices := fullChoices; error := false;
             textInput := "" |}
  end.

(** [m.handleAction(item)] on the whole model. *)
Definition act (item : menuItem) (m : model) : M W (model * cmd) :=
  s ← Main.handleAction app ui item (session m);
  ret (with_session m s, action_cmd item).

(** The closure [onInputAction] installed by the brightness action. Input
    mode is entered by that action only, so the field is never nil when
    [updateInput] calls it. *)
Definition onInputAction (value : string) (m : model) : M W model :=
  match strconv_Atoi value with
  | Err _ =>
      ret (with_session m
             (Main.with_message (session m)
                (renderError ui "brightness has to be numeric (0-100)")))
  | Ok b =>
      result ← NanoleafService.SetBrightness app
                 (Main.ip (session m)) (Main.token (session m)) b;
      ret (with_session m (Main.show_result ui (session m) result))
  end.

Definition updateInput (message : msg) (m : model) : M W (model * cmd) :=
  match message with
  | KeyMsg key =>
      if decide (key = "enter") then
        m1 ← onInputAction (textInput m) m;
        ret (with_session (with_textInput m1 "")
               (with_inputMode (session m1) false), CmdNone)
      else if decide (key = "esc") then
        ret (with_session m (with_inputMode (session m) false), CmdNone)
      else if decide (key = "ctrl+c") then ret (m, CmdQuit)
      else ret (with_textInput m (textinput_Update message (textInput m)), CmdInput)
  | _ => ret (with_textInput m (textinput_Update message (textInput m)), CmdInput)
  end.

(** [None] stands for the panic of [m.choices[m.cursor]] outside the menu. *)
Definition updateMenu (message : msg) (m : model) : M W (option (model * cmd)) :=
  match message with
  | StatusMsg =>
      let prevDeviceReady := Main.deviceReady (session m) in
      m1 ← (if decide (Main.ip (session m) ≠ "" ∧ Main.token (session m) ≠ "") then
              result ← NanoleafService.GetDeviceInfo app
                         (Main.ip (session m)) (Main.token (session m));
              ret (with_session m (with_deviceReady (session m) (Success result)))
            else ret m);
      let m2 :=
        if decide (Main.deviceReady (session m1) ≠ prevDeviceReady) then
          with_menu m1 (if Main.deviceReady (session m1)
                        then readyChoices else fullChoices)
        else m1 in
      ret (Some (m2, CmdTick))
  | KeyMsg key =>
      if decide (key = "ctrl+c") then ret (Some (m, CmdQuit))
      else if decide (key = "s") then r ← act scan m; ret (Some r)
      else if decide (key = "p") then r ← act pair m; ret (Some r)
      else if decide (key = "o") then r ← act turnOn m; ret (Some r)
      else if decide (key = "x") then r ← act turnOff m; ret (Some r)
      else if decide (key = "b") then r ← act brightness m; ret (Some r)
      else if decide (key = "q") then r ← act quit m; ret (Some r)
      else if decide (key = "up" ∨ key = "k") then
        ret (Some (if decide (cursor m > 0)%Z then with_cursor m (cursor m - 1)%Z
                   else m, CmdNone))
      else if decide (key = "down" ∨ key = "j") then
        ret (Some (if decide (cursor m < Z.of_nat (length (choices m)) - 1)%Z
                   then with_cursor m (cursor m + 1)%Z else m, CmdNone))
      else if decide (key = "enter") then
        if decide (0 ≤ cursor m)%Z then
          match choices m !! Z.to_nat (cursor m) with
          | Some label => r ← act (item_of_label label) m; ret (Some r)
          | None => ret None
          end
        else ret None
      else ret (Some (m, CmdNone))
  | OtherMsg => ret (Some (m, CmdNone))
  end.

Definition Update (message : msg) (m : model) : M W (option (model * cmd)) :=
  let m := with_error m false in
  if Main.inputMode (session m) then
    r ← updateInput message m; ret (Some r)
  else updateMenu message m.

(** Messages in the order the runtime delivers them; a panic ends the run. *)
Fixpoint Updates (messages : list msg) (m : model) : M W (option model) :=
  match messages with
  | [] => ret (Some m)
  | message :: rest =>
      r ← Update message m;
      match r with
      | Some (m', _) => Updates rest m'
      | None => ret None
      end
  end.

(** The menu shown matches the readiness flag and the cursor is on one of its
    entries. *)
Definition menu_ok (m : model) : Prop :=
  choices m = (if Main.deviceReady (session m) then readyChoices else fullChoices)
  ∧ (0 ≤ cursor m < Z.of_nat (length (choices m)))%Z.

(** The key printed in brackets in front of a label. *)
Definition shortcut (label : string) : string := String.substring 1 1 label.

End WithService.
End MainUI.

(** ** The scan of the first design: scanner.go, [scanForDevices] *)

Module LegacyScan.
Import LocalSubnet.

(** A [net.Interface]: the two flags the lookup reads and what [Addrs]
    returns. *)
Record Interface : Type := {
  FlagUp : bool;
  FlagLoopback : bool;
  Addrs : result (list Addr)
}.

(** The inner loop: the subnet of the first address in 192.168.0.0/16, or the
    empty string it started with. *)
Fixpoint subnet_of_addrs (addrs : list Addr) : string :=
  match addrs with
  | [] => ""
  | addr :: rest =>
      match addr with
      | IPNet ip =>
          match To4 ip with
          | Some (a, b, c, _) =>
              if decide (a = 192%N ∧ b = 168%N) then "192.168." +:+ pretty c
              else subnet_of_addrs rest
          | None => subnet_of_addrs rest
          end
      | OtherAddr => subnet_of_addrs rest
      end
  end.

(** The outer loop: interfaces that are down or loopback, or whose addresses
    cannot be read, are passed over. *)
Fixpoint subnet_of_interfaces (interfaces : list Interface) : string :=
  match interfaces with
  | [] => ""
  | iface :: rest =>
      if negb (FlagUp iface) || FlagLoopback iface then subnet_of_interfaces rest
      else
        match Addrs iface with
        | Err _ => subnet_of_interfaces rest
        | Ok addrs =>
            let subnet := subnet_of_addrs addrs in
            if decide (subnet ≠ "") then subnet else subnet_of_interfaces rest
        end
  end.

(** [scanForDevices] up to the point where its goroutines start;
    [net_Interfaces] is what [net.Interfaces()] returned. *)
Definition lookup (net_Interfaces : result (list Interface)) : result string :=
  match net_Interfaces with
  | Err e => Err ("failed to get network interfaces: " +:+ e)
  | Ok interfaces =>
      let subnet := subnet_of_interfaces interfaces in
      if decide (subnet = "") then Err "no suitable network interface found"
      else Ok subnet
  end.

(** [fmt.Sprintf("%s.%d", subnet, i)]. *)
Definition address (subnet : string) (i : nat) : string :=
  subnet +:+ "." +:+ pretty i.

(** The suffixes of [for i := 1; i < 255; i++]. *)
Definition hosts : list nat := seq 1 254.
Arguments hosts : simpl never.

(** The goroutines of the scan after the loop that starts them: one per host
    suffix, the one that waits for them and closes [done], and the caller in
    its [select]. *)
Record state : Type := {
  ctx_err : error;
  running : list nat;                 (* probes whose [wg.Done] has not run *)
  devices : list string;
  done_closed : bool;
  returned : option (result (list string))
}.

Inductive event : Type :=
| ECtxDone (err : string)
| EProbe (i : nat)       (* goroutine [i]: dial, append under the lock, return *)
| EWaited                (* [wg.Wait] returns and [done] is closed *)
| EReturnCancel          (* the [select] takes [ctx.Done()] *)
| EReturnDone.           (* the [select] takes [done] *)

Definition init (ctx : error) : state :=
  {| ctx_err := ctx; running := hosts; devices := []; done_closed := false;
     returned := None |}.

Section WithDialer.
(** [net.DialTimeout] on an address: whether it connected. *)
Context (DialTimeout : string → bool) (subnet : string).

(** The dial shares nothing and the append is under the mutex, so a probe is
    one step. *)
Definition step (e : event) (s : state) : option state :=
  match e with
  | ECtxDone err =>
      match ctx_err s with
      | None =>
          Some {| ctx_err := Some err; running := running s; devices := devices s;
                  done_closed := done_closed s; returned := returned s |}
      | Some _ => None
      end
  | EProbe i =>
      if decide (i ∈ running s) then
        let ip := address subnet i in
        Some {| ctx_err := ctx_err s;
                running := filter (λ j, j ≠ i) (running s);
                devices := if DialTimeout (ip +:+ ":16021") then devices s ++ [ip]
                           else devices s;
                done_closed := done_closed s; returned := returned s |}
      else None
  | EWaited =>
      match running s, done_closed s with
      | [], false =>
          Some {| ctx_err := ctx_err s; running := []; devices := devices s;
                  done_closed := true; returned := returned s |}
      | _, _ => None
      end
  | EReturnCancel =>
      match returned s, ctx_err s with
      | None, Some err =>
          Some {| ctx_err := ctx_err s; running := running s; devices := devices s;
                  done_closed := done_closed s; returned := Some (Err err) |}
      | _, _ => None
      end
  | EReturnDone =>
      match returned s, done_closed s with
      | None, true =>
          Some {| ctx_err := ctx_err s; running := running s; devices := devices s;
                  done_closed := done_closed s; returned := Some (Ok (devices s)) |}
      | _, _ => None
      end
  end.

Fixpoint run (tr : list event) (s : state) : option state :=
  match tr with
  | [] => Some s
  | e :: tr' =>
      match step e s with
      | Some s' => run tr' s'
      | None => None
      end
  end.

(** The host answers on the device port. *)
Definition listening (ip : string) : Prop := DialTimeout (ip +:+ ":16021") = true.

#[global] Instance listening_dec ip : Decision (listening ip) :=
  decide (DialTimeout (ip +:+ ":16021") = true).

(** Every host is either still being probed or accounted for, in the order
    the probes ended; the channel is closed and the function returns in the
    order the code fixes. *)
Record accounted (s : state) : Prop := {
  acc_running : NoDup (running s);
  acc_hosts : ∃ probed,
    hosts ≡ₚ running s ++ probed
    ∧ devices s = filter listening (address subnet <$> probed);
  acc_closed : done_closed s = true → running s = [];
  acc_returned : ∀ r, returned s = Some r →
    match r with
    | Ok ds => done_closed s = true ∧ ds = devices s
    | Err e => ctx_err s = Some e
    end
}.
End WithDialer.

(** Every host probed in turn, then the wait and the return. *)
Definition full_schedule : list event :=
  (EProbe <$> hosts) ++ [EWaited; EReturnDone].

End LegacyScan.

(** ** Stand-ins used to exercise the embedding on concrete inputs *)

Module Fixtures.

(** A codec that writes the two fields on two lines; it refuses an address
    that contains a line break. *)
Fixpoint has_newline (s : string) : bool :=
  match s with
  | EmptyString => false
  | String c rest => if decide (c = "010"%char) then true else has_newline rest
  end.

Fixpoint split_line (s : string) : option (string * string) :=
  match s with
  | EmptyString => None
  | String c rest =>
      if decide (c = "010"%char) then Some (EmptyString, rest)
      else match split_line rest with
           | Some (a, b) => Some (String c a, b)
           | None => None
           end
  end.

#[global] Instance lineCodec : JsonCodec := {|
  json_MarshalIndent c :=
    if has_newline (IP c) then Err "unsupported character"
    else Ok (IP c +:+ String "010"%char (Token c));
  json_Unmarshal data :=
    match split_line data with
    | Some (a, b) => Ok {| IP := a; Token := b |}
    | None => Err "unexpected end of input"
    end
|}.

(** A device that pairs with credential [T1] and accepts every command. *)
Definition friendly : Replies string := {|
  pair_reply _ _ := Ok "T1";
  power_reply _ _ _ _ := None;
  info_reply _ _ _ := Ok "NL22";
  brightness_reply _ _ _ _ := None
|}.

Definition noScanner : DeviceScanner World := {|
  scanner_Scan := ret (Ok [])
|}.

Definition service : NanoleafService.t World string :=
  NanoleafService.NewNanoleafService (recordingClient friendly) noScanner
    fileConfigManager.

Definition plainUI : UI :=
  {| renderNormal s := s; renderSuccess s := s; renderError s := s |}.

(** Nothing saved yet and nothing called yet. *)
Definition fresh : World :=
  {| api_log := []; disk := {| node_at := NotExist; write_error := None |} |}.

(** The same, on a disk that refuses every write. *)
Definition readOnly : World :=
  {| api_log := [];
     disk := {| node_at := NotExist; write_error := Some "read-only file system" |} |}.

Definition scanned : Main.model :=
  {| Main.ip := "10.0.0.5"; Main.token := ""; Main.deviceReady := false;
     Main.message := ""; Main.inputMode := false; Main.inputPrompt := "" |}.

(** A device client of the first design whose device no longer knows the
    stored credential. *)
Definition staleClient : DeviceClient unit string := {|
  dc_pair _ := ret (Ok "T2");
  dc_getInfo _ _ := ret (Err "getinfo failed with status 401");
  dc_listEffects _ _ := ret (Ok []);
  dc_setPower _ _ _ := ret None;
  dc_setBrightness _ _ _ := ret None;
  dc_setEffect _ _ _ := ret None
|}.

Definition liveClient : DeviceClient unit string := {|
  dc_pair _ := ret (Ok "T2");
  dc_getInfo _ _ := ret (Ok "NL22");
  dc_listEffects _ _ := ret (Ok ["Aurora"]);
  dc_setPower _ _ _ := ret None;
  dc_setBrightness _ _ _ := ret None;
  dc_setEffect _ _ _ := ret None
|}.

Definition pairedDevice : Device.t :=
  {| Device.config := {| IP := "10.0.0.5"; Token := "T1" |}; Device.effects := [] |}.

(** The dialer of the scanner tests with [shouldConnect] set: every dial
    connects, whatever the context. *)
Definition alwaysConnect : bool → string → bool := λ _ _, true.

(** A network on which one host listens on the device port. *)
Definition oneDevice : bool → string → bool :=
  λ _ address, String.eqb address "10.0.0.5:16021".

End Fixtures.

(** ** More stand-ins *)

Module Scenarios.

(** A device whose pairing window is closed. *)
Definition refusing : Replies string := {|
  pair_reply _ _ := Err "pairing failed with status 403: ";
  power_reply _ _ _ _ := None;
  info_reply _ _ _ := Ok "NL22";
  brightness_reply _ _ _ _ := None
|}.

(** A device that answers the pairing request without a credential. *)
Definition blank : Replies string := {|
  pair_reply _ _ := Ok "";
  power_reply _ _ _ _ := None;
  info_reply _ _ _ := Ok "NL22";
  brightness_reply _ _ _ _ := None
|}.

Definition serviceOf (r : Replies string) : NanoleafService.t World string :=
  NanoleafService.NewNanoleafService (recordingClient r) Fixtures.noScanner
    fileConfigManager.

(** A device client of the first design that pairs with credential [T2] and
    does not touch the disk. *)
Definition pairingClient : DeviceClient Disk string := {|
  dc_pair _ := ret (Ok "T2");
  dc_getInfo _ _ := ret (Ok "NL22");
  dc_listEffects _ _ := ret (Ok ["Aurora"]);
  dc_setPower _ _ _ := ret None;
  dc_setBrightness _ _ _ := ret None;
  dc_setEffect _ _ _ := ret None
|}.

Definition addressed : Device.t :=
  {| Device.config := {| IP := "10.0.0.5"; Token := "" |}; Device.effects := [] |}.

(** The bodies of the device API, flattened: a request body is a word, an
    answer body is the value it carries. *)
#[global] Instance wordJson : ApiJson string := {|
  json_Marshal_on on := Ok (if on then "on" else "off");
  json_Marshal_brightness b := Ok (pretty b);
  json_Unmarshal_auth_token body :=
    if decide (body = "") then Err "unexpected end of JSON input" else Ok body;
  json_Unmarshal_info body :=
    if decide (body = "") then Err "unexpected end of JSON input" else Ok body
|}.

(** A device that accepts every state change and answers every query. *)
Definition accepting : list Request.t → Request.t → result Response.t :=
  λ _ req,
    if decide (Request.Method req = "PUT") then
      Ok {| Response.StatusCode := 204; Response.Body := "";
            Response.Status := "204 No Content" |}
    else
      Ok {| Response.StatusCode := 200; Response.Body := "T9";
            Response.Status := "200 OK" |}.

(** A device that answers every request with an error status. *)
Definition busy : Response.t :=
  {| Response.StatusCode := 500; Response.Body := "busy";
     Response.Status := "500 Internal Server Error" |}.

Definition overloaded : list Request.t → Request.t → result Response.t :=
  λ _ _, Ok busy.

Definition idleScanner : DeviceScanner (list Request.t) :=
  {| scanner_Scan := ret (Ok []) |}.

Definition noStore : ConfigManager (list Request.t) :=
  {| cm_Save _ _ := ret None;
     cm_Load := ret (Err "config file does not exist");
     cm_Exists := ret false |}.

(** The context is cancelled before any goroutine has moved and the collector
    is the first to notice. *)
Definition early_cancel_schedule : list NetworkScanner.event :=
  [NetworkScanner.ECtxDone "context canceled"; NetworkScanner.ECollectCancel].

(** [strconv.Atoi] on unsigned decimal numbers. *)
Fixpoint decimal (s : string) (acc : Z) : option Z :=
  match s with
  | EmptyString => Some acc
  | String c rest =>
      let n := Z.of_nat (nat_of_ascii c) in
      if decide (48 ≤ n ≤ 57)%Z then decimal rest (10 * acc + (n - 48))%Z
      else None
  end.

Definition atoi (s : string) : result Z :=
  match s with
  | EmptyString => Err "invalid syntax"
  | _ => match decimal s 0 with
         | Some b => Ok b
         | None => Err "invalid syntax"
         end
  end.

(** A text input that appends the key pressed. *)
Definition typing (message : MainUI.msg) (value : string) : string :=
  match message with
  | MainUI.KeyMsg key => value +:+ key
  | _ => value
  end.

(** The terminal program at start-up with nothing stored. *)
Definition startMenu : MainUI.model :=
  {| MainUI.session :=
       {| Main.ip := ""; Main.token := ""; Main.deviceReady := false;
          Main.message := ""; Main.inputMode := false; Main.inputPrompt := "" |};
     MainUI.cursor := 0; MainUI.choices := MainUI.fullChoices;
     MainUI.error := false; MainUI.textInput := "" |}.

(** Paired and found ready by the last status message. *)
Definition readyMenu : MainUI.model :=
  {| MainUI.session :=
       {| Main.ip := "10.0.0.5"; Main.token := "T1"; Main.deviceReady := true;
          Main.message := ""; Main.inputMode := false; Main.inputPrompt := "" |};
     MainUI.cursor := 2; MainUI.choices := MainUI.readyChoices;
     MainUI.error := false; MainUI.textInput := "" |}.

(** Paired, but not probed since. *)
Definition pairedMenu : MainUI.model :=
  {| MainUI.session :=
       {| Main.ip := "10.0.0.5"; Main.token := "T1"; Main.deviceReady := false;
          Main.message := ""; Main.inputMode := false; Main.inputPrompt := "" |};
     MainUI.cursor := 4; MainUI.choices := MainUI.fullChoices;
     MainUI.error := false; MainUI.textInput := "" |}.

(** The brightness prompt with a value that is no number. *)
Definition typingMenu : MainUI.model :=
  {| MainUI.session :=
       {| Main.ip := "10.0.0.5"; Main.token := "T1"; Main.deviceReady := true;
          Main.message := ""; Main.inputMode := true;
          Main.inputPrompt := "Enter brightness (0-100)" |};
     MainUI.cursor := 2; MainUI.choices := MainUI.readyChoices;
     MainUI.error := false; MainUI.textInput := "max" |}.

(** A scanner that finds one device, and the service over it. *)
Definition oneFound : DeviceScanner World := {|
  scanner_Scan := ret (Ok ["10.0.0.5"])
|}.

Definition found : NanoleafService.t World string :=
  NanoleafService.NewNanoleafService (recordingClient Fixtures.friendly) oneFound
    fileConfigManager.

(** A home network on which one host listens on the device port. *)
Definition homeDevice : string → bool :=
  λ address, String.eqb address "192.168.1.5:16021".

(** A loopback interface and a wired one with an address outside
    192.168.0.0/16. *)
Definition officeInterfaces : list LegacyScan.Interface :=
  [ {| LegacyScan.FlagUp := true; LegacyScan.FlagLoopback := true;
       LegacyScan.Addrs := Ok [LocalSubnet.IPNet (LocalSubnet.IPv4 127 0 0 1)] |};
    {| LegacyScan.FlagUp := true; LegacyScan.FlagLoopback := false;
       LegacyScan.Addrs := Ok [LocalSubnet.IPNet (LocalSubnet.IPv6 false);
                               LocalSubnet.IPNet (LocalSubnet.IPv4 10 0 0 7)] |} ].

(** The same machine with a wireless interface of a home network besides. *)
Definition homeInterfaces : list LegacyScan.Interface :=
  officeInterfaces
  ++ [ {| LegacyScan.FlagUp := true; LegacyScan.FlagLoopback := false;
          LegacyScan.Addrs := Ok [LocalSubnet.IPNet (LocalSubnet.IPv4 192 168 1 23)] |} ].

End Scenarios.

(** * Properties *)

(** ** The session store *)

Section StoreProperties.
Context `{JsonCodec}.

Lemma Save_rejects_empty ip token d :
  ip = "" ∨ token = "" →
  FileConfigManager.Save ip token d = (Some "ip and token cannot be empty", d).
Proof.
  intros Hempty. unfold FileConfigManager.Save.
  destruct (decide (ip = "" ∨ token = "")) as [_|Hn]; [reflexivity|contradiction].
Qed.

Lemma Save_writes ip token data d :
  ip ≠ "" → token ≠ "" →
  json_MarshalIndent {| IP := ip; Token := token |} = Ok data →
  write_error d = None →
  FileConfigManager.Save ip token d
  = (None, {| node_at := File data; write_error := None |}).
Proof.
  intros Hip Htok Hm Hw. unfold FileConfigManager.Save.
  destruct (decide (ip = "" ∨ token = "")) as [[?|?]|_]; [done..|].
  rewrite Hm. unfold mbind, M_bind, os_WriteFile. rewrite Hw. reflexivity.
Qed.

Lemma Save_nil_inv ip token d d' :
  FileConfigManager.Save ip token d = (None, d') →
  ip ≠ "" ∧ token ≠ "" ∧
  ∃ data, json_MarshalIndent {| IP := ip; Token := token |} = Ok data ∧
          node_at d' = File data.
Proof.
  unfold FileConfigManager.Save.
  destruct (decide (ip = "" ∨ token = "")) as [?|Hn]; [discriminate|].
  destruct (json_MarshalIndent _) as [data|e] eqn:Hm; [|discriminate].
  unfold mbind, M_bind, os_WriteFile.
  destruct (write_error d) as [e|]; [discriminate|].
  intros [= <-]. repeat split; [tauto..|]. by exists data.
Qed.

Lemma Load_missing d :
  node_at d = NotExist →
  FileConfigManager.Load d = (Err "config file does not exist", d).
Proof.
  intros Hn. unfold FileConfigManager.Load, FileConfigManager.Exists,
    mbind, M_bind, os_Stat_exists.
  rewrite Hn. reflexivity.
Qed.

Lemma Load_file data d :
  node_at d = File data →
  FileConfigManager.Load d
  = (match json_Unmarshal data with
     | Err e => Err ("failed to unmarshal config: " +:+ e)
     | Ok config =>
         if decide (IP config = "" ∨ Token config = "")
         then Err "invalid configuration: missing IP or token"
         else Ok config
     end, d).
Proof.
  intros Hn. unfold FileConfigManager.Load, FileConfigManager.Exists,
    mbind, M_bind, os_Stat_exists, os_ReadFile.
  cbn. rewrite Hn. cbn. rewrite Hn.
  destruct (json_Unmarshal data) as [c|e]; [|reflexivity].
  destruct (decide _); reflexivity.
Qed.

Lemma Load_unreadable cause d :
  node_at d = Unreadable cause →
  FileConfigManager.Load d = (Err ("failed to read config file: " +:+ cause), d).
Proof.
  intros Hn. unfold FileConfigManager.Load, FileConfigManager.Exists,
    mbind, M_bind, os_Stat_exists, os_ReadFile.
  cbn. rewrite Hn. cbn. rewrite Hn. reflexivity.
Qed.

End StoreProperties.

Lemma split_line_append a b :
  Fixtures.has_newline a = false →
  Fixtures.split_line (a +:+ String "010"%char b) = Some (a, b).
Proof.
  induction a as [|c a IH]; simpl; intros Hnl.
  - reflexivity.
  - destruct (decide (c = "010"%char)); [discriminate|].
    specialize (IH Hnl). simpl in IH. rewrite IH. reflexivity.
Qed.

#[global] Instance lineCodec_laws : @JsonCodecLaws Fixtures.lineCodec.
Proof.
  constructor. intros [ip token] data. cbn.
  destruct (Fixtures.has_newline ip) eqn:Hnl; [discriminate|].
  intros [= <-]. rewrite split_line_append by done. reflexivity.
Qed.

Section StoreRoundTrip.
Context `{JsonCodecLaws}.

(** C7. Saving a non-empty address and credential and then loading gives back
    exactly that pair ([Save] returning [nil] is what "saved" means, and it does
    so whenever encoding and writing succeed); loading when nothing was ever
    saved fails with an error. *)
Theorem save_then_load_roundtrip ip token :
  ip ≠ "" → token ≠ "" →
  (∀ d d', FileConfigManager.Save ip token d = (None, d') →
           FileConfigManager.Load d' = (Ok {| IP := ip; Token := token |}, d'))
  ∧ (∀ d data, json_MarshalIndent {| IP := ip; Token := token |} = Ok data →
               write_error d = None →
               ∃ d', FileConfigManager.Save ip token d = (None, d'))
  ∧ (∀ d, node_at d = NotExist →
          ∃ e, FileConfigManager.Load d = (Err e, d)).
Proof.
  intros Hip Htok. split; [|split].
  - intros d d' Hsave.
    destruct (Save_nil_inv _ _ _ _ Hsave) as (_ & _ & data & Hm & Hnode).
    rewrite (Load_file data d' Hnode), (unmarshal_marshal _ _ Hm). cbn.
    destruct (decide (ip = "" ∨ token = "")) as [[?|?]|_]; done.
  - intros d data Hm Hw. eexists. by apply Save_writes.
  - intros d Hn. eexists. by apply Load_missing.
Qed.

End StoreRoundTrip.

Lemma save_then_load_roundtrip_witness :
  ("192.168.1.100" ≠ "" ∧ "test-token" ≠ "")
  ∧ FileConfigManager.Load
      (snd (FileConfigManager.Save "192.168.1.100" "test-token" (disk Fixtures.fresh)))
    = (Ok {| IP := "192.168.1.100"; Token := "test-token" |},
       snd (FileConfigManager.Save "192.168.1.100" "test-token" (disk Fixtures.fresh))).
Proof.
  split; [split; discriminate|].
  apply (proj1 (@save_then_load_roundtrip Fixtures.lineCodec lineCodec_laws
                  "192.168.1.100" "test-token"
                  ltac:(discriminate) ltac:(discriminate)) (disk Fixtures.fresh)).
  reflexivity.
Defined.

(** C10. [Save] with an empty address or an empty credential returns an error
    and leaves the disk, and so the stored record or its absence, as it was. *)
Theorem Save_empty_writes_nothing `{JsonCodec} ip token d :
  ip = "" ∨ token = "" →
  ∃ e, FileConfigManager.Save ip token d = (Some e, d).
Proof.
  intros Hempty. eexists. by apply Save_rejects_empty.
Qed.

Lemma Save_empty_writes_nothing_witness :
  ("10.0.0.5" = "" ∨ "" = "")
  ∧ ∃ e, FileConfigManager.Save "10.0.0.5" ""
           {| node_at := File "kept"; write_error := None |}
         = (Some e, {| node_at := File "kept"; write_error := None |}).
Proof.
  split; [right; reflexivity|].
  apply (@Save_empty_writes_nothing Fixtures.lineCodec "10.0.0.5" "").
  right; reflexivity.
Defined.

(** ** The orchestration service *)

(** Every call of the substitute API leaves exactly one more entry in its log,
    so an unchanged world means the API was not invoked. *)
Lemma recordingClient_counts {Info} (r : Replies Info) w :
  (∀ ip, length (api_log (snd (client_Pair (recordingClient r) ip w)))
         = S (length (api_log w)))
  ∧ (∀ ip token on,
       length (api_log (snd (client_SetPower (recordingClient r) ip token on w)))
       = S (length (api_log w)))
  ∧ (∀ ip token,
       length (api_log (snd (client_GetInfo (recordingClient r) ip token w)))
       = S (length (api_log w)))
  ∧ (∀ ip token b,
       length (api_log (snd (client_SetBrightness (recordingClient r) ip token b w)))
       = S (length (api_log w))).
Proof.
  repeat split; intros; cbn; rewrite length_app; cbn; lia.
Qed.

Section ServiceProperties.
Context {W Info : Type} (svc : NanoleafService.t W Info).

Lemma PairWithDevice_no_ip w :
  NanoleafService.PairWithDevice svc "" w
  = ({| Success := false; Message := "No device IP provided. Please scan first.";
        Data := DNil |}, w).
Proof. reflexivity. Qed.

Lemma SetDevicePower_not_paired ip token on w :
  ip = "" ∨ token = "" →
  NanoleafService.SetDevicePower svc ip token on w
  = ({| Success := false; Message := not_paired_message; Data := DNil |}, w).
Proof.
  intros He. unfold NanoleafService.SetDevicePower.
  destruct (decide (ip = "" ∨ token = "")); [reflexivity|contradiction].
Qed.

Lemma SetBrightness_not_paired ip token b w :
  ip = "" ∨ token = "" →
  NanoleafService.SetBrightness svc ip token b w
  = ({| Success := false; Message := not_paired_message; Data := DNil |}, w).
Proof.
  intros He. unfold NanoleafService.SetBrightness.
  destruct (decide (ip = "" ∨ token = "")); [reflexivity|contradiction].
Qed.

Lemma GetDeviceInfo_not_paired ip token w :
  ip = "" ∨ token = "" →
  NanoleafService.GetDeviceInfo svc ip token w
  = ({| Success := false; Message := not_paired_message; Data := DNil |}, w).
Proof.
  intros He. unfold NanoleafService.GetDeviceInfo.
  destruct (decide (ip = "" ∨ token = "")); [reflexivity|contradiction].
Qed.

(** With an address and a credential, the level goes to the device API as it
    is, whatever its value. *)
Lemma SetBrightness_calls_client ip token b w :
  ip ≠ "" → token ≠ "" →
  NanoleafService.SetBrightness svc ip token b w
  = let '(err, w') := client_SetBrightness (NanoleafService.client svc) ip token b w in
    (match err with
     | Some e => {| Success := false;
                    Message := "Failed to set device brightness: " +:+ e;
                    Data := DNil |}
     | None => {| Success := true;
                  Message := "Brightness set to " +:+ pretty b +:+ " successfully";
                  Data := DNil |}
     end, w').
Proof.
  intros Hip Htok. unfold NanoleafService.SetBrightness.
  destruct (decide (ip = "" ∨ token = "")) as [[?|?]|_]; [done..|].
  unfold mbind, M_bind.
  destruct (client_SetBrightness _ ip token b w) as [[e|] w']; reflexivity.
Qed.

Lemma PairWithDevice_paired ip tok w w1 :
  ip ≠ "" →
  client_Pair (NanoleafService.client svc) ip w = (Ok tok, w1) →
  NanoleafService.PairWithDevice svc ip w
  = ({| Success := true; Message := "Device paired successfully";
        Data := DString tok |},
     snd (cm_Save (NanoleafService.configManager svc) ip tok w1)).
Proof.
  intros Hip Hpair. unfold NanoleafService.PairWithDevice.
  destruct (decide (ip = "")); [done|].
  unfold mbind, M_bind. rewrite Hpair.
  destruct (cm_Save _ ip tok w1) as [err w2]. reflexivity.
Qed.

Lemma LoadConfiguration_cases w :
  NanoleafService.LoadConfiguration svc w
  = let '(found, w1) := cm_Exists (NanoleafService.configManager svc) w in
    if found then
      let '(r, w2) := cm_Load (NanoleafService.configManager svc) w1 in
      (match r with
       | Err e => {| Success := false;
                     Message := "Failed to load configuration: " +:+ e;
                     Data := DNil |}
       | Ok config => {| Success := true;
                         Message := "Configuration loaded successfully";
                         Data := DConfig config |}
       end, w2)
    else ({| Success := false; Message := "No saved configuration found";
             Data := DNil |}, w1).
Proof.
  unfold NanoleafService.LoadConfiguration, mbind, M_bind.
  destruct (cm_Exists _ w) as [[|] w1]; cbn; [|reflexivity].
  destruct (cm_Load _ w1) as [[c|e] w2]; reflexivity.
Qed.

End ServiceProperties.

(** C6. Each command checks what it needs before the device API is touched:
    pairing without an address fails, and power, brightness and info without
    an address or without a credential fail with the "not paired" message; in
    every case the world, and with it the call log of the API, is unchanged. *)
Theorem precondition_checked_before_api {Info} (r : Replies Info)
    (sc : DeviceScanner World) (cm : ConfigManager World) (w : World) :
  let svc := NanoleafService.NewNanoleafService (recordingClient r) sc cm in
  (∃ msg, NanoleafService.PairWithDevice svc "" w
          = ({| Success := false; Message := msg; Data := DNil |}, w))
  ∧ ∀ ip token, ip = "" ∨ token = "" →
      let refused : ServiceResult Info :=
        {| Success := false;
           Message := "Device not paired. Please scan and pair first.";
           Data := DNil |} in
      (∀ on, NanoleafService.SetDevicePower svc ip token on w = (refused, w))
      ∧ (∀ b, NanoleafService.SetBrightness svc ip token b w = (refused, w))
      ∧ NanoleafService.GetDeviceInfo svc ip token w = (refused, w).
Proof.
  intros svc. split.
  - eexists. apply PairWithDevice_no_ip.
  - intros ip token He refused. repeat split; intros.
    + by apply SetDevicePower_not_paired.
    + by apply SetBrightness_not_paired.
    + by apply GetDeviceInfo_not_paired.
Qed.

Lemma precondition_checked_before_api_witness :
  ("10.0.0.5" = "" ∨ "" = "")
  ∧ NanoleafService.GetDeviceInfo Fixtures.service "10.0.0.5" "" Fixtures.fresh
    = ({| Success := false;
          Message := "Device not paired. Please scan and pair first.";
          Data := DNil |}, Fixtures.fresh).
Proof.
  split; [right; reflexivity|].
  apply (proj2 (precondition_checked_before_api Fixtures.friendly Fixtures.noScanner
                  fileConfigManager Fixtures.fresh) "10.0.0.5" "").
  right; reflexivity.
Defined.

(** C1. The service hands a level of 101 to the device API: the call is in the
    log and the result is a success, where the specification asks for a local
    failure without any call. *)
Theorem SetBrightness_out_of_range_reaches_api :
  NanoleafService.SetBrightness Fixtures.service "10.0.0.5" "T1" 101 Fixtures.fresh
  = ({| Success := true; Message := "Brightness set to 101 successfully";
        Data := DNil |},
     {| api_log := [CallSetBrightness "10.0.0.5" "T1" 101];
        disk := disk Fixtures.fresh |}).
Proof. reflexivity. Qed.

(** C5. When the device API pairs and issues a credential, the result is a
    success carrying that credential, whatever the session store answers to
    the save that follows, and the session of the presentation layer takes the
    credential over. *)
Theorem pairing_survives_save_failure {W Info} (svc : NanoleafService.t W Info)
    (ui : UI) ip tok w w1 :
  ip ≠ "" →
  client_Pair (NanoleafService.client svc) ip w = (Ok tok, w1) →
  ∀ save_err w2,
    cm_Save (NanoleafService.configManager svc) ip tok w1 = (save_err, w2) →
    NanoleafService.PairWithDevice svc ip w
    = ({| Success := true; Message := "Device paired successfully";
          Data := DString tok |}, w2)
    ∧ ∀ m, Main.ip m = ip → Main.deviceReady m = false →
        Main.token (fst (Main.handleAction svc ui pair m w)) = tok
        ∧ Main.ip (fst (Main.handleAction svc ui pair m w)) = ip.
Proof.
  intros Hip Hpair save_err w2 Hsave.
  pose proof (PairWithDevice_paired svc ip tok w w1 Hip Hpair) as Hres.
  rewrite Hsave in Hres. split; [exact Hres|].
  intros m Hm Hready. unfold Main.handleAction. rewrite Hready, Hm.
  destruct (decide (ip = "")); [done|].
  unfold mbind, M_bind. rewrite Hres. cbn. by rewrite Hm.
Qed.

Lemma pairing_survives_save_failure_witness :
  ("10.0.0.5" ≠ "")
  ∧ fst (cm_Save fileConfigManager "10.0.0.5" "T1"
           (log_call (CallPair "10.0.0.5") Fixtures.readOnly))
    = Some "failed to write config file: read-only file system"
  ∧ fst (NanoleafService.PairWithDevice Fixtures.service "10.0.0.5" Fixtures.readOnly)
    = {| Success := true; Message := "Device paired successfully";
         Data := DString "T1" |}
  ∧ Main.token (fst (Main.handleAction Fixtures.service Fixtures.plainUI pair
                       Fixtures.scanned Fixtures.readOnly)) = "T1".
Proof.
  pose proof (pairing_survives_save_failure Fixtures.service Fixtures.plainUI
                "10.0.0.5" "T1" Fixtures.readOnly
                (log_call (CallPair "10.0.0.5") Fixtures.readOnly)
                ltac:(discriminate) eq_refl _ _ eq_refl) as [Hres Hsession].
  split; [discriminate|]. split; [reflexivity|]. split.
  - by rewrite Hres.
  - exact (proj1 (Hsession Fixtures.scanned eq_refl eq_refl)).
Defined.

Lemma on_disk_run {A} (c : M Disk A) (w : World) :
  on_disk c w = (fst (c (disk w)), {| api_log := api_log w; disk := snd (c (disk w)) |}).
Proof. unfold on_disk. by destruct (c (disk w)). Qed.

Lemma World_eta (w : World) : {| api_log := api_log w; disk := disk w |} = w.
Proof. by destruct w. Qed.

Lemma Load_keeps_disk `{JsonCodec} d : snd (FileConfigManager.Load d) = d.
Proof.
  destruct (node_at d) as [|data|cause] eqn:Hn.
  - by rewrite Load_missing.
  - by rewrite (Load_file data).
  - by rewrite (Load_unreadable cause).
Qed.

Lemma fileConfigManager_Exists `{JsonCodec} (w : World) :
  cm_Exists fileConfigManager w
  = (match node_at (disk w) with NotExist => false | _ => true end, w).
Proof.
  cbn. rewrite on_disk_run. unfold FileConfigManager.Exists, os_Stat_exists.
  destruct (node_at (disk w)); cbn; by rewrite World_eta.
Qed.

Lemma fileConfigManager_Load `{JsonCodec} (w : World) :
  cm_Load fileConfigManager w = (fst (FileConfigManager.Load (disk w)), w).
Proof.
  cbn. rewrite on_disk_run, Load_keeps_disk. by rewrite World_eta.
Qed.

(** C9. Loading the configuration through the service, over the file store:
    no file gives a failure; a file that does not decode, or that decodes to a
    record with an empty address or credential, gives a failure whose message
    carries the store's cause; a file that decodes to a complete record gives
    a success carrying that record. The world is never changed. *)
Theorem LoadConfiguration_outcomes `{JsonCodec} {Info} (c : NanoleafClient World Info)
    (sc : DeviceScanner World) (w : World) :
  let svc := NanoleafService.NewNanoleafService c sc fileConfigManager in
  let failed msg : ServiceResult Info :=
    {| Success := false; Message := msg; Data := DNil |} in
  (node_at (disk w) = NotExist →
     NanoleafService.LoadConfiguration svc w = (failed "No saved configuration found", w))
  ∧ (∀ data, node_at (disk w) = File data →
       (∀ e, json_Unmarshal data = Err e →
          NanoleafService.LoadConfiguration svc w
          = (failed ("Failed to load configuration: "
                     +:+ ("failed to unmarshal config: " +:+ e)), w))
       ∧ (∀ config, json_Unmarshal data = Ok config →
            (IP config = "" ∨ Token config = "" →
               NanoleafService.LoadConfiguration svc w
               = (failed ("Failed to load configuration: "
                          +:+ "invalid configuration: missing IP or token"), w))
            ∧ (IP config ≠ "" → Token config ≠ "" →
                 NanoleafService.LoadConfiguration svc w
                 = ({| Success := true; Message := "Configuration loaded successfully";
                       Data := DConfig config |}, w)))).
Proof.
  intros svc failed. split; [|intros data Hn; split; [|intros config Hc; split]].
  - intros Hn. rewrite LoadConfiguration_cases.
    change (NanoleafService.configManager svc) with (@fileConfigManager H).
    by rewrite (fileConfigManager_Exists w), Hn.
  - intros e He. rewrite LoadConfiguration_cases.
    change (NanoleafService.configManager svc) with (@fileConfigManager H).
    rewrite (fileConfigManager_Exists w), Hn, (fileConfigManager_Load w).
    by rewrite (Load_file data _ Hn), He.
  - intros Hempty. rewrite LoadConfiguration_cases.
    change (NanoleafService.configManager svc) with (@fileConfigManager H).
    rewrite (fileConfigManager_Exists w), Hn, (fileConfigManager_Load w).
    rewrite (Load_file data _ Hn), Hc. cbn.
    by destruct (decide (IP config = "" ∨ Token config = "")).
  - intros Hip Htok. rewrite LoadConfiguration_cases.
    change (NanoleafService.configManager svc) with (@fileConfigManager H).
    rewrite (fileConfigManager_Exists w), Hn, (fileConfigManager_Load w).
    rewrite (Load_file data _ Hn), Hc. cbn.
    by destruct (decide (IP config = "" ∨ Token config = "")) as [[?|?]|_].
Qed.

Lemma LoadConfiguration_outcomes_witness :
  let w := {| api_log := [];
              disk := {| node_at := File ("10.0.0.5" +:+ String "010"%char "");
                         write_error := None |} |} in
  (IP {| IP := "10.0.0.5"; Token := "" |} = "" ∨ Token {| IP := "10.0.0.5"; Token := "" |} = "")
  ∧ NanoleafService.LoadConfiguration Fixtures.service w
    = ({| Success := false;
          Message := "Failed to load configuration: invalid configuration: missing IP or token";
          Data := DNil |}, w).
Proof.
  intros w. split; [right; reflexivity|].
  apply (proj1 (proj2 (proj2 (LoadConfiguration_outcomes
                                (recordingClient Fixtures.friendly) Fixtures.noScanner w)
                               _ ltac:(reflexivity))
                        {| IP := "10.0.0.5"; Token := "" |} ltac:(reflexivity))).
  right; reflexivity.
Defined.

(** ** The device session *)

Section DeviceProperties.
Context {W Info : Type} (client : DeviceClient W Info).

Lemma IsDeviceReady_unconfigured d w :
  IP (Device.config d) = "" ∨ Token (Device.config d) = "" →
  Device.IsDeviceReady client d w = ((false, d), w).
Proof.
  intros He. unfold Device.IsDeviceReady.
  destruct (decide _); [reflexivity|contradiction].
Qed.

Lemma IsDeviceReady_probes d w :
  IP (Device.config d) ≠ "" → Token (Device.config d) ≠ "" →
  fst (fst (Device.IsDeviceReady client d w))
  = match fst (dc_getInfo client (IP (Device.config d)) (Token (Device.config d)) w) with
    | Ok _ => true
    | Err _ => false
    end.
Proof.
  intros Hip Htok. unfold Device.IsDeviceReady.
  destruct (decide _) as [[?|?]|_]; [done..|].
  unfold mbind, M_bind.
  destruct (dc_getInfo client _ _ w) as [[info|e] w1]; cbn; [|reflexivity].
  by destruct (Device.loadEffects client d w1).
Qed.

(** The range check of the first design: nothing reaches the client. *)
Lemma Device_SetBrightness_out_of_range b d w :
  (b < 0 ∨ b > 100)%Z →
  Device.SetBrightness client b d w
  = (Some "brightness must be between 0 and 100", w).
Proof.
  intros Hb. unfold Device.SetBrightness.
  destruct (decide _); [reflexivity|contradiction].
Qed.

End DeviceProperties.

(** C8. The session is ready exactly when it has an address and a credential
    and [getInfo] on them succeeds; a credential alone is not enough, and with
    an empty address or credential it is not ready and the client is left
    alone. *)
Theorem readiness_requires_probe {W Info} (client : DeviceClient W Info) d w :
  (fst (fst (Device.IsDeviceReady client d w)) = true
   ↔ IP (Device.config d) ≠ "" ∧ Token (Device.config d) ≠ ""
     ∧ ∃ info, fst (dc_getInfo client (IP (Device.config d))
                      (Token (Device.config d)) w) = Ok info)
  ∧ (IP (Device.config d) = "" ∨ Token (Device.config d) = "" →
     Device.IsDeviceReady client d w = ((false, d), w)).
Proof.
  split; [|apply IsDeviceReady_unconfigured].
  destruct (decide (IP (Device.config d) = "" ∨ Token (Device.config d) = ""))
    as [He|Hne].
  - rewrite (IsDeviceReady_unconfigured client d w He). cbn. split; [discriminate|].
    intros (? & ? & _). destruct He; done.
  - assert (IP (Device.config d) ≠ "" ∧ Token (Device.config d) ≠ "") as [Hip Htok]
      by (split; intros ?; apply Hne; auto).
    rewrite (IsDeviceReady_probes client d w Hip Htok).
    destruct (fst (dc_getInfo client _ _ w)) as [info|e].
    + split; [intros _; eauto|done].
    + split; [discriminate|]. intros (_ & _ & info & Hinfo). discriminate.
Qed.

Lemma readiness_requires_probe_witness :
  (IP (Device.config Fixtures.pairedDevice) ≠ ""
   ∧ Token (Device.config Fixtures.pairedDevice) ≠ ""
   ∧ ∃ info, fst (dc_getInfo Fixtures.liveClient "10.0.0.5" "T1" tt) = Ok info)
  ∧ fst (fst (Device.IsDeviceReady Fixtures.liveClient Fixtures.pairedDevice tt)) = true
  ∧ (IP (Device.config Device.NewDevice) = "" ∨ Token (Device.config Device.NewDevice) = "")
  ∧ Device.IsDeviceReady Fixtures.liveClient Device.NewDevice tt
    = ((false, Device.NewDevice), tt).
Proof.
  assert (IP (Device.config Fixtures.pairedDevice) ≠ ""
          ∧ Token (Device.config Fixtures.pairedDevice) ≠ ""
          ∧ ∃ info, fst (dc_getInfo Fixtures.liveClient "10.0.0.5" "T1" tt) = Ok info)
    as Hprobe by (split; [discriminate|split; [discriminate|by exists "NL22"]]).
  split; [exact Hprobe|]. split.
  - apply (proj2 (proj1 (readiness_requires_probe Fixtures.liveClient
                           Fixtures.pairedDevice tt))). exact Hprobe.
  - split; [left; reflexivity|].
    apply (proj2 (readiness_requires_probe Fixtures.liveClient Device.NewDevice tt)).
    left; reflexivity.
Defined.

(** A credential that the device no longer accepts does not make the session
    ready. *)
Lemma stale_credential_not_ready :
  fst (fst (Device.IsDeviceReady Fixtures.staleClient Fixtures.pairedDevice tt)) = false.
Proof. reflexivity. Qed.

(** The scan action of the presentation layer replaces the address only:
    the credential of its session is the one it had. *)
Lemma scan_action_keeps_token {W Info} (app : NanoleafService.t W Info) (ui : UI)
    (m : Main.model) (w : W) :
  Main.token (fst (Main.handleAction app ui scan m w)) = Main.token m.
Proof.
  unfold Main.handleAction. destruct (Main.deviceReady m); [reflexivity|].
  unfold mbind, M_bind.
  destruct (NanoleafService.ScanForDevices app w) as [[ok msg data] w'].
  destruct ok; [|reflexivity]. cbn.
  destruct data as [|[|first rest]| | |]; reflexivity.
Qed.

(** C2 (as the code has it). [SetDevice] stores the new address and keeps the
    credential and the effects it had: the credential is empty afterwards only
    if it was empty before. *)
Theorem SetDevice_keeps_credential ip (d : Device.t) :
  IP (Device.config (Device.SetDevice ip d)) = ip
  ∧ Token (Device.config (Device.SetDevice ip d)) = Token (Device.config d)
  ∧ Device.effects (Device.SetDevice ip d) = Device.effects d.
Proof. by destruct d as [[??]?]. Qed.

(** C2 fails as stated: a paired session still holds its credential after the
    address is replaced. *)
Lemma SetDevice_discards_credential_counterexample :
  ¬ (∀ ip d, IP (Device.config (Device.SetDevice ip d)) = ip
             ∧ Token (Device.config (Device.SetDevice ip d)) = "").
Proof.
  intros Hclaim.
  destruct (Hclaim "10.0.0.9" Fixtures.pairedDevice) as [_ Htok].
  discriminate Htok.
Qed.

(** ** The subnet scan *)

Import NetworkScanner.
Open Scope list_scope.

Lemma pretty_N_go_nonempty x s : s ≠ "" → pretty_N_go x s ≠ "".
Proof.
  revert s. induction (N.lt_wf_0 x) as [x _ IH]; intros s Hs.
  destruct (decide (x = 0)%N) as [->|Hx].
  - by rewrite pretty_N_go_0.
  - rewrite pretty_N_go_step by lia. apply IH; [|done].
    apply N.div_lt; lia.
Qed.

Lemma pretty_nat_nonempty (n : nat) : pretty n ≠ "".
Proof.
  unfold pretty, pretty_nat, pretty, pretty_N.
  destruct (decide (N.of_nat n = 0)%N); [done|].
  rewrite pretty_N_go_step by lia. by apply pretty_N_go_nonempty.
Qed.

Lemma append_nonempty a b : b ≠ "" → a +:+ b ≠ "".
Proof. destruct a; cbn; [done|discriminate]. Qed.

Lemma append_inj_r a b c : a +:+ b = a +:+ c → b = c.
Proof. induction a as [|x a IH]; cbn; [done|]. intros [= ?]. auto. Qed.

Lemma candidate_nonempty subnet i : candidate subnet i ≠ "".
Proof. apply append_nonempty, pretty_nat_nonempty. Qed.

Global Instance candidate_inj subnet : Inj (=) (=) (candidate subnet).
Proof. intros i j Hij. apply append_inj_r in Hij. by apply (inj pretty). Qed.

Lemma candidates_NoDup subnet : NoDup (candidates subnet).
Proof. apply NoDup_fmap_2; [apply _|apply NoDup_seq]. Qed.

Lemma candidates_length subnet : length (candidates subnet) = hostCount.
Proof. unfold candidates. by rewrite length_fmap, length_seq. Qed.

Lemma candidates_nonempty subnet ip : ip ∈ candidates subnet → ip ≠ "".
Proof.
  intros (i & -> & _)%list_elem_of_fmap. apply candidate_nonempty.
Qed.

Lemma held_app ws1 ws2 : held (ws1 ++ ws2) = held ws1 ++ held ws2.
Proof. apply bind_app. Qed.

Lemma held_insert (ws : list worker) (k : nat) w old :
  ws !! k = Some old →
  held (<[k := w]> ws) ++ job_of old ≡ₚ job_of w ++ held ws.
Proof.
  intros Hk.
  rewrite <-(take_drop_middle ws k old Hk) at 2.
  rewrite insert_take_drop by (by eapply lookup_lt_Some).
  rewrite !held_app. unfold held at 2 4. rewrite !bind_cons.
  fold (held (drop (S k) ws)).
  generalize (held (take k ws)) (held (drop (S k) ws)). intros l1 l2.
  solve_Permutation.
Qed.

Lemma all_exited_lookup (ws : list worker) (k : nat) w :
  all_exited ws = true → ws !! k = Some w → w = Exited.
Proof.
  unfold all_exited. rewrite forallb_forall. intros Hall Hk.
  apply list_elem_of_lookup_2, list_elem_of_In in Hk.
  specialize (Hall w Hk). by destruct w.
Qed.

Lemma all_exited_held ws : all_exited ws = true → held ws = [].
Proof.
  induction ws as [|w ws IH]; [done|]. cbn.
  destruct w; try discriminate. intros Hall. by apply IH.
Qed.

Lemma Exited_insert (ws : list worker) (k : nat) w :
  Exited ∈ <[k := w]> ws → w ≠ Exited → Exited ∈ ws.
Proof.
  intros Hin Hw. apply list_elem_of_lookup in Hin as [j Hj].
  destruct (decide (k = j)) as [->|Hne].
  - destruct (decide (j < length ws)) as [Hlt|Hge].
    + rewrite list_lookup_insert_eq in Hj by done. congruence.
    + rewrite list_insert_ge in Hj by lia. by eapply list_elem_of_lookup_2.
  - rewrite list_lookup_insert_ne in Hj by done. by eapply list_elem_of_lookup_2.
Qed.

Lemma unsent_step subnet s i :
  sending s = Sending i → i ≤ hostCount →
  unsent subnet s
  = candidate subnet i :: (candidate subnet <$> seq (S i) (S hostCount - S i)).
Proof.
  intros Hs Hi. unfold unsent. rewrite Hs.
  replace (S hostCount - i) with (S (S hostCount - S i)) by lia. reflexivity.
Qed.

Section Preservation.
Context (DialContext : bool → string → bool) (subnet : string).
Local Abbreviation step := (step DialContext subnet).
Local Abbreviation run := (run DialContext subnet).
Local Abbreviation undisturbed := (undisturbed DialContext subnet).

Lemma init_undisturbed : undisturbed (init None).
Proof.
  constructor; try done.
  intros Hin. apply elem_of_replicate in Hin as [? _]. done.
Qed.

Lemma held_in_candidates s ip k :
  undisturbed s → workers s !! k = Some (Busy ip) → ip ∈ candidates subnet.
Proof.
  intros Hinv Hk. rewrite (und_jobs _ _ _ Hinv).
  rewrite !elem_of_app. right; right; left.
  unfold held. apply list_elem_of_bind. exists (Busy ip).
  split; [by apply list_elem_of_here|by eapply list_elem_of_lookup_2].
Qed.

Lemma step_undisturbed e s s' :
  undisturbed s → step e s = Some s' → ctx_err s' = None → undisturbed s'.
Proof.
  intros Hinv Hstep Hctx'. pose proof Hinv as Hinv0.
  destruct Hinv as [Hctx Hlen Hjobs Hrep Hex Hcl Hret Hfit].
  assert (ctx_done s = false) as Hlive by (unfold ctx_done; by rewrite Hctx).
  destruct e; cbn in Hstep.
  - (* ECtxDone *) rewrite Hctx in Hstep. by simplify_eq.
  - (* ESend *)
    destruct (sending s) as [i|] eqn:Hs; [|done].
    case_decide as Hi; [|done]. destruct Hi as [Hi Hroom]. simplify_eq.
    constructor; cbn; try done; try (cbn in Hfit; rewrite ?length_app; cbn; lia).
    + rewrite Hjobs, (unsent_step subnet s i Hs Hi). unfold unsent; cbn.
      solve_Permutation.
    + intros Hin. destruct (Hex Hin) as [? _]. congruence.
  - (* ESenderCancel *)
    destruct (sending s) as [i|]; [|done].
    case_decide; [|done]. by rewrite Hlive in Hstep.
  - (* ESenderEnd *)
    destruct (sending s) as [i|] eqn:Hs; [|done].
    case_decide as Hi; [done|]. simplify_eq.
    constructor; cbn; try done; try (cbn in Hfit; rewrite ?length_app; cbn; lia).
    + rewrite Hjobs. unfold unsent; cbn. rewrite Hs.
      replace (S hostCount - i) with 0 by lia. done.
    + intros Hin. destruct (Hex Hin) as [? _]. congruence.
  - (* ERecv *)
    destruct (workers s !! k) as [[| |]|] eqn:Hk; try done.
    destruct (jobs s) as [|ip rest] eqn:Hj; [done|]. simplify_eq.
    constructor; cbn; try done; try (cbn in Hfit; rewrite ?length_app; cbn; lia).
    + by rewrite length_insert.
    + pose proof (held_insert (workers s) k (Busy ip) Idle Hk) as Hh.
      cbn in Hh. rewrite app_nil_r in Hh. rewrite Hh, Hjobs.
      unfold unsent; cbn. solve_Permutation.
    + intros Hin. apply Exited_insert in Hin; [|done].
      destruct (Hex Hin) as [_ ?]. congruence.
    + intros Hc. pose proof (all_exited_lookup _ _ _ (Hcl Hc) Hk). done.
  - (* EJobsClosed *)
    destruct (workers s !! k) as [[| |]|] eqn:Hk; try done.
    destruct (jobs s) as [|ip rest] eqn:Hj; [|done].
    destruct (jobs_closed s) eqn:Hjc; [|done]. simplify_eq.
    constructor; cbn; try done; try (cbn in Hfit; rewrite ?length_app; cbn; lia).
    + by rewrite length_insert.
    + pose proof (held_insert (workers s) k Exited Idle Hk) as Hh.
      cbn in Hh. rewrite app_nil_r in Hh. rewrite Hh, Hjobs, Hj. done.
    + intros _. split; [|done]. unfold jobs_closed in Hjc.
      by destruct (sending s).
    + intros Hc. pose proof (all_exited_lookup _ _ _ (Hcl Hc) Hk). done.
  - (* EWorkerCancel *)
    destruct (workers s !! k) as [[| |]|]; try done. by rewrite Hlive in Hstep.
  - (* EReport *)
    destruct (workers s !! k) as [[|ip|]|] eqn:Hk; try done.
    case_decide as Hroom; [|done].
    destruct (results_closed s) eqn:Hrc; [done|]. simplify_eq.
    assert (ip ≠ "") as Hip.
    { eapply candidates_nonempty, held_in_candidates; done. }
    constructor; cbn; try done; try (cbn in Hfit; rewrite ?length_app; cbn; lia).
    + by rewrite length_insert.
    + pose proof (held_insert (workers s) k Idle (Busy ip) Hk) as Hh.
      cbn in Hh. rewrite Hjobs, <-Hh. unfold unsent; cbn. solve_Permutation.
    + rewrite !filter_app, Hrep, Hlive.
      destruct (isNanoleafDevice DialContext false ip) eqn:Hd.
      * rewrite (filter_cons_True (is_device DialContext)) by done.
        rewrite (filter_cons_True (λ r, r ≠ "")) by done.
        rewrite !filter_nil. solve_Permutation.
      * rewrite (filter_cons_False (is_device DialContext)) by (unfold is_device; congruence).
        rewrite (filter_cons_False (λ r, r ≠ "")) by (intros ?; done).
        by rewrite !filter_nil, !app_nil_r.
    + intros Hin. apply Exited_insert in Hin; [|done]. by apply Hex.
    + intros ?. congruence.
    + intros r Hr. destruct (Hret r Hr) as (_ & ? & _). congruence.
  - (* EClose *)
    destruct (all_exited (workers s)) eqn:Hall; [|done].
    destruct (results_closed s) eqn:Hrc; [done|]. simplify_eq.
    constructor; cbn; try done; try (cbn in Hfit; rewrite ?length_app; cbn; lia).
    intros r Hr. destruct (Hret r Hr) as (_ & ? & _). congruence.
  - (* ECollect *)
    destruct (collecting s) as [ds|] eqn:Hc; [|done].
    destruct (results s) as [|ip rest] eqn:Hr; [done|].
    case_decide as Hip; simplify_eq; constructor; cbn; try done; try (cbn in Hfit; rewrite ?length_app; cbn; lia).
    rewrite Hrep, filter_cons_True by done. cbn. solve_Permutation.
  - (* ECollectClosed *)
    destruct (collecting s) as [ds|] eqn:Hc; [|done].
    destruct (results s) as [|ip rest] eqn:Hr; [|done].
    destruct (results_closed s) eqn:Hrc; [|done]. simplify_eq.
    constructor; cbn; try done; try (cbn in Hfit; rewrite ?length_app; cbn; lia).
    + intros _. by apply Hcl.
    + intros r [= <-]. eauto.
  - (* ECollectCancel *)
    destruct (collecting s); [|done]. by rewrite Hctx in Hstep.
Qed.
End Preservation.

Section Runs.
Context (DialContext : bool → string → bool) (subnet : string).
Local Abbreviation step := (step DialContext subnet).
Local Abbreviation run := (run DialContext subnet).
Local Abbreviation undisturbed := (undisturbed DialContext subnet).

Lemma run_app tr1 tr2 s :
  run (tr1 ++ tr2) s = run tr1 s ≫= run tr2.
Proof.
  revert s. induction tr1 as [|e tr1 IH]; intros s; cbn; [done|].
  destruct (step e s); cbn; [apply IH|done].
Qed.

Lemma step_ctx_err e s s' :
  step e s = Some s' → ctx_err s' = None → ctx_err s = None.
Proof.
  intros Hstep Hctx'.
  destruct e; cbn in Hstep; repeat case_match; simplify_eq; cbn in Hctx';
    congruence.
Qed.

Lemma run_ctx_err tr s s' :
  run tr s = Some s' → ctx_err s' = None → ctx_err s = None.
Proof.
  revert s. induction tr as [|e tr IH]; intros s; cbn.
  - by intros [= <-].
  - destruct (step e s) as [s1|] eqn:Hstep; [|done].
    intros Hrun Hctx'. eauto using step_ctx_err.
Qed.

Lemma run_undisturbed tr s s' :
  undisturbed s → run tr s = Some s' → ctx_err s' = None → undisturbed s'.
Proof.
  revert s. induction tr as [|e tr IH]; intros s Hinv; cbn.
  - by intros [= <-].
  - destruct (step e s) as [s1|] eqn:Hstep; [|done].
    intros Hrun Hctx'. apply (IH s1); [|done..].
    eapply step_undisturbed; [done..|]. by eapply run_ctx_err.
Qed.

Lemma returned_undisturbed s r :
  undisturbed s → collecting s = Returned r →
  ∃ devices, r = Ok devices
    ∧ devices ≡ₚ filter (is_device DialContext) (candidates subnet)
    ∧ probed s ≡ₚ candidates subnet.
Proof.
  intros [Hctx Hlen Hjobs Hrep Hex Hcl Hret Hfit] Hr.
  destruct (Hret r Hr) as (Hres & Hclosed & ds & ->).
  specialize (Hcl Hclosed).
  assert (Exited ∈ workers s) as Hin.
  { destruct (workers s) as [|w ws] eqn:Hws; [done|].
    assert (w = Exited) as -> by (by apply (all_exited_lookup (w :: ws) 0)).
    apply list_elem_of_here. }
  destruct (Hex Hin) as [Hsd Hj].
  rewrite (all_exited_held _ Hcl), Hj in Hjobs.
  unfold unsent in Hjobs. rewrite Hsd in Hjobs. cbn in Hjobs.
  rewrite Hr, Hres in Hrep. cbn in Hrep.
  exists ds. split; [done|]. split; [|done].
  by rewrite <-Hrep, <-Hjobs.
Qed.
End Runs.

Section Serial.
Context (DialContext : bool → string → bool) (subnet : string).
Local Abbreviation step := (step DialContext subnet).
Local Abbreviation run := (run DialContext subnet).

Lemma round_run i ds ps :
  i ≤ hostCount →
  run round (quiet i ds ps)
  = Some (quiet (S i) (ds ++ filter (is_device DialContext) [candidate subnet i])
            (ps ++ [candidate subnet i])).
Proof.
  intros Hi. unfold round, quiet. cbn.
  rewrite decide_True by (unfold hostCount in *; cbn; lia). cbn.
  rewrite decide_True by (unfold hostCount; lia). cbn.
  destruct (isNanoleafDevice DialContext false (candidate subnet i)) eqn:Hd; cbn.
  - rewrite (decide_False (P := candidate subnet i = "")) by apply candidate_nonempty.
    rewrite (decide_True (P := is_device DialContext (candidate subnet i))) by done.
    reflexivity.
  - rewrite (decide_False (P := is_device DialContext (candidate subnet i)))
      by (unfold is_device; congruence).
    by rewrite app_nil_r.
Qed.

Lemma rounds_run n : ∀ i ds ps,
  i + n ≤ S hostCount →
  ∃ ds' ps', run (rounds n) (quiet i ds ps) = Some (quiet (i + n) ds' ps').
Proof.
  induction n as [|n IH]; intros i ds ps Hi; cbn [rounds].
  - exists ds, ps. by rewrite Nat.add_0_r.
  - rewrite run_app, round_run by lia. cbn [mbind option_bind].
    destruct (IH (S i) (ds ++ filter (is_device DialContext) [candidate subnet i])
                (ps ++ [candidate subnet i])) as (ds' & ps' & Hrun); [lia|].
    exists ds', ps'. rewrite Hrun. f_equal. f_equal. lia.
Qed.

Lemma wind_down_run ds ps :
  ∃ s, run wind_down (quiet (S hostCount) ds ps) = Some s
       ∧ ctx_err s = None ∧ collecting s = Returned (Ok ds).
Proof. eexists. split; [vm_compute; reflexivity|]. split; reflexivity. Qed.

Lemma serial_schedule_run :
  ∃ s ds, run serial_schedule (init None) = Some s
          ∧ ctx_err s = None ∧ collecting s = Returned (Ok ds).
Proof.
  destruct (rounds_run hostCount 1 [] []) as (ds & ps & Hrounds); [reflexivity|].
  destruct (wind_down_run ds ps) as (s & Hrun & Hctx & Hret).
  exists s, ds. split; [|done].
  unfold serial_schedule. rewrite run_app.
  change (init None) with (quiet 1 [] []).
  etrans; [exact (f_equal (λ o, o ≫= run wind_down) Hrounds)|]. exact Hrun.
Qed.
End Serial.

Lemma workers_weight_insert (ws : list worker) (k : nat) w old :
  ws !! k = Some old →
  sum_list_with worker_weight (<[k := w]> ws) + worker_weight old
  = worker_weight w + sum_list_with worker_weight ws.
Proof.
  intros Hk.
  rewrite <-(take_drop_middle ws k old Hk) at 2.
  rewrite insert_take_drop by (by eapply lookup_lt_Some).
  rewrite !sum_list_with_app. cbn. lia.
Qed.

Section Termination.
Context (DialContext : bool → string → bool) (subnet : string).
Local Abbreviation step := (step DialContext subnet).
Local Abbreviation run := (run DialContext subnet).
Local Abbreviation undisturbed := (undisturbed DialContext subnet).

Lemma step_weight e s s' : step e s = Some s' → weight s' < weight s.
Proof.
  destruct s as [ctx snd js ws rs rc col ps]. intros Hstep.
  destruct e; cbn in Hstep; repeat case_match; simplify_eq;
    unfold weight; cbn -[Nat.mul Nat.sub hostCount];
    rewrite ?length_app; cbn -[Nat.mul Nat.sub hostCount];
    try lia;
    match goal with
    | H : ws !! ?k = Some ?old |- context [<[?k := ?w]> ws] =>
        pose proof (workers_weight_insert ws k w old H) as Hw; cbn in Hw; lia
    end.
Qed.

Lemma run_weight tr s s' : run tr s = Some s' → length tr + weight s' ≤ weight s.
Proof.
  revert s. induction tr as [|e tr IH]; intros s; cbn.
  - intros [= <-]. lia.
  - destruct (step e s) as [s1|] eqn:Hstep; [|done].
    intros Hrun. specialize (IH s1 Hrun).
    pose proof (step_weight e s s1 Hstep). lia.
Qed.

Lemma find_worker (ws : list worker) :
  all_exited ws = true
  ∨ (∃ k ip, ws !! k = Some (Busy ip))
  ∨ (∃ k, ws !! k = Some Idle).
Proof.
  induction ws as [|w ws IH]; [by left|].
  destruct w as [|ip|].
  - right; right. by exists 0.
  - right; left. by exists 0, ip.
  - destruct IH as [Hall|[(k & ip & Hk)|(k & Hk)]].
    + by left.
    + right; left. by exists (S k), ip.
    + right; right. by exists (S k).
Qed.

Lemma undisturbed_count s :
  undisturbed s →
  length (unsent subnet s) + length (jobs s) + length (held (workers s))
  + length (probed s) = hostCount.
Proof.
  intros Hinv. rewrite <-(candidates_length subnet), (und_jobs _ _ _ Hinv).
  rewrite !length_app. lia.
Qed.

(** A worker that reports never finds [results] full or closed. *)
Lemma report_never_blocks s k ip :
  undisturbed s → workers s !! k = Some (Busy ip) →
  length (results s) < hostCount ∧ results_closed s = false.
Proof.
  intros Hinv Hk. split.
  - pose proof (undisturbed_count s Hinv) as Hcount.
    pose proof (und_room _ _ _ Hinv) as Hroom.
    pose proof (held_insert (workers s) k Idle (Busy ip) Hk) as Hh.
    apply Permutation_length in Hh. rewrite length_app in Hh. cbn in Hh. lia.
  - destruct (results_closed s) eqn:Hrc; [|done].
    pose proof (all_exited_lookup _ _ _ (und_closed _ _ _ Hinv Hrc) Hk). done.
Qed.

Lemma undisturbed_progress s devices :
  undisturbed s → collecting s = Collecting devices →
  ∃ e s', step e s = Some s' ∧ ctx_err s' = None.
Proof.
  intros Hinv Hcol. pose proof (und_ctx _ _ _ Hinv) as Hctx.
  assert (ctx_done s = false) as Hlive by (unfold ctx_done; by rewrite Hctx).
  destruct (results s) as [|r rest] eqn:Hres.
  2:{ exists ECollect. cbn. rewrite Hcol, Hres. case_decide; eauto. }
  destruct (sending s) as [i|] eqn:Hs.
  { destruct (decide (i ≤ hostCount)) as [Hi|Hi].
    - exists ESend. cbn. rewrite Hs.
      pose proof (undisturbed_count s Hinv) as Hcount.
      rewrite (unsent_step subnet s i Hs Hi) in Hcount. cbn in Hcount.
      rewrite decide_True by (split; [done|lia]). eauto.
    - exists ESenderEnd. cbn. rewrite Hs, decide_False by done. eauto. }
  destruct (find_worker (workers s)) as [Hall|[(k & ip & Hk)|(k & Hk)]].
  - destruct (results_closed s) eqn:Hrc.
    + exists ECollectClosed. cbn. rewrite Hcol, Hres, Hrc. eauto.
    + exists EClose. cbn. rewrite Hall, Hrc. eauto.
  - destruct (report_never_blocks s k ip Hinv Hk) as [Hroom Hrc].
    exists (EReport k). cbn. rewrite Hk, decide_True, Hrc by done. eauto.
  - destruct (jobs s) as [|ip rest] eqn:Hj.
    + exists (EJobsClosed k). cbn. rewrite Hk, Hj.
      unfold jobs_closed. rewrite Hs. eauto.
    + exists (ERecv k). cbn. rewrite Hk, Hj. eauto.
Qed.

(** From any state of an undisturbed scan some schedule leads to the return. *)
Lemma undisturbed_completes s :
  undisturbed s →
  ∃ tr s' devices, run tr s = Some s' ∧ ctx_err s' = None
                   ∧ collecting s' = Returned (Ok devices).
Proof.
  remember (weight s) as n eqn:Hn. revert s Hn.
  induction (lt_wf n) as [n _ IH]. intros s -> Hinv.
  destruct (collecting s) as [ds|r] eqn:Hcol.
  - destruct (undisturbed_progress s ds Hinv Hcol) as (e & s1 & Hstep & Hctx1).
    destruct (IH (weight s1) (step_weight e s s1 Hstep) s1 eq_refl)
      as (tr & s' & ds' & Hrun & Hctx' & Hret).
    { by eapply step_undisturbed. }
    exists (e :: tr), s', ds'. cbn. rewrite Hstep. done.
  - destruct (und_returned _ _ _ Hinv r Hcol) as (_ & _ & ds & ->).
    exists [], s, ds. split; [done|]. split; [|done]. by apply (und_ctx _ _ _ Hinv).
Qed.
End Termination.

(** The collector's cancellation branch gives the context's error, no list. *)
Lemma collector_cancel_returns_error DialContext subnet s s' :
  step DialContext subnet ECollectCancel s = Some s' →
  ∃ e, ctx_err s = Some e ∧ collecting s' = Returned (Err e).
Proof.
  cbn. destruct (collecting s); [|done].
  destruct (ctx_err s) as [e|]; [|done]. intros [= <-]. by exists e.
Qed.

(** C4. A scan whose context is never done. Whatever the schedule: it can
    always be continued to the return of [Scan], and no schedule has more than
    1070 decisions; once [Scan] has returned, it has probed exactly the 254
    candidates with suffixes 1 to 254, each once, and it returns the
    candidates whose probe succeeded, in some order, without duplicates and at
    most 254 of them. *)
Theorem undisturbed_scan_complete (DialContext : bool → string → bool)
    (subnet : string) :
  (∀ tr s, run DialContext subnet tr (init None) = Some s → ctx_err s = None →
     length tr ≤ 1070
     ∧ ∃ tr' s' devices, run DialContext subnet tr' s = Some s'
         ∧ ctx_err s' = None ∧ collecting s' = Returned (Ok devices))
  ∧ ∀ tr s r,
      run DialContext subnet tr (init None) = Some s →
      ctx_err s = None →
      collecting s = Returned r →
      ∃ devices, r = Ok devices
        ∧ devices ≡ₚ filter (is_device DialContext) (candidates subnet)
        ∧ probed s ≡ₚ candidate subnet <$> seq 1 254
        ∧ NoDup (probed s) ∧ length (probed s) = 254
        ∧ NoDup devices ∧ length devices ≤ 254.
Proof.
  split.
  - intros tr s Hrun Hctx. split.
    + pose proof (run_weight DialContext subnet tr _ _ Hrun) as Hw.
      change (weight (init None)) with 1070 in Hw. lia.
    + apply undisturbed_completes.
      by eapply run_undisturbed; [apply init_undisturbed|..].
  - intros tr s r Hrun Hctx Hr.
    pose proof (run_undisturbed DialContext subnet tr _ _
                  (init_undisturbed DialContext subnet) Hrun Hctx) as Hinv.
    destruct (returned_undisturbed DialContext subnet s r Hinv Hr)
      as (ds & -> & Hds & Hprobed).
    exists ds. split; [done|]. split; [done|]. split; [done|].
    split; [rewrite Hprobed; apply candidates_NoDup|].
    split; [rewrite Hprobed; apply candidates_length|].
    split.
    + rewrite Hds. apply NoDup_filter, candidates_NoDup.
    + rewrite Hds. etrans; [apply length_filter|]. by rewrite candidates_length.
Qed.

Lemma undisturbed_scan_complete_witness :
  ∃ s, run Fixtures.oneDevice "10.0.0." serial_schedule (init None) = Some s
       ∧ ctx_err s = None
       ∧ collecting s = Returned (Ok ["10.0.0.5"])
       ∧ ∃ devices, Ok ["10.0.0.5"] = Ok devices
           ∧ devices ≡ₚ filter (is_device Fixtures.oneDevice) (candidates "10.0.0.")
           ∧ probed s ≡ₚ candidate "10.0.0." <$> seq 1 254
           ∧ NoDup (probed s) ∧ length (probed s) = 254
           ∧ NoDup devices ∧ length devices ≤ 254.
Proof.
  destruct (run Fixtures.oneDevice "10.0.0." serial_schedule (init None))
    as [s|] eqn:Hrun; [|vm_compute in Hrun; discriminate Hrun].
  assert (ctx_err s = None ∧ collecting s = Returned (Ok ["10.0.0.5"])) as [Hctx Hret].
  { vm_compute in Hrun. injection Hrun as <-. split; reflexivity. }
  exists s. split; [reflexivity|]. split; [exact Hctx|]. split; [exact Hret|].
  exact (proj2 (undisturbed_scan_complete Fixtures.oneDevice "10.0.0.")
           serial_schedule s _ Hrun Hctx Hret).
Defined.

(** C3. Two schedules in which the context is done long before 254 reports
    have been collected and [Scan] still returns a list and a nil error: with
    a deadline that passes after the first report, the list holds one of the
    254 listening hosts; with a context that is done on entry, the list is
    empty. In both the collector's [select] finds [results] closed, because
    every worker has already returned through its own cancellation branch. *)
Theorem cancelled_scan_returns_list :
  (∃ s, run Fixtures.alwaysConnect "192.168.1." late_collector_schedule (init None)
        = Some s
        ∧ ctx_err s = Some "context deadline exceeded"
        ∧ collected late_collector_schedule = 1
        ∧ probed s = ["192.168.1.1"]
        ∧ collecting s = Returned (Ok ["192.168.1.1"]))
  ∧ (∃ s, run Fixtures.alwaysConnect "192.168.1." dead_on_arrival_schedule
            (init (Some "context canceled")) = Some s
          ∧ collected dead_on_arrival_schedule = 0
          ∧ probed s = []
          ∧ collecting s = Returned (Ok [])).
Proof.
  split; eexists; (split; [vm_compute; reflexivity|]); repeat split; reflexivity.
Qed.

(** * Further properties *)

(** ** The session store, further *)

(** X1. A configuration that [Load] returns is complete: both fields are
    non-empty, it is what the file decodes to, and the disk is as it was. *)
Theorem Load_returns_complete_record `{JsonCodec} d config d' :
  FileConfigManager.Load d = (Ok config, d') →
  IP config ≠ "" ∧ Token config ≠ "" ∧ d' = d
  ∧ ∃ data, node_at d = File data ∧ json_Unmarshal data = Ok config.
Proof.
  destruct (node_at d) as [|data|cause] eqn:Hn.
  - rewrite Load_missing by done. discriminate.
  - rewrite (Load_file data) by done.
    destruct (json_Unmarshal data) as [c|e] eqn:Hu; [|discriminate].
    destruct (decide (IP c = "" ∨ Token c = "")) as [|Hne]; [discriminate|].
    intros [= <- <-]. repeat split; [tauto..|]. by exists data.
  - rewrite (Load_unreadable cause) by done. discriminate.
Qed.

Lemma Load_returns_complete_record_witness :
  let d := {| node_at := File ("10.0.0.5" +:+ String "010"%char "T1");
              write_error := None |} in
  FileConfigManager.Load d = (Ok {| IP := "10.0.0.5"; Token := "T1" |}, d)
  ∧ IP {| IP := "10.0.0.5"; Token := "T1" |} ≠ ""
  ∧ Token {| IP := "10.0.0.5"; Token := "T1" |} ≠ "".
Proof.
  intros d. split; [reflexivity|].
  pose proof (@Load_returns_complete_record Fixtures.lineCodec d
                {| IP := "10.0.0.5"; Token := "T1" |} d eq_refl) as (Hip & Htok & _).
  split; [exact Hip|exact Htok].
Defined.

Lemma saveConfig_writes `{JsonCodec} ip token data d :
  json_MarshalIndent {| IP := ip; Token := token |} = Ok data →
  write_error d = None →
  LegacyConfig.saveConfig ip token d
  = (None, {| node_at := File data; write_error := None |}).
Proof.
  intros Hm Hw. unfold LegacyConfig.saveConfig, os_WriteFile.
  by rewrite Hm, Hw.
Qed.

(** X2. The store of the first design saves whatever it is given, an empty
    address or credential included, and loads it back unchanged; the file
    store of the second design refuses such a file when a field is empty. *)
Theorem legacy_store_keeps_incomplete_records `{JsonCodecLaws} ip token data d :
  json_MarshalIndent {| IP := ip; Token := token |} = Ok data →
  write_error d = None →
  ∃ d', LegacyConfig.saveConfig ip token d = (None, d')
    ∧ LegacyConfig.configExists d' = (true, d')
    ∧ LegacyConfig.loadConfig d' = (Ok {| IP := ip; Token := token |}, d')
    ∧ (ip = "" ∨ token = "" →
       FileConfigManager.Load d'
       = (Err "invalid configuration: missing IP or token", d')).
Proof.
  intros Hm Hw. eexists. split; [by apply saveConfig_writes|].
  split; [reflexivity|]. split.
  - unfold LegacyConfig.loadConfig, mbind, M_bind, os_ReadFile. cbn.
    by rewrite (unmarshal_marshal _ _ Hm).
  - intros Hempty. rewrite (Load_file data) by done.
    rewrite (unmarshal_marshal _ _ Hm). cbn.
    by destruct (decide (ip = "" ∨ token = "")).
Qed.

Lemma legacy_store_keeps_incomplete_records_witness :
  ∃ d', LegacyConfig.saveConfig "10.0.0.5" "" (disk Fixtures.fresh) = (None, d')
    ∧ LegacyConfig.loadConfig d' = (Ok {| IP := "10.0.0.5"; Token := "" |}, d')
    ∧ FileConfigManager.Load d'
      = (Err "invalid configuration: missing IP or token", d').
Proof.
  destruct (@legacy_store_keeps_incomplete_records Fixtures.lineCodec lineCodec_laws
              "10.0.0.5" "" _ (disk Fixtures.fresh) eq_refl eq_refl)
    as (d' & Hsave & _ & Hload & Hnew).
  exists d'. split; [exact Hsave|]. split; [exact Hload|].
  apply Hnew. right; reflexivity.
Defined.

(** ** The orchestration service, further *)

(** X3. When the device API refuses to pair, the service reports the cause and
    the session store is not called: the world is the one the API left. *)
Theorem failed_pairing_saves_nothing {W Info} (svc : NanoleafService.t W Info)
    ip e w w1 :
  ip ≠ "" →
  client_Pair (NanoleafService.client svc) ip w = (Err e, w1) →
  NanoleafService.PairWithDevice svc ip w
  = ({| Success := false; Message := "Pairing failed: " +:+ e; Data := DNil |}, w1).
Proof.
  intros Hip Hpair. unfold NanoleafService.PairWithDevice.
  destruct (decide (ip = "")); [done|].
  unfold mbind, M_bind. by rewrite Hpair.
Qed.

(** X4. After a pairing that issued a non-empty credential, on a disk that
    takes the write, loading the configuration through the service gives back
    the address and the credential of that pairing. *)
Theorem pairing_then_loading `{JsonCodecLaws} {Info} (r : Replies Info)
    (sc : DeviceScanner World) ip tok data w :
  let svc := NanoleafService.NewNanoleafService (recordingClient r) sc
               fileConfigManager in
  ip ≠ "" → tok ≠ "" →
  pair_reply r (api_log w) ip = Ok tok →
  json_MarshalIndent {| IP := ip; Token := tok |} = Ok data →
  write_error (disk w) = None →
  let w' := snd (NanoleafService.PairWithDevice svc ip w) in
  NanoleafService.LoadConfiguration svc w'
  = ({| Success := true; Message := "Configuration loaded successfully";
        Data := DConfig {| IP := ip; Token := tok |} |}, w').
Proof.
  intros svc Hip Htok Hpair Hm Hw w'.
  assert (node_at (disk w') = File data) as Hnode.
  { unfold w'.
    rewrite (PairWithDevice_paired svc ip tok w (log_call (CallPair ip) w) Hip)
      by (cbn; by rewrite Hpair).
    cbn. rewrite on_disk_run. cbn.
    by rewrite (Save_writes ip tok data (disk w) Hip Htok Hm Hw). }
  rewrite LoadConfiguration_cases.
  change (NanoleafService.configManager svc) with (@fileConfigManager H).
  rewrite (fileConfigManager_Exists w'), Hnode, (fileConfigManager_Load w').
  rewrite (Load_file data _ Hnode), (unmarshal_marshal _ _ Hm). cbn.
  by destruct (decide (ip = "" ∨ tok = "")) as [[?|?]|_].
Qed.

Lemma pairing_then_loading_witness :
  let w' := snd (NanoleafService.PairWithDevice Fixtures.service "10.0.0.5"
                   Fixtures.fresh) in
  NanoleafService.LoadConfiguration Fixtures.service w'
  = ({| Success := true; Message := "Configuration loaded successfully";
        Data := DConfig {| IP := "10.0.0.5"; Token := "T1" |} |}, w').
Proof.
  exact (@pairing_then_loading Fixtures.lineCodec lineCodec_laws string
           Fixtures.friendly Fixtures.noScanner "10.0.0.5" "T1" _ Fixtures.fresh
           ltac:(discriminate) ltac:(discriminate) eq_refl eq_refl eq_refl).
Defined.

(** X5. When the device API pairs but issues an empty credential, the service
    still reports success with that empty credential, the file store refuses
    the save so the disk is as before, and a command sent with what was
    obtained is refused as not paired. *)
Theorem empty_credential_pairing `{JsonCodec} {Info} (r : Replies Info)
    (sc : DeviceScanner World) ip w :
  let svc := NanoleafService.NewNanoleafService (recordingClient r) sc
               fileConfigManager in
  ip ≠ "" →
  pair_reply r (api_log w) ip = Ok "" →
  NanoleafService.PairWithDevice svc ip w
  = ({| Success := true; Message := "Device paired successfully";
        Data := DString "" |}, log_call (CallPair ip) w)
  ∧ ∀ on w1, NanoleafService.SetDevicePower svc ip "" on w1
             = ({| Success := false; Message := not_paired_message; Data := DNil |},
                w1).
Proof.
  intros svc Hip Hpair. split.
  - rewrite (PairWithDevice_paired svc ip "" w (log_call (CallPair ip) w) Hip)
      by (cbn; by rewrite Hpair).
    f_equal. cbn. rewrite on_disk_run.
    rewrite Save_rejects_empty by (by right). cbn. reflexivity.
  - intros on w1. apply SetDevicePower_not_paired. by right.
Qed.

(** X6. With an address and a credential, each command makes exactly one call
    of the device API, with the arguments it was given, succeeds exactly when
    that call returns no error, and leaves the disk alone. *)
Theorem command_makes_one_call {Info} (r : Replies Info)
    (sc : DeviceScanner World) (cm : ConfigManager World) ip token w :
  let svc := NanoleafService.NewNanoleafService (recordingClient r) sc cm in
  ip ≠ "" → token ≠ "" →
  (∀ on, let '(res, w') := NanoleafService.SetDevicePower svc ip token on w in
         w' = log_call (CallSetPower ip token on) w
         ∧ (Success res = true ↔ power_reply r (api_log w) ip token on = None))
  ∧ (∀ b, let '(res, w') := NanoleafService.SetBrightness svc ip token b w in
          w' = log_call (CallSetBrightness ip token b) w
          ∧ (Success res = true ↔ brightness_reply r (api_log w) ip token b = None))
  ∧ (let '(res, w') := NanoleafService.GetDeviceInfo svc ip token w in
     w' = log_call (CallGetInfo ip token) w
     ∧ (Success res = true ↔ ∃ info, info_reply r (api_log w) ip token = Ok info
                                      ∧ Data res = DInfo info)).
Proof.
  intros svc Hip Htok. split; [|split].
  - intros on. unfold NanoleafService.SetDevicePower.
    destruct (decide (ip = "" ∨ token = "")) as [[?|?]|_]; [done..|].
    unfold mbind, M_bind; cbn.
    destruct (power_reply r (api_log w) ip token on); cbn; split; done.
  - intros b. unfold NanoleafService.SetBrightness.
    destruct (decide (ip = "" ∨ token = "")) as [[?|?]|_]; [done..|].
    unfold mbind, M_bind; cbn.
    destruct (brightness_reply r (api_log w) ip token b); cbn; split; done.
  - unfold NanoleafService.GetDeviceInfo.
    destruct (decide (ip = "" ∨ token = "")) as [[?|?]|_]; [done..|].
    unfold mbind, M_bind; cbn.
    destruct (info_reply r (api_log w) ip token) as [info|e]; cbn.
    + split; [done|]. split; [eauto|done].
    + split; [done|]. split; [done|]. by intros (? & ? & _).
Qed.

Lemma command_makes_one_call_witness :
  ("10.0.0.5" ≠ "" ∧ "T1" ≠ "")
  ∧ ∀ on, let '(res, w') := NanoleafService.SetDevicePower Fixtures.service
                              "10.0.0.5" "T1" on Fixtures.fresh in
          w' = log_call (CallSetPower "10.0.0.5" "T1" on) Fixtures.fresh
          ∧ (Success res = true
             ↔ power_reply Fixtures.friendly (api_log Fixtures.fresh)
                 "10.0.0.5" "T1" on = None).
Proof.
  split; [split; discriminate|].
  exact (proj1 (command_makes_one_call Fixtures.friendly Fixtures.noScanner
                  fileConfigManager "10.0.0.5" "T1" Fixtures.fresh
                  ltac:(discriminate) ltac:(discriminate))).
Defined.

Lemma failed_pairing_saves_nothing_witness :
  "10.0.0.5" ≠ ""
  ∧ NanoleafService.PairWithDevice (Scenarios.serviceOf Scenarios.refusing)
      "10.0.0.5" Fixtures.fresh
    = ({| Success := false;
          Message := "Pairing failed: pairing failed with status 403: ";
          Data := DNil |}, log_call (CallPair "10.0.0.5") Fixtures.fresh).
Proof.
  split; [discriminate|].
  exact (failed_pairing_saves_nothing (Scenarios.serviceOf Scenarios.refusing)
           "10.0.0.5" _ Fixtures.fresh _ ltac:(discriminate) eq_refl).
Defined.

Lemma empty_credential_pairing_witness :
  "10.0.0.5" ≠ ""
  ∧ NanoleafService.PairWithDevice (Scenarios.serviceOf Scenarios.blank)
      "10.0.0.5" Fixtures.fresh
    = ({| Success := true; Message := "Device paired successfully";
          Data := DString "" |}, log_call (CallPair "10.0.0.5") Fixtures.fresh).
Proof.
  split; [discriminate|].
  exact (proj1 (@empty_credential_pairing Fixtures.lineCodec string Scenarios.blank
                  Fixtures.noScanner "10.0.0.5" Fixtures.fresh
                  ltac:(discriminate) eq_refl)).
Defined.

(** ** The device session, further *)

Section DeviceFurther.
Context {W Info : Type} (client : DeviceClient W Info).
Context (saveConfig : string → string → M W error)
        (loadConfig : M W (result Config)) (configExists : M W bool).

(** X7. When pairing succeeds but saving fails, [PairDevice] returns the
    store's error, and the session nevertheless holds the new credential. *)
Theorem PairDevice_keeps_token_on_save_error d tok e w w1 w2 :
  IP (Device.config d) ≠ "" →
  dc_pair client (IP (Device.config d)) w = (Ok tok, w1) →
  saveConfig (IP (Device.config d)) tok w1 = (Some e, w2) →
  Device.PairDevice client saveConfig d w
  = ((Some e, {| Device.config := {| IP := IP (Device.config d); Token := tok |};
                 Device.effects := Device.effects d |}), w2).
Proof.
  intros Hip Hpair Hsave. unfold Device.PairDevice.
  destruct (decide (IP (Device.config d) = "")); [done|].
  unfold mbind, M_bind. rewrite Hpair. cbn. by rewrite Hsave.
Qed.

(** X8. A pairing that cannot start or that the device refuses leaves the
    session as it was and never reaches the store: without an address nothing
    is called at all. *)
Theorem PairDevice_failure_changes_nothing d w :
  (IP (Device.config d) = "" →
   Device.PairDevice client saveConfig d w = ((Some "no device IP set", d), w))
  ∧ (∀ e w1, IP (Device.config d) ≠ "" →
       dc_pair client (IP (Device.config d)) w = (Err e, w1) →
       Device.PairDevice client saveConfig d w = ((Some e, d), w1)).
Proof.
  split.
  - intros Hip. unfold Device.PairDevice.
    destruct (decide (IP (Device.config d) = "")); [reflexivity|done].
  - intros e w1 Hip Hpair. unfold Device.PairDevice.
    destruct (decide (IP (Device.config d) = "")); [done|].
    unfold mbind, M_bind. by rewrite Hpair.
Qed.

(** X9. The readiness check never changes the stored address and credential.
    The effect list is replaced when the probe and the listing both succeed,
    and is otherwise what it was. *)
Theorem IsDeviceReady_effects d w :
  let '((ready, d'), _) := Device.IsDeviceReady client d w in
  Device.config d' = Device.config d
  ∧ (Device.effects d' = Device.effects d
     ∨ ready = true
       ∧ ∃ info w1,
           dc_getInfo client (IP (Device.config d)) (Token (Device.config d)) w
           = (Ok info, w1)
           ∧ fst (dc_listEffects client (IP (Device.config d))
                    (Token (Device.config d)) w1) = Ok (Device.effects d')).
Proof.
  unfold Device.IsDeviceReady.
  destruct (decide _) as [|_]; [cbn; auto|].
  unfold mbind, M_bind.
  destruct (dc_getInfo client _ _ w) as [[info|e] w1] eqn:Hinfo; cbn; [|auto].
  unfold Device.loadEffects, mbind, M_bind.
  destruct (dc_listEffects client _ _ w1) as [[l|e] w2] eqn:Hl; cbn; [|auto].
  split; [done|]. right. split; [done|]. exists info, w1. by rewrite Hl.
Qed.

(** X10. An effect is sent to the device only if it is in the list the session
    has loaded; otherwise [SetEffect] fails and the client is not called. A
    new session has no effects, so every effect is refused until a readiness
    check has loaded the list. *)
Theorem SetEffect_only_listed effect d w :
  (effect ∈ Device.effects d →
   Device.SetEffect client effect d w
   = dc_setEffect client (IP (Device.config d)) (Token (Device.config d)) effect w)
  ∧ (effect ∉ Device.effects d →
     Device.SetEffect client effect d w
     = (Some ("device does not have effect " +:+ effect), w))
  ∧ Device.SetEffect client effect Device.NewDevice w
    = (Some ("device does not have effect " +:+ effect), w).
Proof.
  unfold Device.SetEffect. split; [|split].
  - intros Hin. destruct (decide _); [reflexivity|done].
  - intros Hnin. destruct (decide _); [done|reflexivity].
  - destruct (decide _) as [Hin|]; [|reflexivity]. by apply elem_of_nil in Hin.
Qed.

End DeviceFurther.

(** X11. In the first design a pairing survives a restart: once [PairDevice]
    has saved, [LoadConfig] on a new session restores the address and the
    credential, whether or not they are complete. *)
Theorem PairDevice_then_LoadConfig `{JsonCodecLaws} {Info}
    (client : DeviceClient Disk Info) d tok data w :
  IP (Device.config d) ≠ "" →
  dc_pair client (IP (Device.config d)) w = (Ok tok, w) →
  json_MarshalIndent {| IP := IP (Device.config d); Token := tok |} = Ok data →
  write_error w = None →
  let w' := snd (Device.PairDevice client LegacyConfig.saveConfig d w) in
  fst (Device.PairDevice client LegacyConfig.saveConfig d w)
  = (None, {| Device.config := {| IP := IP (Device.config d); Token := tok |};
              Device.effects := Device.effects d |})
  ∧ Device.LoadConfig LegacyConfig.loadConfig LegacyConfig.configExists
      Device.NewDevice w'
    = ((None, {| Device.config := {| IP := IP (Device.config d); Token := tok |};
                 Device.effects := [] |}), w').
Proof.
  intros Hip Hpair Hm Hw w'.
  assert (Device.PairDevice client LegacyConfig.saveConfig d w
          = ((None, {| Device.config := {| IP := IP (Device.config d); Token := tok |};
                       Device.effects := Device.effects d |}),
             {| node_at := File data; write_error := None |})) as Hrun.
  { unfold Device.PairDevice.
    destruct (decide (IP (Device.config d) = "")); [done|].
    unfold mbind, M_bind. rewrite Hpair. cbn.
    by rewrite (saveConfig_writes _ _ data w Hm Hw). }
  unfold w'. rewrite Hrun. split; [reflexivity|]. cbn.
  unfold Device.LoadConfig, LegacyConfig.loadConfig, LegacyConfig.configExists,
    mbind, M_bind, os_Stat_exists, os_ReadFile. cbn.
  by rewrite (unmarshal_marshal _ _ Hm).
Qed.

Lemma PairDevice_keeps_token_on_save_error_witness :
  IP (Device.config Scenarios.addressed) ≠ ""
  ∧ Device.PairDevice Fixtures.liveClient (λ _ _, ret (Some "disk full"))
      Scenarios.addressed tt
    = ((Some "disk full",
        {| Device.config := {| IP := "10.0.0.5"; Token := "T2" |};
           Device.effects := [] |}), tt).
Proof.
  split; [discriminate|].
  exact (PairDevice_keeps_token_on_save_error Fixtures.liveClient
           (λ _ _, ret (Some "disk full")) Scenarios.addressed "T2" "disk full"
           tt tt tt ltac:(discriminate) eq_refl eq_refl).
Defined.

Lemma PairDevice_failure_changes_nothing_witness :
  IP (Device.config Device.NewDevice) = ""
  ∧ Device.PairDevice Fixtures.liveClient (λ _ _, ret None) Device.NewDevice tt
    = ((Some "no device IP set", Device.NewDevice), tt).
Proof.
  split; [reflexivity|].
  exact (proj1 (PairDevice_failure_changes_nothing Fixtures.liveClient
                  (λ _ _, ret None) Device.NewDevice tt) eq_refl).
Defined.


Lemma SetEffect_only_listed_witness :
  let d := fst (Device.loadEffects Fixtures.liveClient Fixtures.pairedDevice tt) in
  "Aurora" ∈ Device.effects d
  ∧ Device.SetEffect Fixtures.liveClient "Aurora" d tt = (None, tt)
  ∧ ("Sunset" ∉ Device.effects d)
  ∧ Device.SetEffect Fixtures.liveClient "Sunset" d tt
    = (Some "device does not have effect Sunset", tt).
Proof.
  intros d.
  assert ("Aurora" ∈ Device.effects d) as Hin by (cbn; apply list_elem_of_here).
  assert ("Sunset" ∉ Device.effects d) as Hnin.
  { cbn. intros Hs. apply list_elem_of_singleton in Hs. discriminate Hs. }
  split; [exact Hin|]. split.
  - exact (proj1 (SetEffect_only_listed Fixtures.liveClient "Aurora" d tt) Hin).
  - split; [exact Hnin|].
    exact (proj1 (proj2 (SetEffect_only_listed Fixtures.liveClient "Sunset" d tt))
             Hnin).
Defined.

Lemma PairDevice_then_LoadConfig_witness :
  let w' := snd (Device.PairDevice Scenarios.pairingClient LegacyConfig.saveConfig
                   Scenarios.addressed (disk Fixtures.fresh)) in
  Device.LoadConfig LegacyConfig.loadConfig LegacyConfig.configExists
    Device.NewDevice w'
  = ((None, {| Device.config := {| IP := "10.0.0.5"; Token := "T2" |};
               Device.effects := [] |}), w').
Proof.
  exact (proj2 (@PairDevice_then_LoadConfig Fixtures.lineCodec lineCodec_laws string
                  Scenarios.pairingClient Scenarios.addressed "T2" _
                  (disk Fixtures.fresh) ltac:(discriminate) eq_refl eq_refl eq_refl)).
Defined.

(** ** The HTTP device API *)

Section APIClientProperties.
Context {Info : Type} `{ApiJson Info}.
Context (answer : list Request.t → Request.t → result Response.t).

Local Abbreviation http := (recordingHTTP answer).

(** X12. [SetPower] and [SetBrightness] send exactly one PUT request to the
    state URL of the credential and succeed only when the answer has status
    204: a transport error or any other status, 200 included, is an error. *)
Theorem state_change_needs_204 ip token sent :
  let url := "http://" +:+ ip +:+ ":16021/api/v1/" +:+ token +:+ "/state" in
  (∀ on body, json_Marshal_on on = Ok body →
     let req := APIClient.request "PUT" url (Some body) in
     let '(err, sent') := APIClient.SetPower http ip token on sent in
     sent' = sent ++ [req]
     ∧ (err = None ↔ ∃ resp, answer sent req = Ok resp
                             ∧ Response.StatusCode resp = 204%Z))
  ∧ (∀ b body, json_Marshal_brightness b = Ok body →
       let req := APIClient.request "PUT" url (Some body) in
       let '(err, sent') := APIClient.SetBrightness http ip token b sent in
       sent' = sent ++ [req]
       ∧ (err = None ↔ ∃ resp, answer sent req = Ok resp
                               ∧ Response.StatusCode resp = 204%Z)).
Proof.
  intros url. split.
  - intros on body Hm req. unfold APIClient.SetPower. rewrite Hm.
    unfold mbind, M_bind. cbn. fold url. fold req.
    destruct (answer sent req) as [resp|e]; cbn.
    + destruct (decide (Response.StatusCode resp ≠ 204%Z)) as [Hne|Heq]; cbn.
      * split; [done|]. split; [done|]. intros (resp' & [= <-] & Hs). done.
      * split; [done|]. split; [|done]. intros _. exists resp.
        split; [done|]. by destruct (decide (Response.StatusCode resp = 204%Z)).
    + split; [done|]. split; [done|]. by intros (? & ? & _).
  - intros b body Hm req. unfold APIClient.SetBrightness. rewrite Hm.
    unfold mbind, M_bind. cbn. fold url. fold req.
    destruct (answer sent req) as [resp|e]; cbn.
    + destruct (decide (Response.StatusCode resp ≠ 204%Z)) as [Hne|Heq]; cbn.
      * split; [done|]. split; [done|]. intros (resp' & [= <-] & Hs). done.
      * split; [done|]. split; [|done]. intros _. exists resp.
        split; [done|]. by destruct (decide (Response.StatusCode resp = 204%Z)).
    + split; [done|]. split; [done|]. by intros (? & ? & _).
Qed.

(** X13. [Pair] sends one POST without a body to [/api/v1/new] and [GetInfo]
    one GET to the URL of the credential; each returns a value only when the
    answer has status 200 and its body decodes, and then it is the decoded
    value. *)
Theorem query_needs_200 ip token sent :
  (let req := APIClient.request "POST" ("http://" +:+ ip +:+ ":16021/api/v1/new")
                None in
   let '(r, sent') := APIClient.Pair http ip sent in
   sent' = sent ++ [req]
   ∧ ∀ tok, r = Ok tok ↔ ∃ resp, answer sent req = Ok resp
                                  ∧ Response.StatusCode resp = 200%Z
                                  ∧ json_Unmarshal_auth_token (Response.Body resp)
                                    = Ok tok)
  ∧ (let req := APIClient.request "GET"
                  ("http://" +:+ ip +:+ ":16021/api/v1/" +:+ token) None in
     let '(r, sent') := APIClient.GetInfo http ip token sent in
     sent' = sent ++ [req]
     ∧ ∀ info, r = Ok info ↔ ∃ resp, answer sent req = Ok resp
                                      ∧ Response.StatusCode resp = 200%Z
                                      ∧ json_Unmarshal_info (Response.Body resp)
                                        = Ok info).
Proof.
  split.
  - intros req. unfold APIClient.Pair, mbind, M_bind. cbn. fold req.
    destruct (answer sent req) as [resp|e]; cbn.
    + destruct (decide (Response.StatusCode resp ≠ 200%Z)) as [Hne|Heq]; cbn.
      * split; [done|]. intros tok. split; [done|].
        intros (resp' & [= <-] & Hs & _). done.
      * assert (Response.StatusCode resp = 200%Z) as Hs
          by (by destruct (decide (Response.StatusCode resp = 200%Z))).
        destruct (json_Unmarshal_auth_token (Response.Body resp)) as [t|e] eqn:Hu;
          cbn; (split; [done|]); intros tok; split.
        -- intros [= <-]. by exists resp.
        -- intros (resp' & [= <-] & _ & Hu'). congruence.
        -- done.
        -- intros (resp' & [= <-] & _ & Hu'). congruence.
    + split; [done|]. intros tok. split; [done|]. by intros (? & ? & _).
  - intros req. unfold APIClient.GetInfo, mbind, M_bind. cbn. fold req.
    destruct (answer sent req) as [resp|e]; cbn.
    + destruct (decide (Response.StatusCode resp ≠ 200%Z)) as [Hne|Heq]; cbn.
      * split; [done|]. intros info. split; [done|].
        intros (resp' & [= <-] & Hs & _). done.
      * assert (Response.StatusCode resp = 200%Z) as Hs
          by (by destruct (decide (Response.StatusCode resp = 200%Z))).
        destruct (json_Unmarshal_info (Response.Body resp)) as [t|e] eqn:Hu;
          cbn; (split; [done|]); intros info; split.
        -- intros [= <-]. by exists resp.
        -- intros (resp' & [= <-] & _ & Hu'). congruence.
        -- done.
        -- intros (resp' & [= <-] & _ & Hu'). congruence.
    + split; [done|]. intros info. split; [done|]. by intros (? & ? & _).
Qed.

(** X14. Through the service, over the HTTP client: a power command for a
    paired device whose answer is not 204 sends its one request and fails
    with a message that carries the direction, the status and the body of the
    answer; without an address or a credential no request is sent. *)
Theorem power_failure_message (sc : DeviceScanner (list Request.t))
    (cm : ConfigManager (list Request.t)) ip token on body resp sent :
  let svc := NanoleafService.NewNanoleafService (APIClient.NewAPIClient http) sc cm in
  let req := APIClient.request "PUT"
               ("http://" +:+ ip +:+ ":16021/api/v1/" +:+ token +:+ "/state")
               (Some body) in
  (ip = "" ∨ token = "" →
   snd (NanoleafService.SetDevicePower svc ip token on sent) = sent)
  ∧ (ip ≠ "" → token ≠ "" →
     json_Marshal_on on = Ok body →
     answer sent req = Ok resp →
     Response.StatusCode resp ≠ 204%Z →
     NanoleafService.SetDevicePower svc ip token on sent
     = ({| Success := false;
           Message := "Failed to turn " +:+ (if on then "on" else "off")
                      +:+ " device: " +:+ "power request failed with status "
                      +:+ pretty (Response.StatusCode resp) +:+ ": "
                      +:+ Response.Body resp;
           Data := DNil |}, sent ++ [req])).
Proof.
  intros svc req. split.
  - intros Hempty. by rewrite SetDevicePower_not_paired.
  - intros Hip Htok Hm Hans Hs. unfold NanoleafService.SetDevicePower.
    destruct (decide (ip = "" ∨ token = "")) as [[?|?]|_]; [done..|].
    unfold mbind, M_bind. cbn. unfold APIClient.SetPower. rewrite Hm.
    unfold mbind, M_bind. cbn. fold req. rewrite Hans. cbn.
    destruct (decide (Response.StatusCode resp ≠ 204%Z)); [|done].
    reflexivity.
Qed.

End APIClientProperties.

(** ** The HTTP client of the first design *)

(** X15. [buildURL] panics exactly on an address shorter than four bytes, the
    empty address of an unconfigured session included; a longer address that
    starts with [http] is taken as the base URL as it is, any other gets the
    scheme and the device port. *)
Theorem buildURL_short_address_panics ip path :
  (LegacyClient.buildURL ip path = None ↔ String.length ip < 4)
  ∧ (4 ≤ String.length ip → String.substring 0 4 ip = "http" →
     LegacyClient.buildURL ip path = Some (ip +:+ "/" +:+ path))
  ∧ (4 ≤ String.length ip → String.substring 0 4 ip ≠ "http" →
     LegacyClient.buildURL ip path = Some ("http://" +:+ ip +:+ ":16021/" +:+ path)).
Proof.
  unfold LegacyClient.buildURL. split; [|split].
  - destruct (decide (String.length ip < 4)); [done|].
    destruct (decide _); split; (done || lia).
  - intros Hlen Hp. destruct (decide (String.length ip < 4)); [lia|].
    by destruct (decide _).
  - intros Hlen Hp. destruct (decide (String.length ip < 4)); [lia|].
    by destruct (decide _).
Qed.

Lemma state_change_needs_204_witness :
  json_Marshal_on true = Ok "on"
  ∧ (let req := APIClient.request "PUT" "http://10.0.0.5:16021/api/v1/T1/state"
                  (Some "on") in
     let '(err, sent') :=
       APIClient.SetPower (recordingHTTP Scenarios.accepting) "10.0.0.5" "T1" true [] in
     sent' = [] ++ [req]
     ∧ (err = None ↔ ∃ resp, Scenarios.accepting [] req = Ok resp
                             ∧ Response.StatusCode resp = 204%Z)).
Proof.
  split; [reflexivity|].
  exact (proj1 (@state_change_needs_204 string Scenarios.wordJson
                  Scenarios.accepting "10.0.0.5" "T1" [])
           true "on" ltac:(reflexivity)).
Defined.

Lemma power_failure_message_witness :
  "10.0.0.5" ≠ "" ∧ "T1" ≠ ""
  ∧ json_Marshal_on true = Ok "on"
  ∧ Response.StatusCode Scenarios.busy ≠ 204%Z
  ∧ NanoleafService.SetDevicePower
      (NanoleafService.NewNanoleafService
         (APIClient.NewAPIClient (recordingHTTP Scenarios.overloaded))
         Scenarios.idleScanner Scenarios.noStore) "10.0.0.5" "T1" true []
    = ({| Success := false;
          Message := "Failed to turn on device: power request failed with status 500: busy";
          Data := DNil |},
       [APIClient.request "PUT" "http://10.0.0.5:16021/api/v1/T1/state" (Some "on")]).
Proof.
  split; [done|]. split; [done|]. split; [reflexivity|]. split; [done|].
  exact (proj2 (@power_failure_message string Scenarios.wordJson
                  Scenarios.overloaded Scenarios.idleScanner
                  Scenarios.noStore "10.0.0.5" "T1" true "on" Scenarios.busy [])
           ltac:(done) ltac:(done) ltac:(reflexivity) ltac:(reflexivity) ltac:(done)).
Defined.

Lemma buildURL_short_address_panics_witness :
  String.length "" < 4
  ∧ LegacyClient.buildURL "" "api/v1/new" = None
  ∧ LegacyClient.buildURL "10.0.0.5" "api/v1/new"
    = Some "http://10.0.0.5:16021/api/v1/new"
  ∧ LegacyClient.buildURL "http://127.0.0.1:8080" "api/v1/new"
    = Some "http://127.0.0.1:8080/api/v1/new".
Proof.
  split; [cbn; lia|].
  split; [apply (proj1 (buildURL_short_address_panics "" "api/v1/new")); cbn; lia|].
  split.
  - apply (proj2 (proj2 (buildURL_short_address_panics "10.0.0.5" "api/v1/new")));
      [cbn; lia|done].
  - apply (proj1 (proj2 (buildURL_short_address_panics "http://127.0.0.1:8080"
                           "api/v1/new"))); [cbn; lia|done].
Defined.

(** ** The subnet lookup *)

Section SubnetLookup.
Import LocalSubnet.

Lemma pretty_N_char_digit x : all_digits (String (pretty_N_char x) "") = true.
Proof. unfold pretty_N_char. by repeat case_match. Qed.

Lemma pretty_N_go_digits x : ∀ s,
  all_digits s = true → all_digits (pretty_N_go x s) = true.
Proof.
  induction (N.lt_wf_0 x) as [x _ IH]. intros s Hs.
  destruct (decide (x = 0)%N) as [->|Hx].
  - by rewrite pretty_N_go_0.
  - rewrite pretty_N_go_step by lia. apply IH; [apply N.div_lt; lia|].
    pose proof (pretty_N_char_digit (x `mod` 10)%N) as Hc. cbn in Hc |- *.
    rewrite andb_true_r in Hc. by rewrite Hc.
Qed.

Lemma pretty_N_digits (x : N) : all_digits (pretty x) = true.
Proof.
  unfold pretty, pretty_N. destruct (decide (x = 0)%N); [done|].
  by apply pretty_N_go_digits.
Qed.

Lemma pretty_nat_digits (n : nat) : all_digits (pretty n) = true.
Proof. apply pretty_N_digits. Qed.

Lemma split_dot_digits s : all_digits s = true → split_dot s = [s].
Proof.
  induction s as [|ch s IH]; [done|]. cbn.
  intros [Hch Hs]%andb_true_iff. rewrite (IH Hs).
  destruct (decide (ch = "."%char)) as [->|]; [done|reflexivity].
Qed.

Lemma split_dot_part s rest :
  all_digits s = true →
  split_dot (s +:+ "." +:+ rest) = s :: split_dot rest.
Proof.
  induction s as [|ch s IH]; [done|]. simpl.
  intros [Hch Hs]%andb_true_iff. specialize (IH Hs). simpl in IH. rewrite IH.
  destruct (decide (ch = "."%char)) as [->|]; [done|reflexivity].
Qed.

Lemma string_app_assoc a b c : (a +:+ b) +:+ c = a +:+ (b +:+ c).
Proof.
  induction a as [|ch a IH]; [done|].
  change (String ch ((a +:+ b) +:+ c) = String ch (a +:+ (b +:+ c))).
  by rewrite IH.
Qed.

Lemma has_colon_app a b :
  has_colon (a +:+ b) = has_colon a || has_colon b.
Proof.
  induction a as [|ch a IH]; [done|]. simpl.
  destruct (decide (ch = ":"%char)); [done|]. exact IH.
Qed.

Lemma has_colon_digits s : all_digits s = true → has_colon s = false.
Proof.
  induction s as [|ch s IH]; [done|]. simpl.
  intros [Hch Hs]%andb_true_iff.
  destruct (decide (ch = ":"%char)) as [->|]; [done|]. by apply IH.
Qed.

Lemma first_subnet_v4 a b c d rest :
  a ≠ 127%N →
  first_subnet (IPNet (IPv4 a b c d) :: rest)
  = Ok (pretty a +:+ "." +:+ pretty b +:+ "." +:+ pretty c +:+ ".").
Proof.
  intros Ha. cbn [first_subnet IsLoopback To4].
  rewrite bool_decide_eq_false_2 by done. cbn [negb]. unfold dotted.
  rewrite !split_dot_part by apply pretty_N_digits. reflexivity.
Qed.

Lemma first_subnet_skip addr rest :
  ¬ usable addr → first_subnet (addr :: rest) = first_subnet rest.
Proof.
  intros Hn. destruct addr as [[a b c d|lb]|]; cbn [first_subnet IsLoopback To4].
  - destruct (decide (a = 127%N)) as [->|Ha].
    + by rewrite bool_decide_eq_true_2.
    + destruct Hn. by exists a, b, c, d.
  - by destruct lb.
  - done.
Qed.

(** X16. The lookup answers with the first three numbers, each followed by a
    dot, of the first address that is an IPv4 network address outside
    127.0.0.0/8; when no address is of that kind it fails, and an error of the
    interface listing is passed on. *)
Theorem getLocalSubnet_first_usable :
  (∀ skipped a b c d rest,
     Forall (λ addr, ¬ usable addr) skipped → a ≠ 127%N →
     getLocalSubnet (Ok (skipped ++ IPNet (IPv4 a b c d) :: rest))
     = Ok (pretty a +:+ "." +:+ pretty b +:+ "." +:+ pretty c +:+ "."))
  ∧ (∀ addrs, Forall (λ addr, ¬ usable addr) addrs →
       getLocalSubnet (Ok addrs) = Err "no suitable network interface found")
  ∧ (∀ e, getLocalSubnet (Err e) = Err ("failed to get network interfaces: " +:+ e)).
Proof.
  split; [|split].
  - intros skipped a b c d rest Hskip Ha. cbn [getLocalSubnet].
    induction Hskip as [|addr skipped Hn _ IH]; cbn [app].
    + by apply first_subnet_v4.
    + by rewrite first_subnet_skip.
  - intros addrs Hnone. cbn [getLocalSubnet].
    induction Hnone as [|addr addrs Hn _ IH]; [done|].
    by rewrite first_subnet_skip.
  - done.
Qed.

Lemma getLocalSubnet_first_usable_witness :
  Forall (λ addr, ¬ usable addr) [OtherAddr; IPNet (IPv4 127 0 0 1); IPNet (IPv6 false)]
  ∧ (192 ≠ 127)%N
  ∧ getLocalSubnet (Ok [OtherAddr; IPNet (IPv4 127 0 0 1); IPNet (IPv6 false);
                        IPNet (IPv4 192 168 1 23); IPNet (IPv4 10 0 0 7)])
    = Ok "192.168.1.".
Proof.
  assert (Forall (λ addr, ¬ usable addr)
            [OtherAddr; IPNet (IPv4 127 0 0 1); IPNet (IPv6 false)]) as Hskip.
  { repeat constructor; intros (a & b & c & d & Heq & Ha); try discriminate.
    injection Heq as <- _ _ _. by apply Ha. }
  assert (192 ≠ 127)%N as Hne by discriminate.
  split; [exact Hskip|]. split; [exact Hne|].
  exact (proj1 getLocalSubnet_first_usable _ 192%N 168%N 1%N 23%N
           [IPNet (IPv4 10 0 0 7)] Hskip Hne).
Defined.

Lemma getLocalSubnet_shape addrs subnet :
  getLocalSubnet addrs = Ok subnet →
  ∃ a b c : N, subnet = pretty a +:+ "." +:+ pretty b +:+ "." +:+ pretty c +:+ ".".
Proof.
  destruct addrs as [l|e]; [|discriminate]. cbn [getLocalSubnet].
  induction l as [|addr l IH]; [discriminate|].
  destruct addr as [[a b c d|lb]|].
  - destruct (decide (a = 127%N)) as [->|Ha].
    + rewrite first_subnet_skip; [done|].
      intros (a' & b' & c' & d' & [= <- _ _ _] & Hne). done.
    + rewrite first_subnet_v4 by done. intros [= <-]. by exists a, b, c.
  - rewrite first_subnet_skip; [done|]. by intros (? & ? & ? & ? & ? & _).
  - rewrite first_subnet_skip; [done|]. by intros (? & ? & ? & ? & ? & _).
Qed.

(** X17. On a subnet the lookup returned, the address dialled for a host
    suffix is the subnet, the suffix in decimal and the device port after a
    colon: the bracketed form of [net.JoinHostPort] is never taken. *)
Theorem dial_address_of_candidate addrs subnet (DialContext : bool → string → bool)
    done i :
  getLocalSubnet addrs = Ok subnet →
  net_JoinHostPort (candidate subnet i) nanoleafPort
  = subnet +:+ pretty i +:+ ":16021"
  ∧ isNanoleafDevice DialContext done (candidate subnet i)
    = DialContext done (subnet +:+ pretty i +:+ ":16021").
Proof.
  intros (a & b & c & ->)%getLocalSubnet_shape.
  assert (has_colon (candidate (pretty a +:+ "." +:+ pretty b +:+ "."
                                +:+ pretty c +:+ ".") i) = false) as Hnc.
  { unfold candidate. rewrite !has_colon_app.
    rewrite (has_colon_digits (pretty a)), (has_colon_digits (pretty b)),
      (has_colon_digits (pretty c)), (has_colon_digits (pretty i))
      by (apply pretty_N_digits || apply pretty_nat_digits).
    reflexivity. }
  assert (net_JoinHostPort
            (candidate (pretty a +:+ "." +:+ pretty b +:+ "." +:+ pretty c +:+ ".") i)
            nanoleafPort
          = (pretty a +:+ "." +:+ pretty b +:+ "." +:+ pretty c +:+ ".")
            +:+ pretty i +:+ ":16021") as Hjoin.
  { unfold net_JoinHostPort. rewrite Hnc. unfold candidate, nanoleafPort.
    by rewrite string_app_assoc. }
  split; [exact Hjoin|]. unfold isNanoleafDevice. by rewrite Hjoin.
Qed.

Lemma dial_address_of_candidate_witness :
  getLocalSubnet (Ok [IPNet (IPv4 192 168 1 23)]) = Ok "192.168.1."
  ∧ net_JoinHostPort (candidate "192.168.1." 7) nanoleafPort = "192.168.1.7:16021".
Proof.
  assert (getLocalSubnet (Ok [IPNet (IPv4 192 168 1 23)]) = Ok "192.168.1.") as Hsub
    by reflexivity.
  split; [exact Hsub|].
  exact (proj1 (dial_address_of_candidate _ "192.168.1." Fixtures.alwaysConnect
                  false 7 Hsub)).
Defined.

End SubnetLookup.

(** ** Every run of the scan *)

Import ScanRuns.

Section AllRuns.
Context (DialContext : bool → string → bool) (subnet : string).
Local Abbreviation step := (step DialContext subnet).
Local Abbreviation run := (run DialContext subnet).
Local Abbreviation conserved := (conserved DialContext subnet).
Local Abbreviation answered := (answered DialContext).

Lemma init_conserved ctx : conserved (init ctx).
Proof.
  constructor; cbn; first [done | by exists [] | by split | by intros r [=]].
Qed.

Lemma step_conserved e s s' :
  conserved s → step e s = Some s' → conserved s'.
Proof.
  intros Hinv Hstep.
  destruct Hinv as [[dropped Hjobs] [gone Hrep] [Hpos Hposd] Hcl Hfit Hret].
  destruct e; cbn in Hstep.
  - (* ECtxDone *)
    destruct (ctx_err s) eqn:Hctx; [done|]. simplify_eq.
    constructor; cbn; eauto.
    intros [ds|e] Hr; specialize (Hret _ Hr); cbn in Hret; [done|congruence].
  - (* ESend *)
    destruct (sending s) as [i|] eqn:Hs; [|done].
    case_decide as Hi; [|done]. destruct Hi as [Hi Hroom]. simplify_eq.
    constructor; cbn; eauto.
    exists dropped. rewrite Hjobs, (unsent_step subnet s i Hs Hi).
    unfold unsent; cbn. solve_Permutation.
  - (* ESenderCancel *)
    destruct (sending s) as [i|] eqn:Hs; [|done].
    case_decide; [|done]. destruct (ctx_done s); [|done]. simplify_eq.
    constructor; cbn; eauto.
    exists (dropped ++ unsent subnet s). rewrite Hjobs.
    unfold unsent; cbn. rewrite Hs. solve_Permutation.
  - (* ESenderEnd *)
    destruct (sending s) as [i|] eqn:Hs; [|done].
    case_decide as Hi; [done|]. simplify_eq.
    constructor; cbn; eauto.
    exists dropped. rewrite Hjobs. unfold unsent; cbn. rewrite Hs.
    replace (S hostCount - i) with 0 by lia. done.
  - (* ERecv *)
    destruct (workers s !! k) as [[| |]|] eqn:Hk; try done.
    destruct (jobs s) as [|ip rest] eqn:Hj; [done|]. simplify_eq.
    constructor; cbn; eauto.
    + exists dropped.
      pose proof (held_insert (workers s) k (Busy ip) Idle Hk) as Hh.
      cbn in Hh. rewrite app_nil_r in Hh. rewrite Hh, Hjobs.
      unfold unsent; cbn. solve_Permutation.
    + intros Hc. pose proof (all_exited_lookup _ _ _ (Hcl Hc) Hk). done.
  - (* EJobsClosed *)
    destruct (workers s !! k) as [[| |]|] eqn:Hk; try done.
    destruct (jobs s) as [|ip rest] eqn:Hj; [|done].
    destruct (jobs_closed s) eqn:Hjc; [|done]. simplify_eq.
    constructor; cbn; eauto.
    + exists dropped.
      pose proof (held_insert (workers s) k Exited Idle Hk) as Hh.
      cbn in Hh. rewrite app_nil_r in Hh. by rewrite Hh, Hjobs, Hj.
    + intros Hc. pose proof (all_exited_lookup _ _ _ (Hcl Hc) Hk). done.
  - (* EWorkerCancel *)
    destruct (workers s !! k) as [[| |]|] eqn:Hk; try done.
    destruct (ctx_done s); [|done]. simplify_eq.
    constructor; cbn; eauto.
    + exists dropped.
      pose proof (held_insert (workers s) k Exited Idle Hk) as Hh.
      cbn in Hh. rewrite app_nil_r in Hh. by rewrite Hh, Hjobs.
    + intros Hc. pose proof (all_exited_lookup _ _ _ (Hcl Hc) Hk). done.
  - (* EReport *)
    destruct (workers s !! k) as [[|ip|]|] eqn:Hk; try done.
    case_decide as Hroom; [|done].
    destruct (results_closed s) eqn:Hrc; [done|]. simplify_eq.
    constructor; cbn.
    + exists dropped.
      pose proof (held_insert (workers s) k Idle (Busy ip) Hk) as Hh.
      cbn in Hh. rewrite Hjobs, <-Hh. unfold unsent; cbn. solve_Permutation.
    + rewrite filter_app.
      destruct (isNanoleafDevice DialContext (ctx_done s) ip) eqn:Hd.
      * destruct (decide (ip = "")) as [->|Hip].
        -- exists (gone ++ [""]). rewrite Hrep. cbn. solve_Permutation.
        -- exists gone. rewrite (filter_cons_True (λ r, r ≠ "")) by done.
           rewrite filter_nil, Hrep. solve_Permutation.
      * exists (gone ++ [ip]). rewrite Hrep. cbn. solve_Permutation.
    + split; [|done]. apply Forall_app. split; [done|].
      apply Forall_singleton.
      destruct (isNanoleafDevice DialContext (ctx_done s) ip) eqn:Hd; [|by left].
      right. by exists (ctx_done s).
    + intros ?. congruence.
    + rewrite !length_app. cbn. lia.
    + intros [ds|e] Hr; specialize (Hret _ Hr); cbn in Hret; [|done].
      destruct Hret. congruence.
  - (* EClose *)
    destruct (all_exited (workers s)) eqn:Hall; [|done].
    destruct (results_closed s) eqn:Hrc; [done|]. simplify_eq.
    constructor; cbn; eauto.
    intros [ds|e] Hr; specialize (Hret _ Hr); cbn in Hret; [|done].
    destruct Hret. congruence.
  - (* ECollect *)
    destruct (collecting s) as [ds|] eqn:Hc; [|done].
    destruct (results s) as [|ip rest] eqn:Hr; [done|].
    apply Forall_cons in Hpos as [Hip Hpos]. cbn in Hfit.
    case_decide as Hipe; simplify_eq; constructor; cbn; eauto; try lia; try done.
    + exists gone. rewrite Hrep, filter_cons_True by done. cbn. solve_Permutation.
    + split; [done|]. apply Forall_app. split; [done|].
      apply Forall_singleton. by destruct Hip.
  - (* ECollectClosed *)
    destruct (collecting s) as [ds|] eqn:Hc; [|done].
    destruct (results s) as [|ip rest] eqn:Hr; [|done].
    destruct (results_closed s) eqn:Hrc; [|done]. simplify_eq.
    constructor; cbn; eauto; try lia.
    + exists gone. by rewrite Hrep.
    + intros r [= <-]. done.
  - (* ECollectCancel *)
    destruct (collecting s) as [ds|] eqn:Hc; [|done].
    destruct (ctx_err s) as [err|] eqn:Hctx; [|done]. simplify_eq.
    constructor; cbn; eauto.
    intros r [= <-]. done.
Qed.

Lemma run_conserved tr s s' : conserved s → run tr s = Some s' → conserved s'.
Proof.
  revert s. induction tr as [|e tr IH]; intros s Hinv; cbn.
  - by intros [= <-].
  - destruct (step e s) as [s1|] eqn:Hstep; [|done].
    intros Hrun. apply (IH s1); [|done]. by eapply step_conserved.
Qed.
End AllRuns.

Section AllRunsResults.
Context (DialContext : bool → string → bool) (subnet : string).
Local Abbreviation step := (step DialContext subnet).
Local Abbreviation run := (run DialContext subnet).
Local Abbreviation conserved := (conserved DialContext subnet).

Lemma conserved_count s :
  conserved s →
  length (unsent subnet s) + length (jobs s) + length (held (workers s))
  + length (probed s) ≤ hostCount.
Proof.
  intros [[dropped Hjobs] _ _ _ _ _].
  rewrite <-(candidates_length subnet), Hjobs, !length_app. lia.
Qed.

Lemma conserved_report_enabled s k ip :
  conserved s → workers s !! k = Some (Busy ip) → is_Some (step (EReport k) s).
Proof.
  intros Hinv Hk.
  assert (length (results s) < hostCount).
  { pose proof (conserved_count s Hinv) as Hcount.
    pose proof (cons_room _ _ _ Hinv) as Hroom.
    pose proof (held_insert (workers s) k Idle (Busy ip) Hk) as Hh.
    apply Permutation_length in Hh. rewrite length_app in Hh. cbn in Hh. lia. }
  assert (results_closed s = false) as Hrc.
  { destruct (results_closed s) eqn:Hrc; [|done].
    pose proof (all_exited_lookup _ _ _ (cons_closed _ _ _ Hinv Hrc) Hk). done. }
  cbn. rewrite Hk, decide_True, Hrc by done. eauto.
Qed.

Lemma conserved_send_enabled s i :
  conserved s → sending s = Sending i → i ≤ hostCount → is_Some (step ESend s).
Proof.
  intros Hinv Hs Hi. pose proof (conserved_count s Hinv) as Hcount.
  rewrite (unsent_step subnet s i Hs Hi) in Hcount. cbn in Hcount.
  cbn. rewrite Hs, decide_True by (split; [done|lia]). eauto.
Qed.

(** X18. Whatever the schedule and whether or not the context gets done: no
    host is probed twice or outside the 254 candidates, and a list that [Scan]
    returns has no duplicates and holds only hosts that were probed and whose
    dial connected; it is returned only after every worker has returned. *)
Theorem scan_lists_only_answering_hosts ctx tr s :
  run tr (init ctx) = Some s →
  NoDup (probed s) ∧ probed s ⊆ candidates subnet ∧ length (probed s) ≤ 254
  ∧ ∀ devices, collecting s = Returned (Ok devices) →
      NoDup devices ∧ devices ⊆ probed s
      ∧ Forall (answered DialContext) devices
      ∧ all_exited (workers s) = true.
Proof.
  intros Hrun.
  pose proof (run_conserved DialContext subnet tr _ _
                (init_conserved DialContext subnet ctx) Hrun) as Hinv.
  pose proof (conserved_count s Hinv) as Hcount.
  destruct Hinv as [[dropped Hjobs] [gone Hrep] [_ Hposd] Hcl _ Hret].
  pose proof (candidates_NoDup subnet) as Hnd. rewrite Hjobs in Hnd.
  assert (NoDup (probed s)) as Hndp.
  { rewrite !NoDup_app in Hnd. tauto. }
  split; [exact Hndp|]. split.
  { intros ip Hip. rewrite Hjobs, !elem_of_app. tauto. }
  split; [unfold hostCount in Hcount; lia|].
  intros ds Hr. rewrite Hr in Hrep, Hposd. cbn in Hrep, Hposd.
  destruct (Hret _ Hr) as [Hclosed _]. rewrite Hrep in Hndp.
  split; [rewrite !NoDup_app in Hndp; tauto|].
  split; [intros ip Hip; rewrite Hrep, !elem_of_app; tauto|].
  split; [done|]. by apply Hcl.
Qed.

(** X19. After the subnet lookup, the only error [Scan] returns is the error
    of its context: a dial that fails is a host without device, never a
    failure of the scan. *)
Theorem scan_error_is_context_error ctx tr s e :
  run tr (init ctx) = Some s →
  collecting s = Returned (Err e) →
  ctx_err s = Some e.
Proof.
  intros Hrun Hr.
  pose proof (run_conserved DialContext subnet tr _ _
                (init_conserved DialContext subnet ctx) Hrun) as Hinv.
  exact (cons_returned _ _ _ Hinv _ Hr).
Qed.

(** X20. The buffered channels are large enough and closed late enough: in
    every state a run reaches, a worker that holds a job can deliver its
    report, so it neither blocks on [results] nor sends on it after it was
    closed, and the sender can queue its next job. *)
Theorem scan_sends_never_block ctx tr s :
  run tr (init ctx) = Some s →
  (∀ k ip, workers s !! k = Some (Busy ip) → is_Some (step (EReport k) s))
  ∧ (∀ i, sending s = Sending i → i ≤ 254 → is_Some (step ESend s)).
Proof.
  intros Hrun.
  pose proof (run_conserved DialContext subnet tr _ _
                (init_conserved DialContext subnet ctx) Hrun) as Hinv.
  split.
  - intros k ip. by apply conserved_report_enabled.
  - intros i. by apply conserved_send_enabled.
Qed.

Lemma wound_up_stalled s : wound_up s → stalled DialContext subnet s.
Proof.
  intros (Hsd & Hall & Hrc & r & Hr) e He.
  assert (∀ k, workers s !! k = Some Exited ∨ workers s !! k = None) as Hk.
  { intros k. destruct (workers s !! k) as [w|] eqn:Hw; [|by right].
    left. by rewrite (all_exited_lookup _ _ _ Hall Hw). }
  destruct e; cbn.
  - by destruct (He err).
  - by rewrite Hsd.
  - by rewrite Hsd.
  - by rewrite Hsd.
  - by destruct (Hk k) as [-> | ->].
  - by destruct (Hk k) as [-> | ->].
  - by destruct (Hk k) as [-> | ->].
  - by destruct (Hk k) as [-> | ->].
  - rewrite Hrc. by destruct (all_exited (workers s)).
  - by rewrite Hr.
  - by rewrite Hr.
  - by rewrite Hr.
Qed.

(** X21. No goroutine is left behind: a run has at most 1070 decisions, and
    the states it reaches in which no goroutine can move are exactly those in
    which the sender and all fifty workers have returned, [results] is closed
    and [Scan] has returned, also when the context was done in between. *)
Theorem scan_leaves_no_goroutine ctx tr s :
  run tr (init ctx) = Some s →
  length tr ≤ 1070
  ∧ (stalled DialContext subnet s ↔ wound_up s).
Proof.
  intros Hrun. split.
  { pose proof (run_weight DialContext subnet tr _ _ Hrun) as Hw.
    assert (weight (init ctx) ≤ 1070) by (destruct ctx; vm_compute; lia). lia. }
  pose proof (run_conserved DialContext subnet tr _ _
                (init_conserved DialContext subnet ctx) Hrun) as Hinv.
  split; [|apply wound_up_stalled]. intros Hst.
  assert (∀ e, (∀ err, e ≠ ECtxDone err) → ¬ is_Some (step e s)) as Hno.
  { intros e He [s' Hs']. rewrite (Hst e He) in Hs'. discriminate. }
  assert (sending s = SenderDone) as Hsd.
  { destruct (sending s) as [i|] eqn:Hs; [|done]. exfalso.
    destruct (decide (i ≤ hostCount)) as [Hi|Hi].
    - apply (Hno ESend); [done|]. by eapply conserved_send_enabled.
    - apply (Hno ESenderEnd); [done|]. cbn. rewrite Hs, decide_False by done. eauto. }
  assert (all_exited (workers s) = true) as Hall.
  { destruct (find_worker (workers s)) as [Hall|[(k & ip & Hk)|(k & Hk)]]; [done|..];
      exfalso.
    - apply (Hno (EReport k)); [done|]. by eapply conserved_report_enabled.
    - destruct (jobs s) as [|ip rest] eqn:Hj.
      + apply (Hno (EJobsClosed k)); [done|]. cbn. rewrite Hk, Hj.
        unfold jobs_closed. rewrite Hsd. eauto.
      + apply (Hno (ERecv k)); [done|]. cbn. rewrite Hk, Hj. eauto. }
  assert (results_closed s = true) as Hrc.
  { destruct (results_closed s) eqn:Hrc; [done|]. exfalso.
    apply (Hno EClose); [done|]. cbn. rewrite Hall, Hrc. eauto. }
  repeat split; [done..|].
  destruct (collecting s) as [ds|r] eqn:Hc; [|by exists r]. exfalso.
  destruct (results s) as [|ip rest] eqn:Hres.
  - apply (Hno ECollectClosed); [done|]. cbn. rewrite Hc, Hres, Hrc. eauto.
  - apply (Hno ECollect); [done|]. cbn. rewrite Hc, Hres. case_decide; eauto.
Qed.
End AllRunsResults.

Lemma scan_lists_only_answering_hosts_witness :
  ∃ s, run Fixtures.alwaysConnect "10.0.0." late_collector_schedule (init None) = Some s
    ∧ collecting s = Returned (Ok ["10.0.0.1"])
    ∧ NoDup ["10.0.0.1"] ∧ ["10.0.0.1"] ⊆ probed s
    ∧ Forall (answered Fixtures.alwaysConnect) ["10.0.0.1"]
    ∧ all_exited (workers s) = true.
Proof.
  destruct (run Fixtures.alwaysConnect "10.0.0." late_collector_schedule (init None))
    as [s|] eqn:Hrun; [|vm_compute in Hrun; discriminate Hrun].
  assert (collecting s = Returned (Ok ["10.0.0.1"])) as Hret.
  { vm_compute in Hrun. injection Hrun as <-. reflexivity. }
  exists s. split; [reflexivity|]. split; [exact Hret|].
  exact (proj2 (proj2 (proj2 (scan_lists_only_answering_hosts Fixtures.alwaysConnect
                                "10.0.0." None late_collector_schedule s Hrun)))
           _ Hret).
Defined.

Lemma scan_error_is_context_error_witness :
  ∃ s, run Fixtures.alwaysConnect "10.0.0." Scenarios.early_cancel_schedule
         (init None) = Some s
    ∧ collecting s = Returned (Err "context canceled")
    ∧ ctx_err s = Some "context canceled".
Proof.
  destruct (run Fixtures.alwaysConnect "10.0.0." Scenarios.early_cancel_schedule
              (init None)) as [s|] eqn:Hrun; [|vm_compute in Hrun; discriminate Hrun].
  assert (collecting s = Returned (Err "context canceled")) as Hret.
  { vm_compute in Hrun. injection Hrun as <-. reflexivity. }
  exists s. split; [reflexivity|]. split; [exact Hret|].
  exact (scan_error_is_context_error Fixtures.alwaysConnect "10.0.0." None
           Scenarios.early_cancel_schedule s _ Hrun Hret).
Defined.

Lemma scan_sends_never_block_witness :
  ∃ s, run Fixtures.alwaysConnect "10.0.0." [ESend; ERecv 0] (init None) = Some s
    ∧ workers s !! 0 = Some (Busy "10.0.0.1")
    ∧ is_Some (step Fixtures.alwaysConnect "10.0.0." (EReport 0) s)
    ∧ sending s = Sending 2
    ∧ is_Some (step Fixtures.alwaysConnect "10.0.0." ESend s).
Proof.
  destruct (run Fixtures.alwaysConnect "10.0.0." [ESend; ERecv 0] (init None))
    as [s|] eqn:Hrun; [|vm_compute in Hrun; discriminate Hrun].
  assert (workers s !! 0 = Some (Busy "10.0.0.1") ∧ sending s = Sending 2)
    as [Hbusy Hsend].
  { vm_compute in Hrun. injection Hrun as <-. split; reflexivity. }
  pose proof (scan_sends_never_block Fixtures.alwaysConnect "10.0.0." None
                [ESend; ERecv 0] s Hrun) as [Hreport Hqueue].
  exists s. split; [reflexivity|]. split; [exact Hbusy|].
  split; [exact (Hreport 0 "10.0.0.1" Hbusy)|]. split; [exact Hsend|].
  exact (Hqueue 2 Hsend ltac:(lia)).
Defined.

Lemma scan_leaves_no_goroutine_witness :
  ∃ s, run Fixtures.alwaysConnect "10.0.0." late_collector_schedule (init None) = Some s
    ∧ length late_collector_schedule ≤ 1070
    ∧ stalled Fixtures.alwaysConnect "10.0.0." s
    ∧ wound_up s.
Proof.
  destruct (run Fixtures.alwaysConnect "10.0.0." late_collector_schedule (init None))
    as [s|] eqn:Hrun; [|vm_compute in Hrun; discriminate Hrun].
  assert (wound_up s) as Hdone.
  { vm_compute in Hrun. injection Hrun as <-.
    repeat split; [reflexivity..|]. eexists. reflexivity. }
  pose proof (wound_up_stalled Fixtures.alwaysConnect "10.0.0." s Hdone) as Hst.
  pose proof (scan_leaves_no_goroutine Fixtures.alwaysConnect "10.0.0." None
                late_collector_schedule s Hrun) as [Hlen Hiff].
  exists s. split; [reflexivity|]. split; [exact Hlen|]. split; [exact Hst|].
  exact (proj1 Hiff Hst).
Defined.

(** ** The terminal program *)

Section MainUIProperties.
Context {W Info : Type} (app : NanoleafService.t W Info) (ui : UI).
Context (strconv_Atoi : string → result Z)
        (textinput_Update : MainUI.msg → string → string).

Local Abbreviation Update := (MainUI.Update app ui strconv_Atoi textinput_Update).
Local Abbreviation Updates := (MainUI.Updates app ui strconv_Atoi textinput_Update).
Local Abbreviation updateMenu := (MainUI.updateMenu app ui).
Local Abbreviation updateInput :=
  (MainUI.updateInput app ui strconv_Atoi textinput_Update).

Lemma handleAction_keeps_deviceReady item (s : Main.model) (w : W) :
  Main.deviceReady (fst (Main.handleAction app ui item s w)) = Main.deviceReady s.
Proof.
  destruct item; unfold Main.handleAction, mbind, M_bind.
  - destruct (Main.deviceReady s) eqn:Hr; [cbn; congruence|].
    destruct (NanoleafService.ScanForDevices app w) as [[ok msg data] w'].
    destruct ok; [|cbn; congruence]. cbn.
    destruct data as [|[|first rest]| | |]; cbn; congruence.
  - destruct (Main.deviceReady s) eqn:Hr; [cbn; congruence|].
    destruct (decide (Main.ip s = "")); [cbn; congruence|].
    destruct (NanoleafService.PairWithDevice app (Main.ip s) w)
      as [[ok msg data] w'].
    destruct ok; [|cbn; congruence]. cbn. destruct data; cbn; congruence.
  - destruct (NanoleafService.SetDevicePower app _ _ true w) as [[ok msg data] w'].
    unfold Main.show_result. cbn. by destruct ok.
  - destruct (NanoleafService.SetDevicePower app _ _ false w) as [[ok msg data] w'].
    unfold Main.show_result. cbn. by destruct ok.
  - done.
  - done.
Qed.

Lemma act_menu_ok item m w :
  MainUI.menu_ok m →
  MainUI.menu_ok (fst (fst (MainUI.act app ui item m w))).
Proof.
  intros [Hch Hcur]. unfold MainUI.act, mbind, M_bind.
  pose proof (handleAction_keeps_deviceReady item (MainUI.session m) w) as Hr.
  destruct (Main.handleAction app ui item (MainUI.session m) w) as [s w'].
  cbn in *. split; cbn; [by rewrite Hr|done].
Qed.

Lemma updateInput_menu_ok message m w :
  MainUI.menu_ok m →
  MainUI.menu_ok (fst (fst (updateInput message m w))).
Proof.
  intros [Hch Hcur]. unfold MainUI.updateInput.
  destruct message as [|key|]; [by split|..|by split].
  destruct (decide (key = "enter")).
  - unfold MainUI.onInputAction. unfold mbind, M_bind.
    destruct (strconv_Atoi (MainUI.textInput m)) as [b|bad]; cbn; [|by split].
    destruct (NanoleafService.SetBrightness app (Main.ip (MainUI.session m))
                (Main.token (MainUI.session m)) b w) as [[ok msg data] w'].
    unfold Main.show_result. destruct ok; cbn; by split.
  - destruct (decide (key = "esc")); [by split|].
    destruct (decide (key = "ctrl+c")); by split.
Qed.

Lemma act_then_ok item m w :
  MainUI.menu_ok m →
  ∃ m' c, fst ((MainUI.act app ui item m ≫= λ r, ret (Some r)) w) = Some (m', c)
          ∧ MainUI.menu_ok m'.
Proof.
  intros Hok. unfold mbind, M_bind.
  pose proof (act_menu_ok item m w Hok) as Hm.
  destruct (MainUI.act app ui item m w) as [[m' c] w']. by exists m', c.
Qed.

Lemma updateMenu_menu_ok message m w :
  MainUI.menu_ok m →
  ∃ m' c, fst (updateMenu message m w) = Some (m', c) ∧ MainUI.menu_ok m'.
Proof.
  intros Hok. pose proof Hok as [Hch Hcur]. unfold MainUI.updateMenu.
  destruct message as [|key|].
  - unfold mbind, M_bind.
    destruct (decide (Main.ip (MainUI.session m) ≠ ""
                      ∧ Main.token (MainUI.session m) ≠ "")).
    + destruct (NanoleafService.GetDeviceInfo app (Main.ip (MainUI.session m))
                  (Main.token (MainUI.session m)) w) as [[ok msg data] w'].
      cbn. destruct (decide (ok ≠ Main.deviceReady (MainUI.session m))) as [|Hsame].
      * eexists _, _. split; [reflexivity|]. split; cbn; [done|].
        destruct ok; cbn; lia.
      * eexists _, _. split; [reflexivity|].
        assert (ok = Main.deviceReady (MainUI.session m)) as ->
          by (destruct (decide (ok = Main.deviceReady (MainUI.session m)));
              [done|by destruct Hsame]).
        by split.
    + cbn. rewrite decide_False by (intros Hne; by apply Hne).
      eexists _, _. by split.
  - destruct (decide (key = "ctrl+c")); [by eexists _, _|].
    destruct (decide (key = "s")); [by apply act_then_ok|].
    destruct (decide (key = "p")); [by apply act_then_ok|].
    destruct (decide (key = "o")); [by apply act_then_ok|].
    destruct (decide (key = "x")); [by apply act_then_ok|].
    destruct (decide (key = "b")); [by apply act_then_ok|].
    destruct (decide (key = "q")); [by apply act_then_ok|].
    destruct (decide (key = "up" ∨ key = "k")).
    { destruct (decide (MainUI.cursor m > 0)%Z).
      - eexists _, _. split; [reflexivity|]. split; [done|]. cbn. lia.
      - by eexists _, _. }
    destruct (decide (key = "down" ∨ key = "j")).
    { destruct (decide (MainUI.cursor m
                        < Z.of_nat (length (MainUI.choices m)) - 1)%Z).
      - eexists _, _. split; [reflexivity|]. split; [done|]. cbn. lia.
      - by eexists _, _. }
    destruct (decide (key = "enter")); [|by eexists _, _].
    rewrite decide_True by lia.
    destruct (MainUI.choices m !! Z.to_nat (MainUI.cursor m)) as [label|] eqn:Hl.
    + by apply act_then_ok.
    + apply lookup_ge_None in Hl. lia.
  - by eexists _, _.
Qed.

Lemma Update_menu_ok message m w :
  MainUI.menu_ok m →
  ∃ m' c, fst (Update message m w) = Some (m', c) ∧ MainUI.menu_ok m'.
Proof.
  intros Hok. unfold MainUI.Update.
  assert (MainUI.menu_ok (MainUI.with_error m false)) as Hok' by done.
  change (Main.inputMode (MainUI.session (MainUI.with_error m false)))
    with (Main.inputMode (MainUI.session m)).
  destruct (Main.inputMode (MainUI.session m)).
  - unfold mbind, M_bind.
    pose proof (updateInput_menu_ok message _ w Hok') as Hm.
    destruct (updateInput message (MainUI.with_error m false) w) as [[m' c] w'].
    by exists m', c.
  - by apply updateMenu_menu_ok.
Qed.

Lemma Updates_menu_ok messages m w :
  MainUI.menu_ok m →
  ∃ m', fst (Updates messages m w) = Some m' ∧ MainUI.menu_ok m'.
Proof.
  revert m w. induction messages as [|message rest IH]; intros m w Hok.
  - by exists m.
  - cbn [MainUI.Updates]. unfold mbind, M_bind.
    destruct (Update_menu_ok message m w Hok) as (m1 & c & Hstep & Hok1).
    destruct (Update message m w) as [r w1]. cbn in Hstep. subst r.
    by apply IH.
Qed.

Lemma initModel_menu_ok w :
  MainUI.menu_ok (fst (MainUI.initModel app ui w)).
Proof.
  unfold MainUI.initModel, mbind, M_bind.
  destruct (NanoleafService.LoadConfiguration app w) as [[ok msg data] w1]. cbn.
  destruct ok; [|by split].
  destruct data as [| | |config|]; try by split.
  destruct (NanoleafService.GetDeviceInfo app (IP config) (Token config) w1)
    as [[ok' msg' data'] w2].
  cbn. destruct ok'; by split.
Qed.

(** X22. From start-up on, whatever messages arrive, the menu the model holds
    is the one of its readiness flag and the cursor stays on one of its
    entries: the enter key never reads outside the menu, so no sequence of
    updates panics. *)
Theorem menu_cursor_stays_inside messages w :
  let '(m0, w0) := MainUI.initModel app ui w in
  ∃ m, fst (Updates messages m0 w0) = Some m ∧ MainUI.menu_ok m.
Proof.
  pose proof (initModel_menu_ok w) as Hok.
  destruct (MainUI.initModel app ui w) as [m0 w0]. by apply Updates_menu_ok.
Qed.

(** X23. On every entry of the menu, the enter key does what the key printed
    in brackets in front of the entry does. *)
Theorem enter_is_the_shortcut m w :
  MainUI.menu_ok m →
  ∃ label, MainUI.choices m !! Z.to_nat (MainUI.cursor m) = Some label
    ∧ updateMenu (MainUI.KeyMsg "enter") m w
      = updateMenu (MainUI.KeyMsg (MainUI.shortcut label)) m w.
Proof.
  intros [Hch Hcur]. destruct m as [s c ch er ti]. cbn in Hch, Hcur. subst ch.
  destruct (Main.deviceReady s).
  - assert (c = 0 ∨ c = 1 ∨ c = 2 ∨ c = 3)%Z as Hc by (cbn in Hcur; lia).
    destruct Hc as [-> | [-> | [-> | ->]]]; eexists; (split; [reflexivity|]);
      reflexivity.
  - assert (c = 0 ∨ c = 1 ∨ c = 2 ∨ c = 3 ∨ c = 4 ∨ c = 5)%Z as Hc
      by (cbn in Hcur; lia).
    destruct Hc as [-> | [-> | [-> | [-> | [-> | ->]]]]]; eexists; (split; [reflexivity|]);
      reflexivity.
Qed.

(** X24. Once the device is ready, the scan key and the pair key change
    neither the model nor the world: no scan is started and the device API is
    not called. *)
Theorem ready_session_ignores_scan_and_pair m w :
  Main.deviceReady (MainUI.session m) = true →
  updateMenu (MainUI.KeyMsg "s") m w = (Some (m, MainUI.CmdNone), w)
  ∧ updateMenu (MainUI.KeyMsg "p") m w = (Some (m, MainUI.CmdNone), w).
Proof.
  intros Hr. destruct m as [s c ch er ti]. cbn in Hr.
  unfold MainUI.updateMenu, MainUI.act, Main.handleAction, mbind, M_bind. cbn.
  rewrite Hr. by split.
Qed.

(** X25. The periodic status message probes the device only when the session
    has an address and a credential: then the readiness flag becomes the
    outcome of [GetDeviceInfo], and the menu and cursor are reset exactly when
    the flag changed; with an empty address or credential the model and the
    world stay as they are. *)
Theorem status_message_probes_paired_session m w :
  (Main.ip (MainUI.session m) = "" ∨ Main.token (MainUI.session m) = "" →
   updateMenu MainUI.StatusMsg m w = (Some (m, MainUI.CmdTick), w))
  ∧ (Main.ip (MainUI.session m) ≠ "" → Main.token (MainUI.session m) ≠ "" →
     let '(result, w') :=
       NanoleafService.GetDeviceInfo app (Main.ip (MainUI.session m))
         (Main.token (MainUI.session m)) w in
     ∃ m', updateMenu MainUI.StatusMsg m w = (Some (m', MainUI.CmdTick), w')
       ∧ Main.deviceReady (MainUI.session m') = Success result
       ∧ Main.ip (MainUI.session m') = Main.ip (MainUI.session m)
       ∧ Main.token (MainUI.session m') = Main.token (MainUI.session m)
       ∧ (Success result = Main.deviceReady (MainUI.session m) →
          MainUI.cursor m' = MainUI.cursor m ∧ MainUI.choices m' = MainUI.choices m)
       ∧ (Success result ≠ Main.deviceReady (MainUI.session m) →
          MainUI.cursor m' = 0%Z
          ∧ MainUI.choices m' = if Success result then MainUI.readyChoices
                                else MainUI.fullChoices)).
Proof.
  split.
  - intros Hempty. unfold MainUI.updateMenu, mbind, M_bind.
    destruct (decide (Main.ip (MainUI.session m) ≠ ""
                      ∧ Main.token (MainUI.session m) ≠ "")) as [[Hi Ht]|_].
    { by destruct Hempty. }
    cbn. by rewrite decide_False by (intros Hne; by apply Hne).
  - intros Hip Htok. unfold MainUI.updateMenu, mbind, M_bind.
    destruct (decide (Main.ip (MainUI.session m) ≠ ""
                      ∧ Main.token (MainUI.session m) ≠ "")) as [_|Hn];
      [|by destruct Hn].
    destruct (NanoleafService.GetDeviceInfo app (Main.ip (MainUI.session m))
                (Main.token (MainUI.session m)) w) as [[ok msg data] w'].
    cbn. destruct (decide (ok ≠ Main.deviceReady (MainUI.session m))) as [Hne|Hsame].
    + eexists. split; [reflexivity|]. cbn. repeat split; try done.
      all: intros Heq; by destruct Hne.
    + eexists. split; [reflexivity|]. cbn. repeat split; try done.
      all: intros Hne; by destruct Hsame.
Qed.

(** X26. While a value is being typed, a status message is handed to the text
    input: the device is not probed, the session is unchanged and the command
    returned is the text input's, not the next status tick. *)
Theorem status_message_lost_in_input_mode m w :
  Main.inputMode (MainUI.session m) = true →
  Update MainUI.StatusMsg m w
  = (Some (MainUI.with_textInput (MainUI.with_error m false)
             (textinput_Update MainUI.StatusMsg (MainUI.textInput m)),
           MainUI.CmdInput), w).
Proof.
  intros Hin. unfold MainUI.Update. cbn. by rewrite Hin.
Qed.

(** X27. The enter key in input mode always leaves input mode and clears the
    text; a value that is not a number is answered with an error message
    without any call of the service, and the address, the credential and the
    readiness flag are never changed by it. *)
Theorem input_enter_leaves_input_mode m w :
  let '(m', c, w') := updateInput (MainUI.KeyMsg "enter") m w in
  c = MainUI.CmdNone
  ∧ Main.inputMode (MainUI.session m') = false
  ∧ MainUI.textInput m' = ""
  ∧ Main.ip (MainUI.session m') = Main.ip (MainUI.session m)
  ∧ Main.token (MainUI.session m') = Main.token (MainUI.session m)
  ∧ Main.deviceReady (MainUI.session m') = Main.deviceReady (MainUI.session m)
  ∧ (∀ e, strconv_Atoi (MainUI.textInput m) = Err e →
       w' = w
       ∧ Main.message (MainUI.session m')
         = renderError ui "brightness has to be numeric (0-100)").
Proof.
  unfold MainUI.updateInput.
  destruct (decide ("enter" = "enter")) as [_|Hn]; [|done].
  unfold MainUI.onInputAction. unfold mbind, M_bind.
  destruct (strconv_Atoi (MainUI.textInput m)) as [b|bad]; cbn.
  - destruct (NanoleafService.SetBrightness app (Main.ip (MainUI.session m))
                (Main.token (MainUI.session m)) b w) as [[ok msg data] w'].
    unfold Main.show_result. destruct ok; cbn; repeat split; done.
  - repeat split; done.
Qed.
End MainUIProperties.

Lemma enter_is_the_shortcut_witness :
  MainUI.menu_ok Scenarios.pairedMenu
  ∧ ∃ label,
      MainUI.choices Scenarios.pairedMenu
        !! Z.to_nat (MainUI.cursor Scenarios.pairedMenu) = Some label
      ∧ MainUI.updateMenu Fixtures.service Fixtures.plainUI (MainUI.KeyMsg "enter")
          Scenarios.pairedMenu Fixtures.fresh
        = MainUI.updateMenu Fixtures.service Fixtures.plainUI
            (MainUI.KeyMsg (MainUI.shortcut label)) Scenarios.pairedMenu
            Fixtures.fresh.
Proof.
  assert (MainUI.menu_ok Scenarios.pairedMenu) as Hok by (split; [reflexivity|cbn; lia]).
  split; [exact Hok|].
  exact (enter_is_the_shortcut Fixtures.service Fixtures.plainUI
           Scenarios.pairedMenu Fixtures.fresh Hok).
Defined.

Lemma ready_session_ignores_scan_and_pair_witness :
  Main.deviceReady (MainUI.session Scenarios.readyMenu) = true
  ∧ MainUI.updateMenu Fixtures.service Fixtures.plainUI (MainUI.KeyMsg "s")
      Scenarios.readyMenu Fixtures.fresh
    = (Some (Scenarios.readyMenu, MainUI.CmdNone), Fixtures.fresh)
  ∧ MainUI.updateMenu Fixtures.service Fixtures.plainUI (MainUI.KeyMsg "p")
      Scenarios.readyMenu Fixtures.fresh
    = (Some (Scenarios.readyMenu, MainUI.CmdNone), Fixtures.fresh).
Proof.
  split; [reflexivity|].
  exact (ready_session_ignores_scan_and_pair Fixtures.service Fixtures.plainUI
           Scenarios.readyMenu Fixtures.fresh ltac:(reflexivity)).
Defined.

Lemma status_message_probes_paired_session_witness :
  (Main.token (MainUI.session Scenarios.startMenu) = ""
   ∧ MainUI.updateMenu Fixtures.service Fixtures.plainUI MainUI.StatusMsg
       Scenarios.startMenu Fixtures.fresh
     = (Some (Scenarios.startMenu, MainUI.CmdTick), Fixtures.fresh))
  ∧ (Main.ip (MainUI.session Scenarios.pairedMenu) ≠ ""
     ∧ Main.token (MainUI.session Scenarios.pairedMenu) ≠ ""
     ∧ ∃ m', MainUI.updateMenu Fixtures.service Fixtures.plainUI MainUI.StatusMsg
               Scenarios.pairedMenu Fixtures.fresh
             = (Some (m', MainUI.CmdTick),
                log_call (CallGetInfo "10.0.0.5" "T1") Fixtures.fresh)
        ∧ Main.deviceReady (MainUI.session m') = true
        ∧ MainUI.cursor m' = 0%Z
        ∧ MainUI.choices m' = MainUI.readyChoices).
Proof.
  split.
  - split; [reflexivity|].
    exact (proj1 (status_message_probes_paired_session Fixtures.service
                    Fixtures.plainUI Scenarios.startMenu Fixtures.fresh)
             (or_intror eq_refl)).
  - split; [done|]. split; [done|].
    destruct (proj2 (status_message_probes_paired_session Fixtures.service
                       Fixtures.plainUI Scenarios.pairedMenu Fixtures.fresh)
                ltac:(done) ltac:(done))
      as (m' & Hupd & Hready & _ & _ & _ & Hreset).
    exists m'. split; [exact Hupd|]. split; [exact Hready|].
    exact (Hreset ltac:(done)).
Defined.

Lemma status_message_lost_in_input_mode_witness :
  Main.inputMode (MainUI.session Scenarios.typingMenu) = true
  ∧ MainUI.Update Fixtures.service Fixtures.plainUI Scenarios.atoi Scenarios.typing
      MainUI.StatusMsg Scenarios.typingMenu Fixtures.fresh
    = (Some (Scenarios.typingMenu, MainUI.CmdInput), Fixtures.fresh).
Proof.
  split; [reflexivity|].
  exact (status_message_lost_in_input_mode Fixtures.service Fixtures.plainUI
           Scenarios.atoi Scenarios.typing Scenarios.typingMenu Fixtures.fresh
           ltac:(reflexivity)).
Defined.

Lemma input_enter_leaves_input_mode_witness :
  Scenarios.atoi (MainUI.textInput Scenarios.typingMenu) = Err "invalid syntax"
  ∧ ∃ m', MainUI.updateInput Fixtures.service Fixtures.plainUI Scenarios.atoi
            Scenarios.typing (MainUI.KeyMsg "enter") Scenarios.typingMenu
            Fixtures.fresh
          = (m', MainUI.CmdNone, Fixtures.fresh)
     ∧ Main.inputMode (MainUI.session m') = false
     ∧ MainUI.textInput m' = ""
     ∧ Main.message (MainUI.session m') = "brightness has to be numeric (0-100)".
Proof.
  split; [reflexivity|].
  pose proof (input_enter_leaves_input_mode Fixtures.service Fixtures.plainUI
                Scenarios.atoi Scenarios.typing Scenarios.typingMenu Fixtures.fresh)
    as Hthm.
  destruct (MainUI.updateInput Fixtures.service Fixtures.plainUI Scenarios.atoi
              Scenarios.typing (MainUI.KeyMsg "enter") Scenarios.typingMenu
              Fixtures.fresh) as [[m' c] w'] eqn:Hupd.
  destruct Hthm as (-> & Hmode & Htext & _ & _ & _ & Hbad).
  destruct (Hbad "invalid syntax" ltac:(reflexivity)) as [-> Hmsg].
  exists m'. split; [reflexivity|]. split; [exact Hmode|]. split; [exact Htext|].
  exact Hmsg.
Defined.

(** ** A session from scan to power *)

(** X28. The session of the terminal program from the scan key over the pair
    key to the power key: the address is the first one the scan returned, the
    credential the one the device issued, and whether or not the file could
    be written the device API has seen exactly the pairing and then one power
    call with that address and credential; when the device accepts it the
    message is the success of the power command. *)
Theorem scan_pair_power_session `{JsonCodec} {Info} (r : Replies Info)
    (sc : DeviceScanner World) (ui : UI) first rest tok (m : Main.model) w w1 :
  let app := NanoleafService.NewNanoleafService (recordingClient r) sc
               fileConfigManager in
  Main.deviceReady m = false →
  scanner_Scan sc w = (Ok (first :: rest), w1) →
  first ≠ "" → tok ≠ "" →
  pair_reply r (api_log w1) first = Ok tok →
  let '(m3, w3) :=
    (m1 ← Main.handleAction app ui scan m;
     m2 ← Main.handleAction app ui pair m1;
     Main.handleAction app ui turnOn m2) w in
  Main.ip m3 = first ∧ Main.token m3 = tok
  ∧ api_log w3 = api_log w1 ++ [CallPair first; CallSetPower first tok true]
  ∧ (power_reply r (api_log w1 ++ [CallPair first]) first tok true = None →
     Main.message m3 = renderSuccess ui "Device turned on successfully").
Proof.
  intros app Hready Hscan Hfirst Htok Hpair.
  unfold mbind at 1 2, M_bind.
  assert (Main.handleAction app ui scan m w
          = (Main.with_message (Main.with_ip m first)
               (renderSuccess ui ("Found " +:+ pretty (length (first :: rest))
                                  +:+ " device(s)")), w1)) as ->.
  { unfold Main.handleAction. rewrite Hready.
    unfold mbind, M_bind, NanoleafService.ScanForDevices, mbind, M_bind.
    cbn [NanoleafService.scanner app NanoleafService.NewNanoleafService].
    by rewrite Hscan. }
  set (m1 := Main.with_message _ _).
  set (w2 := snd (cm_Save (@fileConfigManager H) first tok (log_call (CallPair first) w1))).
  assert (Main.handleAction app ui pair m1 w1
          = (Main.with_message (Main.with_token m1 tok)
               (renderSuccess ui "Device paired successfully"), w2)) as ->.
  { unfold Main.handleAction.
    change (Main.deviceReady m1) with (Main.deviceReady m). rewrite Hready.
    change (Main.ip m1) with first.
    destruct (decide (first = "")); [done|].
    unfold mbind, M_bind.
    rewrite (PairWithDevice_paired app first tok w1 (log_call (CallPair first) w1) Hfirst)
      by (cbn; by rewrite Hpair).
    reflexivity. }
  assert (api_log w2 = api_log w1 ++ [CallPair first]) as Hlog.
  { unfold w2. cbn. by rewrite on_disk_run. }
  unfold Main.handleAction, mbind, M_bind.
  change (Main.ip (Main.with_message (Main.with_token m1 tok) _)) with first.
  change (Main.token (Main.with_message (Main.with_token m1 tok) _)) with tok.
  unfold NanoleafService.SetDevicePower.
  destruct (decide (first = "" ∨ tok = "")) as [[?|?]|_]; [done..|].
  unfold mbind, M_bind. cbn [client_SetPower NanoleafService.client app
    NanoleafService.NewNanoleafService recordingClient].
  rewrite Hlog.
  destruct (power_reply r (api_log w1 ++ [CallPair first]) first tok true) as [e|];
    cbn; rewrite Hlog, <-app_assoc; done.
Qed.

Lemma scan_pair_power_session_witness :
  let '(m3, w3) :=
    (m1 ← Main.handleAction Scenarios.found Fixtures.plainUI scan
            (MainUI.session Scenarios.startMenu);
     m2 ← Main.handleAction Scenarios.found Fixtures.plainUI pair m1;
     Main.handleAction Scenarios.found Fixtures.plainUI turnOn m2) Fixtures.fresh in
  Main.ip m3 = "10.0.0.5" ∧ Main.token m3 = "T1"
  ∧ api_log w3 = [CallPair "10.0.0.5"; CallSetPower "10.0.0.5" "T1" true]
  ∧ Main.message m3 = "Device turned on successfully".
Proof.
  pose proof (@scan_pair_power_session Fixtures.lineCodec string Fixtures.friendly
                Scenarios.oneFound Fixtures.plainUI "10.0.0.5" [] "T1"
                (MainUI.session Scenarios.startMenu) Fixtures.fresh Fixtures.fresh
                eq_refl eq_refl ltac:(discriminate) ltac:(discriminate) eq_refl)
    as Hthm.
  change (NanoleafService.NewNanoleafService (recordingClient Fixtures.friendly)
            Scenarios.oneFound fileConfigManager) with Scenarios.found in Hthm.
  destruct ((m1 ← Main.handleAction Scenarios.found Fixtures.plainUI scan
                    (MainUI.session Scenarios.startMenu);
             m2 ← Main.handleAction Scenarios.found Fixtures.plainUI pair m1;
             Main.handleAction Scenarios.found Fixtures.plainUI turnOn m2)
              Fixtures.fresh) as [m3 w3].
  destruct Hthm as (Hip & Htok & Hlog & Hmsg).
  split; [exact Hip|]. split; [exact Htok|]. split; [exact Hlog|].
  exact (Hmsg eq_refl).
Defined.

(** ** The scan of the first design *)

Section LegacyScanProperties.
Context (DialTimeout : string → bool) (subnet : string).
Local Abbreviation lstep := (LegacyScan.step DialTimeout subnet).
Local Abbreviation lrun := (LegacyScan.run DialTimeout subnet).
Local Abbreviation accounted := (LegacyScan.accounted DialTimeout subnet).
Local Abbreviation listening := (LegacyScan.listening DialTimeout).

Lemma address_inj : Inj (=) (=) (LegacyScan.address subnet).
Proof.
  intros i j Hij. unfold LegacyScan.address in Hij.
  apply append_inj_r, append_inj_r in Hij. by apply (inj pretty).
Qed.

Lemma filter_absent (i : nat) (l : list nat) :
  i ∉ l → filter (λ j, j ≠ i) l = l.
Proof.
  induction l as [|j l IH]; [done|]. intros [Hne Hl]%not_elem_of_cons.
  rewrite filter_cons_True by done. by rewrite IH.
Qed.

Lemma running_split (i : nat) (l : list nat) :
  NoDup l → i ∈ l → l ≡ₚ i :: filter (λ j, j ≠ i) l.
Proof.
  induction 1 as [|j l Hj Hnd IH]; [by intros ?%elem_of_nil|].
  intros [Heq|Hin]%elem_of_cons.
  - subst j. rewrite filter_cons_False by (intros Hne; by apply Hne).
    by rewrite filter_absent.
  - assert (j ≠ i) by (intros ->; done).
    rewrite filter_cons_True by done. rewrite (IH Hin) at 1. apply Permutation_swap.
Qed.

Lemma legacy_init_accounted ctx : accounted (LegacyScan.init ctx).
Proof.
  constructor; cbn.
  - apply NoDup_seq.
  - exists []. by rewrite app_nil_r.
  - done.
  - done.
Qed.

Lemma hosts_length : length LegacyScan.hosts = 254.
Proof. apply length_seq. Qed.

Lemma legacy_step_accounted e s s' :
  accounted s → lstep e s = Some s' → accounted s'.
Proof.
  intros [Hnd (probed & Hperm & Hdev) Hcl Hret] Hstep.
  destruct e; cbn in Hstep.
  - destruct (LegacyScan.ctx_err s) eqn:Hctx; [done|]. simplify_eq.
    constructor; cbn; eauto.
    intros [ds|e] Hr; specialize (Hret _ Hr); cbn in Hret; [done|congruence].
  - case_decide as Hin; [|done]. simplify_eq.
    assert (LegacyScan.done_closed s = false) as Hopen.
    { destruct (LegacyScan.done_closed s) eqn:Hd; [|done].
      rewrite (Hcl eq_refl) in Hin. by apply elem_of_nil in Hin. }
    constructor; cbn.
    + by apply NoDup_filter.
    + exists (probed ++ [i]). split.
      * rewrite Hperm, (running_split i _ Hnd Hin) at 1. solve_Permutation.
      * rewrite fmap_app, filter_app, <-Hdev. cbn.
        destruct (decide (listening (LegacyScan.address subnet i))) as [Hd|Hd];
          unfold LegacyScan.listening in Hd.
        -- by rewrite Hd.
        -- apply not_true_is_false in Hd. by rewrite Hd, app_nil_r.
    + congruence.
    + intros [ds|e] Hr; specialize (Hret _ Hr); cbn in Hret; [|done].
      destruct Hret. congruence.
  - destruct (LegacyScan.running s) eqn:Hrun; [|done].
    destruct (LegacyScan.done_closed s) eqn:Hd; [done|]. simplify_eq.
    constructor; cbn; eauto using NoDup_nil.
    intros [ds|e] Hr; specialize (Hret _ Hr); cbn in Hret; [|done].
    destruct Hret. congruence.
  - destruct (LegacyScan.returned s) eqn:Hr; [done|].
    destruct (LegacyScan.ctx_err s) as [err|] eqn:Hctx; [|done]. simplify_eq.
    constructor; cbn; eauto. by intros r [= <-].
  - destruct (LegacyScan.returned s) eqn:Hr; [done|].
    destruct (LegacyScan.done_closed s) eqn:Hd; [|done]. simplify_eq.
    constructor; cbn; eauto. by intros r [= <-].
Qed.

Lemma legacy_run_accounted tr s s' :
  accounted s → lrun tr s = Some s' → accounted s'.
Proof.
  revert s. induction tr as [|e tr IH]; intros s Hinv; cbn.
  - by intros [= <-].
  - destruct (lstep e s) as [s1|] eqn:Hstep; [|done].
    intros Hrun. apply (IH s1); [|done]. by eapply legacy_step_accounted.
Qed.

(** X29. The scan of the first design is all or nothing under every
    interleaving: a list it returns holds, without duplicates, exactly the
    hosts of the 254 that listen on the device port, and every probe has
    ended by then, also when the context was done in between; the only error
    it returns is the error of its context. *)
Theorem legacy_scan_all_or_nothing ctx tr s :
  lrun tr (LegacyScan.init ctx) = Some s →
  (∀ ds, LegacyScan.returned s = Some (Ok ds) →
     LegacyScan.running s = []
     ∧ ds ≡ₚ filter listening (LegacyScan.address subnet <$> LegacyScan.hosts)
     ∧ NoDup ds ∧ length ds ≤ 254)
  ∧ (∀ e, LegacyScan.returned s = Some (Err e) → LegacyScan.ctx_err s = Some e).
Proof.
  intros Hrun.
  destruct (legacy_run_accounted tr _ _ (legacy_init_accounted ctx) Hrun)
    as [Hnd (probed & Hperm & Hdev) Hcl Hret].
  split.
  - intros ds Hr. destruct (Hret _ Hr) as [Hd ->].
    pose proof (Hcl Hd) as Hnone. rewrite Hnone in Hperm. cbn in Hperm.
    assert (LegacyScan.devices s
            ≡ₚ filter listening (LegacyScan.address subnet <$> LegacyScan.hosts)) as Hds.
    { by rewrite Hdev, Hperm. }
    split; [done|]. split; [done|]. split.
    + rewrite Hds. apply NoDup_filter, NoDup_fmap_2; [apply address_inj|apply NoDup_seq].
    + rewrite Hds. etrans; [apply length_filter|]. by rewrite length_fmap, hosts_length.
  - intros e Hr. exact (Hret _ Hr).
Qed.
End LegacyScanProperties.

Lemma legacy_scan_all_or_nothing_witness :
  ∃ s, LegacyScan.run Scenarios.homeDevice "192.168.1" LegacyScan.full_schedule
         (LegacyScan.init None) = Some s
    ∧ LegacyScan.returned s = Some (Ok ["192.168.1.5"])
    ∧ LegacyScan.running s = []
    ∧ ["192.168.1.5"]
      ≡ₚ filter (LegacyScan.listening Scenarios.homeDevice)
           (LegacyScan.address "192.168.1" <$> LegacyScan.hosts).
Proof.
  destruct (LegacyScan.run Scenarios.homeDevice "192.168.1" LegacyScan.full_schedule
              (LegacyScan.init None)) as [s|] eqn:Hrun;
    [|vm_compute in Hrun; discriminate Hrun].
  assert (LegacyScan.returned s = Some (Ok ["192.168.1.5"])) as Hret.
  { vm_compute in Hrun. injection Hrun as <-. reflexivity. }
  destruct (proj1 (legacy_scan_all_or_nothing Scenarios.homeDevice "192.168.1" None
                     LegacyScan.full_schedule s Hrun) _ Hret) as (Hnone & Hds & _).
  exists s. split; [reflexivity|]. split; [exact Hret|]. split; [exact Hnone|].
  exact Hds.
Defined.

(** X30. The lookup of the first design only ever answers with a subnet
    192.168.c, taken from an IPv4 address 192.168.c.d of an interface that is
    up and not loopback; on a machine without such an address the scan fails
    before any host is probed. *)
Theorem legacy_lookup_only_192_168 interfaces :
  (∀ subnet, LegacyScan.lookup (Ok interfaces) = Ok subnet →
     ∃ iface addrs c d,
       iface ∈ interfaces
       ∧ LegacyScan.FlagUp iface = true ∧ LegacyScan.FlagLoopback iface = false
       ∧ LegacyScan.Addrs iface = Ok addrs
       ∧ LocalSubnet.IPNet (LocalSubnet.IPv4 192 168 c d) ∈ addrs
       ∧ subnet = "192.168." +:+ pretty c)
  ∧ ((∀ iface addrs c d,
        iface ∈ interfaces →
        LegacyScan.FlagUp iface = true → LegacyScan.FlagLoopback iface = false →
        LegacyScan.Addrs iface = Ok addrs →
        LocalSubnet.IPNet (LocalSubnet.IPv4 192 168 c d) ∉ addrs) →
     LegacyScan.lookup (Ok interfaces) = Err "no suitable network interface found").
Proof.
  assert (∀ addrs, LegacyScan.subnet_of_addrs addrs ≠ "" →
            ∃ c d, LocalSubnet.IPNet (LocalSubnet.IPv4 192 168 c d) ∈ addrs
                   ∧ LegacyScan.subnet_of_addrs addrs = "192.168." +:+ pretty c)
    as Haddrs.
  { induction addrs as [|addr addrs IH]; [done|]. cbn.
    destruct addr as [[a b c d|lb]|]; cbn.
    - case_decide as Hab.
      + destruct Hab as [-> ->]. intros _. exists c, d. split; [left|done].
      + intros (c' & d' & Hin & Heq)%IH. exists c', d'. split; [by right|done].
    - intros (c' & d' & Hin & Heq)%IH. exists c', d'. split; [by right|done].
    - intros (c' & d' & Hin & Heq)%IH. exists c', d'. split; [by right|done]. }
  assert (∀ subnet, LegacyScan.subnet_of_interfaces interfaces = subnet →
            subnet ≠ "" →
            ∃ iface addrs c d,
              iface ∈ interfaces
              ∧ LegacyScan.FlagUp iface = true ∧ LegacyScan.FlagLoopback iface = false
              ∧ LegacyScan.Addrs iface = Ok addrs
              ∧ LocalSubnet.IPNet (LocalSubnet.IPv4 192 168 c d) ∈ addrs
              ∧ subnet = "192.168." +:+ pretty c) as Hfound.
  { intros subnet <-. induction interfaces as [|iface rest IH]; [done|]. cbn.
    assert (LegacyScan.subnet_of_interfaces rest ≠ "" →
            ∃ iface0 addrs c d,
              iface0 ∈ iface :: rest
              ∧ LegacyScan.FlagUp iface0 = true
              ∧ LegacyScan.FlagLoopback iface0 = false
              ∧ LegacyScan.Addrs iface0 = Ok addrs
              ∧ LocalSubnet.IPNet (LocalSubnet.IPv4 192 168 c d) ∈ addrs
              ∧ LegacyScan.subnet_of_interfaces rest = "192.168." +:+ pretty c)
      as Hrest.
    { intros (i0 & addrs & c & d & Hin & ?)%IH. exists i0, addrs, c, d.
      split; [by right|done]. }
    destruct (LegacyScan.FlagUp iface) eqn:Hup; cbn; [|exact Hrest].
    destruct (LegacyScan.FlagLoopback iface) eqn:Hlo; cbn; [exact Hrest|].
    destruct (LegacyScan.Addrs iface) as [addrs|e] eqn:Ha; [|exact Hrest].
    case_decide as Hne; [|exact Hrest]. intros _.
    destruct (Haddrs addrs Hne) as (c & d & Hin & Heq).
    exists iface, addrs, c, d. split; [left|done]. }
  split.
  - intros subnet. cbn. case_decide as He; [done|]. intros [= <-].
    by apply Hfound.
  - intros Hnone. cbn. case_decide as He; [done|]. exfalso.
    destruct (Hfound _ eq_refl He) as (iface & addrs & c & d & Hin & Hup & Hlo & Ha & Hd & _).
    by apply (Hnone iface addrs c d).
Qed.

Lemma legacy_lookup_only_192_168_witness :
  LegacyScan.lookup (Ok Scenarios.officeInterfaces)
  = Err "no suitable network interface found"
  ∧ LegacyScan.lookup (Ok Scenarios.homeInterfaces) = Ok "192.168.1"
  ∧ ∃ iface addrs c d,
      iface ∈ Scenarios.homeInterfaces
      ∧ LegacyScan.FlagUp iface = true ∧ LegacyScan.FlagLoopback iface = false
      ∧ LegacyScan.Addrs iface = Ok addrs
      ∧ LocalSubnet.IPNet (LocalSubnet.IPv4 192 168 c d) ∈ addrs
      ∧ "192.168.1" = "192.168." +:+ pretty c.
Proof.
  split; [|split; [reflexivity|]].
  - apply (proj2 (legacy_lookup_only_192_168 Scenarios.officeInterfaces)).
    intros iface addrs c d Hin Hup Hlo Ha Hd.
    unfold Scenarios.officeInterfaces in Hin.
    apply elem_of_cons in Hin as [->|Hin]; [discriminate Hlo|].
    apply elem_of_cons in Hin as [->|Hin]; [|by apply elem_of_nil in Hin].
    injection Ha as <-.
    apply elem_of_cons in Hd as [Hd|Hd]; [discriminate Hd|].
    apply elem_of_cons in Hd as [Hd|Hd]; [discriminate Hd|].
    by apply elem_of_nil in Hd.
  - exact (proj1 (legacy_lookup_only_192_168 Scenarios.homeInterfaces)
             "192.168.1" eq_refl).
Defined.
